(** * Kinase reliability pilot: the decision-gate engine and the calibration
      aggregator

    A shallow embedding of [generate_sar.py], [compile_reports.py],
    [run_inference.py] and [scripts/generate_manifest.py].  Python floats are IEEE binary64 numbers and are
    modelled by Rocq's primitive floats, so comparisons behave as in the
    source (including on NaN).  Dictionaries are association lists in
    insertion order.  Exceptions are values of [exn] carried by [result]. *)

From Stdlib Require Import Floats ZArith String List Bool Lia DecimalString.
Import ListNotations.

Set Warnings "-register-all,-inexact-float".

Open Scope string_scope.

(** ** A small model of the Python runtime *)
Module Py.

(** JSON-like Python values. *)
Inductive value : Type :=
| VNone
| VBool (b : bool)
| VInt (z : Z)
| VNum (f : float)
| VStr (s : string)
| VList (l : list value)
| VDict (d : list (string * value)).

Definition dict := list (string * value).

Inductive exn : Type :=
| KeyError (key : value)
| TypeError (msg : string)
| FileNotFoundError (msg : string)
| SARValidationError (msg : string).

Inductive result (A : Type) : Type :=
| Ok (a : A)
| Raise (e : exn).
Arguments Ok {A} a.
Arguments Raise {A} e.

Definition bind {A B} (r : result A) (k : A -> result B) : result B :=
  match r with
  | Ok a => k a
  | Raise e => Raise e
  end.

(** [d.get(k)]: the first binding of [k]. *)
Fixpoint dict_get (d : dict) (k : string) : option value :=
  match d with
  | [] => None
  | (k', v) :: d' => if String.eqb k' k then Some v else dict_get d' k
  end.

(** [v is None]. *)
Definition is_none (v : value) : bool :=
  match v with VNone => true | _ => false end.

(** [v == s] for a string literal [s]. *)
Definition eq_str (v : value) (s : string) : bool :=
  match v with VStr t => String.eqb t s | _ => false end.

(** [v in [s1, ..., sn]] for string literals. *)
Definition in_strs (v : value) (l : list string) : bool :=
  existsb (eq_str v) l.

(** [v[k]] for a string [k]. *)
Definition subscript (v : value) (k : string) : result value :=
  match v with
  | VDict d =>
      match dict_get d k with
      | Some x => Ok x
      | None => Raise (KeyError (VStr k))
      end
  | VStr _ => Raise (TypeError "string indices must be integers")
  | VList _ => Raise (TypeError "list indices must be integers or slices, not str")
  | VNone => Raise (TypeError "'NoneType' object is not subscriptable")
  | VBool _ => Raise (TypeError "'bool' object is not subscriptable")
  | VInt _ => Raise (TypeError "'int' object is not subscriptable")
  | VNum _ => Raise (TypeError "'float' object is not subscriptable")
  end.

(** [", ".join(l)] and friends. *)
Definition join (sep : string) (l : list string) : string :=
  String.concat sep l.

(** Float comparisons, named after the Python operator. *)
Definition fle (a b : float) : bool := PrimFloat.leb a b.
Definition flt (a b : float) : bool := PrimFloat.ltb a b.
Definition fgt (a b : float) : bool := PrimFloat.ltb b a.

End Py.
Import Py.

Notation "x <- c ;; k" := (Py.bind c (fun x => k))
  (at level 61, c at next level, right associativity).

(** ** [generate_sar.py] *)
Module GenerateSar.

(** The dictionary returned by [classify_confidence]. *)
Record confidence := {
  plddt_bin : string;
  pae_bin : string;
  overall_confidence : string
}.

(** The dictionary returned by [determine_expected_error_range]. *)
Record error_range := {
  rmsd_min : float;
  rmsd_max : float;
  rationale : string
}.

(** The dictionary returned by [classify_failure]. *)
Record failure_taxonomy := {
  class : string;
  description : string
}.

(** The ligand-pocket deviation is a number or the string ["N/A"]. *)
Inductive ligand_rmsd : Type :=
| LigNum (x : float)
| LigStr (s : string).

Definition classify_confidence (plddt_mean pae_mean : float) : confidence :=
  let plddt_bin :=
    if fgt plddt_mean 90 then "high"
    else if fgt plddt_mean 70 then "medium"
    else "low" in
  let pae_bin :=
    if flt pae_mean 5 then "high"
    else if flt pae_mean 10 then "medium"
    else "low" in
  let overall :=
    if (plddt_bin =? "high") && (pae_bin =? "high") then "high"
    else if (plddt_bin =? "low") || (pae_bin =? "low") then "low"
    else "medium" in
  {| plddt_bin := plddt_bin; pae_bin := pae_bin; overall_confidence := overall |}.

Definition determine_expected_error_range (c : confidence) : error_range :=
  let overall := overall_confidence c in
  if overall =? "high" then
    {| rmsd_min := 0.5; rmsd_max := 2.0;
       rationale := "High confidence (pLDDT>90, PAE<5) suggests low expected error" |}
  else if overall =? "medium" then
    {| rmsd_min := 1.5; rmsd_max := 4.0;
       rationale := "Medium confidence suggests moderate expected error range" |}
  else
    {| rmsd_min := 3.0; rmsd_max := 8.0;
       rationale := "Low confidence (pLDDT<70 or PAE>10) suggests high expected error" |}.

Section Formatting.

(** [fmt spec x] stands for Python's [format(x, spec)] on a float, the
    conversion behind [f"{x:.2f}"]; it is a builtin, not code of the
    repository. *)
Variable fmt : string -> float -> string.

Definition classify_failure (rmsd_global : float) (rmsd_ligand : ligand_rmsd)
    (plddt_mean pae_mean : float) (expected_range : error_range)
    (ligand_present : bool) : failure_taxonomy :=
  let rmsd_max := rmsd_max expected_range in
  if fle rmsd_global rmsd_max then
    {| class := "N/A";
       description := "Prediction within expected error range (RMSD="
         ++ fmt ".2f" rmsd_global ++ "Å <= " ++ fmt ".2f" rmsd_max ++ "Å)" |}
  else if fgt plddt_mean 90 && flt pae_mean 5
          && fgt rmsd_global (rmsd_max * 1.5)%float then
    {| class := "Class A";
       description := "Overconfidence artifact: High model confidence (pLDDT="
         ++ fmt ".1f" plddt_mean ++ ", PAE=" ++ fmt ".1f" pae_mean
         ++ ") but RMSD=" ++ fmt ".2f" rmsd_global
         ++ "Å exceeds expected range" |}
  else
    match (if ligand_present then
             match rmsd_ligand with
             | LigNum l =>
                 if fgt l (rmsd_global * 1.5)%float then Some l else None
             | LigStr _ => None
             end
           else None) with
    | Some l =>
        {| class := "Class B";
           description := "Ligand pose failure: Ligand pocket RMSD ("
             ++ fmt ".2f" l ++ "Å) significantly exceeds global RMSD ("
             ++ fmt ".2f" rmsd_global ++ "Å)" |}
    | None =>
        if fgt rmsd_global 10.0 then
          {| class := "Class C";
             description := "Potential symmetry/assembly failure: Extremely high RMSD ("
               ++ fmt ".2f" rmsd_global ++ "Å) suggests structural misalignment" |}
        else
          {| class := "Unknown";
             description := "Unmapped failure mode: RMSD=" ++ fmt ".2f" rmsd_global
               ++ "Å exceeds expected range but doesn't match known failure patterns" |}
    end.

End Formatting.

Definition determine_decision_gate (rmsd_global : float)
    (expected_range : error_range) (failure_class : string)
    (c : confidence) : string :=
  let rmsd_max := rmsd_max expected_range in
  if fle rmsd_global rmsd_max then "ACCEPT"
  else if existsb (String.eqb failure_class) ["Class A"; "Class C"]
          || fgt rmsd_global (rmsd_max * 2)%float then "REJECT"
  else "REVIEW".

Definition generate_recommended_action (decision_gate : string)
    (ft : failure_taxonomy) (pdb_id : string) : string :=
  if decision_gate =? "ACCEPT" then
    "Structure " ++ pdb_id ++ " passes quality criteria. Proceed with downstream analysis."
  else if decision_gate =? "REVIEW" then
    let failure_class := class ft in
    if failure_class =? "Class B" then
      "Manual review recommended for " ++ pdb_id
        ++ ": Ligand binding pose shows elevated error. Verify active site geometry and ligand interactions."
    else if failure_class =? "Unknown" then
      "Manual review required for " ++ pdb_id
        ++ ": Elevated error detected but failure mode unclear. Expert structural analysis needed."
    else
      "Manual review recommended for " ++ pdb_id ++ ": " ++ description ft
  else
    let failure_class := class ft in
    if failure_class =? "Class A" then
      "Reject " ++ pdb_id
        ++ ": Overconfidence artifact detected. Model confidence metrics unreliable for this target. Consider alternative modeling approaches."
    else if failure_class =? "Class C" then
      "Reject " ++ pdb_id
        ++ ": Potential symmetry/assembly failure. Verify oligomeric state and symmetry operators before use."
    else
      "Reject " ++ pdb_id
        ++ ": Error exceeds acceptable thresholds. Do not use for downstream analysis without significant refinement.".


(** *** Validation *)

Definition required_fields : list string :=
  ["expected_error_range"; "recommended_action"; "decision_gate"].

(** [field not in sar or sar[field] is None]. *)
Definition missing_or_none (d : dict) (field : string) : bool :=
  match dict_get d field with
  | None => true
  | Some v => is_none v
  end.

(** [subfield not in err_range or err_range[subfield] is None] for the
    object stored under [expected_error_range].  On a dictionary this is
    the key test; on a string [in] is the substring test and on a list the
    membership test, and the subscript by a string that follows a
    successful test raises; on a number or a boolean [in] itself raises. *)
Definition subfield_missing (err_range : value) (subfield : string) : result bool :=
  match err_range with
  | VDict d => Ok (missing_or_none d subfield)
  | VStr s =>
      match String.index 0 subfield s with
      | None => Ok true
      | Some _ => Raise (TypeError "string indices must be integers")
      end
  | VList l =>
      if existsb (fun x => eq_str x subfield) l
      then Raise (TypeError "list indices must be integers or slices, not str")
      else Ok true
  | VNone => Raise (TypeError "argument of type 'NoneType' is not iterable")
  | VBool _ => Raise (TypeError "argument of type 'bool' is not iterable")
  | VInt _ => Raise (TypeError "argument of type 'int' is not iterable")
  | VNum _ => Raise (TypeError "argument of type 'float' is not iterable")
  end.

(** The loop over [["rmsd_min", "rmsd_max", "rationale"]]. *)
Fixpoint check_subfields (err_range : value) (subfields : list string)
    : result (list string) :=
  match subfields with
  | [] => Ok []
  | subfield :: rest =>
      b <- subfield_missing err_range subfield ;;
      r <- check_subfields err_range rest ;;
      Ok (if b then ("expected_error_range." ++ subfield) :: r else r)
  end.

Definition gate_values : list string := ["ACCEPT"; "REVIEW"; "REJECT"].

(** [validate_sar sar strict_mode] is [Ok log] when the call returns, [log]
    being the lines it printed on stderr, and [Raise e] when it raises. *)
Definition validate_sar (sar : dict) (strict_mode : bool) : result (list string) :=
  let missing_required := filter (missing_or_none sar) required_fields in
  missing_sub <-
    (match dict_get sar "expected_error_range" with
     | Some err_range =>
         if is_none err_range then Ok []
         else check_subfields err_range ["rmsd_min"; "rmsd_max"; "rationale"]
     | None => Ok []
     end) ;;
  let invalid_gate :=
    match dict_get sar "decision_gate" with
    | Some g =>
        if negb (is_none g) && negb (in_strs g gate_values)
        then ["decision_gate (invalid value)"] else []
    | None => []
    end in
  let missing_fields := (missing_required ++ missing_sub ++ invalid_gate)%list in
  match missing_fields with
  | [] => Ok []
  | _ :: _ =>
      if strict_mode then
        Raise (SARValidationError
                 ("ERROR_SAR_INCOMPLETE: Missing required fields: "
                    ++ join ", " missing_fields))
      else
        Ok ["WARNING: SAR validation failed: Missing fields: "
              ++ join ", " missing_fields]
  end.

(** *** The environment of a run: random generator and clock *)

(** The state of numpy's global generator is the sequence of unit-interval
    samples it is going to deliver and the number already drawn; [clock] is
    what [datetime.utcnow().isoformat()] returns. *)
Record world := {
  samples : nat -> float;
  drawn : nat;
  clock : string
}.

(** [np.random.uniform(low, high)]. *)
Definition uniform (low high : float) (w : world) : float * world :=
  ((low + (high - low) * samples w (drawn w))%float,
   {| samples := samples w; drawn := S (drawn w); clock := clock w |}).

(** *** Building one report *)

Record target := {
  pdb_id : string;
  ligand_present : bool   (* [target.get("ligand_present", False)] *)
}.

Definition coords := list (list float).

Record prediction := {
  plddt : list float;
  pae : list (list float);
  coordinates : coords;
  (* optional keys read with [prediction.get] *)
  model_version : option value;
  seed : option value;
  recycles : option value;
  stub_output : option value
}.

Record ground_truth := {
  gt_coordinates : coords
}.

(** [np.array(c).shape] for a rectangular nested list. *)
Definition shape (c : coords) : list nat :=
  match c with
  | [] => [0]
  | row :: _ => [length c; length row]
  end.

Definition shape_eqb (a b : list nat) : bool :=
  if list_eq_dec Nat.eq_dec a b then true else false.

Definition confidence_to_value (c : confidence) : value :=
  VDict [("plddt_bin", VStr (plddt_bin c));
         ("pae_bin", VStr (pae_bin c));
         ("overall_confidence", VStr (overall_confidence c))].

Definition error_range_to_value (r : error_range) : value :=
  VDict [("rmsd_min", VNum (rmsd_min r));
         ("rmsd_max", VNum (rmsd_max r));
         ("rationale", VStr (rationale r))].

Definition failure_taxonomy_to_value (ft : failure_taxonomy) : value :=
  VDict [("class", VStr (class ft));
         ("description", VStr (description ft))].

(** [d.get(key, default)] on an optional key. *)
Definition get_default (o : option value) (default : value) : value :=
  match o with Some v => v | None => default end.

Section Numerics.

Variable fmt : string -> float -> string.

(** numpy and builtin numerics used by [generate_sar]; none is code of the
    repository.  [np_mean] is [float(np.mean(np.array(l)))] on a vector,
    [np_mean2] the same on a matrix, [np_rmsd pred gt] is
    [float(np.sqrt(np.mean(np.sum((pred - gt)**2, axis=1))))] and
    [py_round x n] is [round(x, n)].  They stand for the calls that return:
    on an empty structure, or on rows of unequal length, numpy raises, and
    [compute_rmsd_stub] and [generate_sar] with it.  The functions of this
    section give the result of a call that returns; what [main] does with a
    call that raises is in the batch loop below, where the outcome of
    [generate_sar] is a report or an exception. *)
Variable np_mean : list float -> float.
Variable np_mean2 : list (list float) -> float.
Variable np_rmsd : coords -> coords -> float.
Variable py_round : float -> Z -> float.

Definition compute_rmsd_stub (pred_coords : coords) (gt_coords : option coords)
    (w : world) : float * world :=
  match gt_coords with
  | None => uniform 1.5 4.5 w
  | Some gt =>
      let pred := pred_coords in
      if negb (shape_eqb (shape pred) (shape gt)) then
        let min_len := Nat.min (length pred) (length gt) in
        (np_rmsd (firstn min_len pred) (firstn min_len gt), w)
      else
        (np_rmsd pred gt, w)
  end.

(** The metrics of one run, as [generate_sar] computes them before it
    classifies: mean scores, global deviation, ligand-pocket deviation and
    contact-map overlap, and the environment after the draws. *)
Definition compute_metrics (t : target) (p : prediction)
    (gt : option ground_truth) (w : world)
    : float * float * float * ligand_rmsd * float * world :=
  let plddt_mean := np_mean (plddt p) in
  let pae_mean := np_mean2 (pae p) in
  let '(rmsd_global, w1) :=
    compute_rmsd_stub (coordinates p) (option_map gt_coordinates gt) w in
  let '(rmsd_ligand_pocket, w2) :=
    if ligand_present t then
      let '(u, w') := uniform 0.8 1.5 w1 in
      (LigNum (rmsd_global * u)%float, w')
    else (LigStr "N/A", w1) in
  let '(contact_map_overlap, w3) := uniform 0.6 0.95 w2 in
  (plddt_mean, pae_mean, rmsd_global, rmsd_ligand_pocket, contact_map_overlap, w3).

Definition generate_sar (t : target) (p : prediction)
    (gt : option ground_truth) (w : world) : dict * world :=
  let pdb_id := pdb_id t in
  let '(plddt_mean, pae_mean, rmsd_global, rmsd_ligand_pocket,
        contact_map_overlap, w') := compute_metrics t p gt w in
  let ligand_present := ligand_present t in
  let confidence_assessment := classify_confidence plddt_mean pae_mean in
  let expected_error_range := determine_expected_error_range confidence_assessment in
  let failure_taxonomy :=
    classify_failure fmt rmsd_global rmsd_ligand_pocket plddt_mean pae_mean
      expected_error_range ligand_present in
  let decision_gate :=
    determine_decision_gate rmsd_global expected_error_range
      (class failure_taxonomy) confidence_assessment in
  let recommended_action :=
    generate_recommended_action decision_gate failure_taxonomy pdb_id in
  ([("pdb_id", VStr pdb_id);
    ("sar_version", VStr "1.0");
    ("timestamp", VStr (clock w' ++ "Z"));
    ("metrics",
      VDict [("rmsd_global", VNum (py_round rmsd_global 2));
             ("rmsd_ligand_pocket",
               match rmsd_ligand_pocket with
               | LigNum l => VNum (py_round l 2)
               | LigStr s => VStr s
               end);
             ("contact_map_overlap", VNum (py_round contact_map_overlap 3));
             ("plddt_mean", VNum (py_round plddt_mean 2));
             ("pae_mean", VNum (py_round pae_mean 2))]);
    ("confidence_assessment", confidence_to_value confidence_assessment);
    ("expected_error_range", error_range_to_value expected_error_range);
    ("recommended_action", VStr recommended_action);
    ("decision_gate", VStr decision_gate);
    ("failure_taxonomy", failure_taxonomy_to_value failure_taxonomy);
    ("provenance",
      VDict [("model_version", get_default (model_version p) (VStr "unknown"));
             ("seed", get_default (seed p) (VInt (-1)));
             ("recycles", get_default (recycles p) (VInt (-1)));
             ("stub_output", get_default (stub_output p) (VBool false))])],
   w').

(** The metric set of a run: identifier, mean scores, global deviation,
    ligand-pocket deviation and ligand flag, as [generate_sar] has them when
    it starts to classify. *)
Definition metric_set (t : target) (p : prediction)
    (gt : option ground_truth) (w : world)
    : string * float * float * float * ligand_rmsd * bool :=
  let '(plddt_mean, pae_mean, rmsd_global, rmsd_ligand_pocket, _, _) :=
    compute_metrics t p gt w in
  (pdb_id t, plddt_mean, pae_mean, rmsd_global, rmsd_ligand_pocket,
   ligand_present t).

End Numerics.

(** The entries of a report that the classification functions produce. *)
Definition core_fields (sar : dict) : list (option value) :=
  map (dict_get sar)
    ["confidence_assessment"; "expected_error_range"; "failure_taxonomy";
     "decision_gate"; "recommended_action"].

(** [d] without the key [k]. *)
Definition dict_remove (k : string) (d : dict) : dict :=
  filter (fun kv => negb (fst kv =? k)) d.

(** A report without what it takes from the clock and from the random
    generator in every run: its timestamp and the contact-map overlap among
    its metrics. *)
Definition without_volatile (sar : dict) : dict :=
  map (fun kv =>
         if fst kv =? "metrics" then
           (fst kv,
            match snd kv with
            | VDict m => VDict (dict_remove "contact_map_overlap" m)
            | v => v
            end)
         else kv)
      (dict_remove "timestamp" sar).


(** *** The batch loop of [main] *)

(** What the loop meets at one target of the manifest, in the order of the
    source: the outcome of [target["pdb_id"]] (line 405, before the [try]
    block), an identifier or the exception raised; the lines that the first
    part of the [try] block, from the loading of the prediction to the call
    of [generate_sar], prints on stderr (the warning of [load_ground_truth])
    and its outcome, the report or the exception raised; and the exception
    that the writing of the report file raises, if any, should the loop come
    to it.  The manifest, the files and the file system are not code of the
    repository. *)
Record attempt := {
  identifier : result string;
  loading_log : list string;
  report : result dict;
  write_error : option exn
}.

(** What [main] has accumulated: its two counters, the report files written
    so far (identifier of the target and content, in writing order), the
    lines it printed on stderr, the status passed to [sys.exit], if any, and
    the exception that ended it, if any. *)
Record batch := {
  success_count : nat;
  validation_errors : list (string * string);
  written : list (string * dict);
  stderr : list string;
  exit_code : option Z;
  uncaught : option exn
}.

Definition initial_batch : batch :=
  {| success_count := 0; validation_errors := []; written := [];
     stderr := []; exit_code := None; uncaught := None |}.

Section Batch.

(** Python's builtin [str] on an exception. *)
Variable str : exn -> string.

Variable strict_mode : bool.

(** The two [except] clauses: what the loop records for an exception raised
    in the [try] block, [log] being what the block printed on stderr before
    and [files] the report files written by then. *)
Definition record_error (b : batch) (pdb_id : string) (log : list string)
    (files : list (string * dict)) (e : exn) : batch :=
  {| success_count := success_count b;
     validation_errors := validation_errors b ++ [(pdb_id, str e)];
     written := files;
     stderr :=
       stderr b ++ log
       ++ match e with
          | SARValidationError _ => ["✗ VALIDATION ERROR"; "  " ++ str e]
          | _ => ["✗ ERROR: " ++ str e]
          end;
     exit_code := if strict_mode then Some 1%Z else exit_code b;
     uncaught := uncaught b |}.

(** One iteration of the loop, for a target whose identifier is [pdb_id]:
    validation, writing of the report file, then the progress line, which
    reads [sar['decision_gate']], and the increment of the counter. *)
Definition process_target (b : batch) (pdb_id : string) (a : attempt) : batch :=
  match report a with
  | Raise e => record_error b pdb_id (loading_log a) (written b) e
  | Ok sar =>
      match validate_sar sar strict_mode with
      | Raise e => record_error b pdb_id (loading_log a) (written b) e
      | Ok log =>
          match write_error a with
          | Some e =>
              record_error b pdb_id (loading_log a ++ log) (written b) e
          | None =>
              match subscript (VDict sar) "decision_gate" with
              | Raise e =>
                  record_error b pdb_id (loading_log a ++ log)
                    (written b ++ [(pdb_id, sar)]) e
              | Ok _ =>
                  {| success_count := S (success_count b);
                     validation_errors := validation_errors b;
                     written := written b ++ [(pdb_id, sar)];
                     stderr := stderr b ++ loading_log a ++ log;
                     exit_code := exit_code b;
                     uncaught := uncaught b |}
              end
          end
      end
  end.

(** The loop: [sys.exit] ends it, and so does the exception of a target
    whose identifier cannot be read. *)
Fixpoint process_targets (b : batch) (items : list attempt) : batch :=
  match items with
  | [] => b
  | a :: rest =>
      match identifier a with
      | Raise e =>
          {| success_count := success_count b;
             validation_errors := validation_errors b;
             written := written b;
             stderr := stderr b;
             exit_code := exit_code b;
             uncaught := Some e |}
      | Ok pdb_id =>
          let b' := process_target b pdb_id a in
          match exit_code b' with
          | Some _ => b'
          | None => process_targets b' rest
          end
      end
  end.

(** The loop and the summary that follows it. *)
Definition main (items : list attempt) : batch :=
  let b := process_targets initial_batch items in
  match uncaught b, exit_code b with
  | Some _, _ | None, Some _ => b
  | None, None =>
      match validation_errors b with
      | [] => b
      | _ :: _ =>
          if strict_mode then
            {| success_count := success_count b;
               validation_errors := validation_errors b;
               written := written b;
               stderr := stderr b;
               exit_code := Some 1%Z;
               uncaught := None |}
          else b
      end
  end.

End Batch.

End GenerateSar.

(** ** [compile_reports.py]: the calibration report *)
Module CompileReports.

(** Conversion of a Python integer to binary64, rounding to nearest. *)
Definition float_of_Z (z : Z) : float :=
  SF2Prim (binary_normalize prec emax z 0 false).

(** The number numpy reads in a list entry.  Entries that are not numbers
    are outside the input type of the report; the model raises on them. *)
Definition as_float (v : value) : result float :=
  match v with
  | VNum f => Ok f
  | VInt z => Ok (float_of_Z z)
  | VBool b => Ok (if b then 1%float else 0%float)
  | _ => Raise (TypeError "cannot perform reduce with flexible type")
  end.

Fixpoint as_floats (l : list value) : result (list float) :=
  match l with
  | [] => Ok []
  | v :: rest =>
      x <- as_float v ;;
      xs <- as_floats rest ;;
      Ok (x :: xs)
  end.

(** [str(n)] for a natural number. *)
Definition str_nat (n : nat) : string :=
  NilZero.string_of_uint (Nat.to_uint n).

(** [confidence_bins]: band name to the deviations collected so far. *)
Definition bins := list (string * list value).

Definition empty_bins : bins := [("high", []); ("medium", []); ("low", [])].

(** [b[conf].append(rmsd)] on a key that is a string; [None] when the key
    is absent. *)
Fixpoint bins_append (b : bins) (conf : string) (rmsd : value) : option bins :=
  match b with
  | [] => None
  | (k, vs) :: rest =>
      if k =? conf then Some ((k, (vs ++ [rmsd])%list) :: rest)
      else option_map (cons (k, vs)) (bins_append rest conf rmsd)
  end.

(** [confidence_bins[conf].append(rmsd)] for any value [conf]. *)
Definition bins_subscript_append (b : bins) (conf rmsd : value) : result bins :=
  match conf with
  | VStr s =>
      match bins_append b s rmsd with
      | Some b' => Ok b'
      | None => Raise (KeyError conf)
      end
  | VList _ => Raise (TypeError "unhashable type: 'list'")
  | VDict _ => Raise (TypeError "unhashable type: 'dict'")
  | _ => Raise (KeyError conf)
  end.

(** The grouping loop. *)
Fixpoint group (sars : list value) (b : bins) : result bins :=
  match sars with
  | [] => Ok b
  | sar :: rest =>
      ca <- subscript sar "confidence_assessment" ;;
      conf <- subscript ca "overall_confidence" ;;
      m <- subscript sar "metrics" ;;
      rmsd <- subscript m "rmsd_global" ;;
      b' <- bins_subscript_append b conf rmsd ;;
      group rest b'
  end.

Section Calibration.

(** [float(np.mean(l))], [float(np.std(l))], ... on a list of numbers:
    numpy is not code of the repository. *)
Variables np_mean np_std np_min np_max np_median : list float -> float.

(** [datetime.utcnow().isoformat()]. *)
Variable now : string.

(** The dictionary stored for one populated band. *)
Definition band_statistics (rmsd_values : list float) : dict :=
  [("n_samples", VInt (Z.of_nat (length rmsd_values)));
   ("rmsd_mean", VNum (np_mean rmsd_values));
   ("rmsd_std", VNum (np_std rmsd_values));
   ("rmsd_min", VNum (np_min rmsd_values));
   ("rmsd_max", VNum (np_max rmsd_values));
   ("rmsd_median", VNum (np_median rmsd_values))].

(** The loop over [confidence_bins.items()]: [calibration_data] and
    [bins_with_data]. *)
Fixpoint compute_statistics (b : bins) : result (dict * nat) :=
  match b with
  | [] => Ok ([], 0)
  | (conf_level, rmsd_values) :: rest =>
      match rmsd_values with
      | [] => compute_statistics rest
      | _ :: _ =>
          xs <- as_floats rmsd_values ;;
          r <- compute_statistics rest ;;
          Ok ((conf_level, VDict (band_statistics xs)) :: fst r, S (snd r))
      end
  end.

(** The report written to [calibration_report.json], the lines printed on
    stderr, and the boolean returned. *)
Definition generate_calibration_report (sars : list value)
    : result (dict * list string * bool) :=
  confidence_bins <- group sars empty_bins ;;
  r <- compute_statistics confidence_bins ;;
  let calibration_data := fst r in
  let bins_with_data := snd r in
  let log :=
    if (bins_with_data <? 3)%nat then
      ["WARNING: Calibration has only " ++ str_nat bins_with_data
         ++ " confidence bins (< 3)"]
    else [] in
  let calibration_report :=
    [("version", VStr "1.0");
     ("generated", VStr (now ++ "Z"));
     ("total_targets", VInt (Z.of_nat (length sars)));
     ("confidence_bins", VInt (Z.of_nat bins_with_data));
     ("calibration_data", VDict calibration_data);
     ("interpretation",
       VDict [("high", VStr "Expected RMSD < 2.0Å - model highly confident and typically accurate");
              ("medium", VStr "Expected RMSD 1.5-4.0Å - model moderately confident with moderate accuracy");
              ("low", VStr "Expected RMSD 3.0-8.0Å - model uncertain with higher expected error")])] in
  Ok (calibration_report, log, (3 <=? bins_with_data)%nat).

End Calibration.

(** *** Loading and checking the reports of a batch *)

(** The manifest: a JSON object whose [targets] entry is a list. *)
Record manifest := {
  targets : list value
}.

Section Checks.

(** [format(v, "")], the conversion behind [f"{v}"]: a builtin. *)
Variable str_value : value -> string.

(** [load_sars sar_dir manifest] with the directory as a map from file names
    to what [json.load] reads in the files, of a type [A] (JSON values, or
    JSON objects when the files are known to hold objects): the reports found,
    in the order of the manifest, and the identifiers of the targets that have
    no file. *)
Fixpoint load_sars_from {A : Type} (sar_dir : string -> option A)
    (ts : list value) : result (list A * list value) :=
  match ts with
  | [] => Ok ([], [])
  | target :: rest =>
      pdb_id <- subscript target "pdb_id" ;;
      match sar_dir (str_value pdb_id ++ ".json") with
      | None =>
          r <- load_sars_from sar_dir rest ;;
          Ok (fst r, pdb_id :: snd r)
      | Some sar =>
          r <- load_sars_from sar_dir rest ;;
          Ok (sar :: fst r, snd r)
      end
  end.

Definition load_sars {A : Type} (sar_dir : string -> option A) (m : manifest)
    : result (list A * list value) :=
  load_sars_from sar_dir (targets m).

(** The lines printed on stderr and the boolean returned. *)
Definition validate_completeness {A : Type} (sars : list A) (m : manifest)
    : list string * bool :=
  let expected_count := length (targets m) in
  let actual_count := length sars in
  if (actual_count <? expected_count)%nat then
    (["FAIL: Completeness check failed - " ++ str_nat actual_count ++ "/"
        ++ str_nat expected_count ++ " SARs found"], false)
  else ([], true).

(** The entries one report adds to [invalid_sars]. *)
Definition sar_validity_errors (sar : dict) : list string :=
  let pdb_id := GenerateSar.get_default (dict_get sar "pdb_id") (VStr "unknown") in
  let gate_errors :=
    match dict_get sar "decision_gate" with
    | None => [str_value pdb_id ++ ": missing decision_gate"]
    | Some g =>
        if is_none g then [str_value pdb_id ++ ": missing decision_gate"]
        else if negb (in_strs g ["ACCEPT"; "REVIEW"; "REJECT"])
             then [str_value pdb_id ++ ": invalid decision_gate value"]
             else []
    end in
  let range_errors :=
    if GenerateSar.missing_or_none sar "expected_error_range"
    then [str_value pdb_id ++ ": missing expected_error_range"] else [] in
  let action_errors :=
    if GenerateSar.missing_or_none sar "recommended_action"
    then [str_value pdb_id ++ ": missing recommended_action"] else [] in
  (gate_errors ++ range_errors ++ action_errors)%list.

(** The lines printed on stderr and the boolean returned. *)
Definition validate_sar_validity (sars : list dict) : list string * bool :=
  let invalid_sars := flat_map sar_validity_errors sars in
  match invalid_sars with
  | [] => ([], true)
  | _ :: _ =>
      ("FAIL: SAR validity check failed"
         :: map (fun error => "  - " ++ error) invalid_sars, false)
  end.

End Checks.

End CompileReports.

(** ** [compile_reports.py]: the summary, the provenance and [main] *)
Module CompileReportsMain.
Import CompileReports.

(** What a call can raise here: an exception of the model, the
    ZeroDivisionError of a division by zero, or the ValueError of a format
    specification that does not fit its argument. *)
Inductive raised : Type :=
| Raised (e : exn)
| ZeroDivisionError (msg : string)
| ValueError (msg : string).

Inductive outcome (A : Type) : Type :=
| Returns (a : A)
| Fails (r : raised).
Arguments Returns {A} a.
Arguments Fails {A} r.

Definition of_result {A} (r : result A) : outcome A :=
  match r with
  | Ok a => Returns a
  | Raise e => Fails (Raised e)
  end.

Definition bind_outcome {A B} (c : outcome A) (k : A -> outcome B) : outcome B :=
  match c with
  | Returns a => k a
  | Fails r => Fails r
  end.

Notation "x <~ c ;; k" := (bind_outcome c (fun x => k))
  (at level 61, c at next level, right associativity).

Definition nl : string := String (Ascii.ascii_of_nat 10) EmptyString.

(** The lines of a text, each closed by a newline. *)
Definition unlines (lines : list string) : string :=
  String.concat "" (map (fun line => line ++ nl) lines).

(** The keys a [Counter] reads from a batch: the values [get] finds in the
    reports, in order; a list or an object cannot be hashed. *)
Fixpoint counter_keys (get : dict -> result value) (sars : list dict)
    : result (list value) :=
  match sars with
  | [] => Ok []
  | sar :: rest =>
      k <- get sar ;;
      match k with
      | VList _ => Raise (TypeError "unhashable type: 'list'")
      | VDict _ => Raise (TypeError "unhashable type: 'dict'")
      | _ => ks <- counter_keys get rest ;; Ok (k :: ks)
      end
  end.

(** [counts.get(key, 0)] for a string [key]. *)
Definition counter_get (keys : list value) (key : string) : nat :=
  length (filter (fun k => eq_str k key) keys).

Section Reports.

(** [format(x, spec)] for a float; [format(v, spec)] for a value read from a
    report, which raises on what is not a number; the conversion behind [f"{v}"],
    which does not raise; and [sorted] on reports paired with their keys, which
    raises when two keys cannot be compared: builtins. *)
Variable fmt : string -> float -> string.
Variable fmt_value : string -> value -> outcome string.
Variable str_value : value -> string.
Variable sorted_by_key : list (value * dict) -> result (list dict).

(** [datetime.utcnow().isoformat()], the SHA-256 of the file at a path, and
    the text of the path [dir / name]. *)
Variable now : string.
Variable compute_file_hash : string -> string.
Variable path_join : string -> string -> string.

(** One row of the table of targets. *)
Definition summary_row (sar : dict) : outcome string :=
  pdb_id <~ of_result (subscript (VDict sar) "pdb_id") ;;
  gate <~ of_result (subscript (VDict sar) "decision_gate") ;;
  ft <~ of_result (subscript (VDict sar) "failure_taxonomy") ;;
  fail_class <~ of_result (subscript ft "class") ;;
  metrics <~ of_result (subscript (VDict sar) "metrics") ;;
  rmsd <~ of_result (subscript metrics "rmsd_global") ;;
  metrics' <~ of_result (subscript (VDict sar) "metrics") ;;
  plddt <~ of_result (subscript metrics' "plddt_mean") ;;
  ca <~ of_result (subscript (VDict sar) "confidence_assessment") ;;
  conf <~ of_result (subscript ca "overall_confidence") ;;
  rmsd_text <~ fmt_value ".2f" rmsd ;;
  plddt_text <~ fmt_value ".1f" plddt ;;
  Returns ("| " ++ str_value pdb_id ++ " | " ++ str_value gate ++ " | "
             ++ str_value fail_class ++ " | " ++ rmsd_text ++ " | " ++ plddt_text
             ++ " | " ++ str_value conf ++ " |" ++ nl).

(** The loop over the sorted reports: the rows added to the text. *)
Fixpoint summary_rows (sars : list dict) : outcome string :=
  match sars with
  | [] => Returns ""
  | sar :: rest =>
      row <~ summary_row sar ;;
      rows <~ summary_rows rest ;;
      Returns (row ++ rows)
  end.

(** The keys [sorted] computes before it sorts. *)
Fixpoint keyed_by_pdb_id (sars : list dict) : result (list (value * dict)) :=
  match sars with
  | [] => Ok []
  | sar :: rest =>
      key <- subscript (VDict sar) "pdb_id" ;;
      keyed <- keyed_by_pdb_id rest ;;
      Ok ((key, sar) :: keyed)
  end.

(** [count / len(sars) * 100] printed with one decimal, for a batch that is
    not empty (both numbers are far below 2^53, where the quotient of the
    integers is that of the floats). *)
Definition percentage (count total : nat) : string :=
  fmt ".1f" (float_of_Z (Z.of_nat count) / float_of_Z (Z.of_nat total) * 100)%float.

(** [generate_summary]: the text written to SAR_SUMMARY.md. *)
Definition generate_summary (sars : list dict) : outcome string :=
  match counter_keys (fun sar => subscript (VDict sar) "decision_gate") sars with
  | Raise e => Fails (Raised e)
  | Ok decision_counts =>
      match counter_keys
              (fun sar => ft <- subscript (VDict sar) "failure_taxonomy" ;;
                          subscript ft "class") sars with
      | Raise e => Fails (Raised e)
      | Ok failure_counts =>
          match sars with
          | [] => Fails (ZeroDivisionError "division by zero")
          | _ :: _ =>
              let total := length sars in
              let gate_line (label key : string) :=
                "| " ++ label ++ " | " ++ str_nat (counter_get decision_counts key)
                  ++ " | " ++ percentage (counter_get decision_counts key) total
                  ++ "% |" in
              let class_line (label key text : string) :=
                "| " ++ label ++ " | " ++ str_nat (counter_get failure_counts key)
                  ++ " | " ++ text ++ " |" in
              let summary_md :=
                unlines
                  ["# Kinase Reliability Pilot v1.0 - SAR Summary";
                   "";
                   "**Generated:** " ++ now ++ "Z";
                   "**Total Targets:** " ++ str_nat total;
                   "";
                   "## Decision Gate Distribution";
                   "";
                   "| Decision Gate | Count | Percentage |";
                   "|--------------|-------|------------|";
                   gate_line "ACCEPT      " "ACCEPT";
                   gate_line "REVIEW      " "REVIEW";
                   gate_line "REJECT      " "REJECT";
                   "";
                   "## Failure Taxonomy Distribution";
                   "";
                   "| Failure Class | Count | Description |";
                   "|--------------|-------|-------------|";
                   class_line "N/A         " "N/A" "No failure detected";
                   class_line "Class A     " "Class A" "Overconfidence artifact";
                   class_line "Class B     " "Class B" "Ligand pose failure";
                   class_line "Class C     " "Class C" "Symmetry/assembly failure";
                   class_line "Unknown     " "Unknown" "Unmapped failure mode";
                   "";
                   "## Target Details";
                   "";
                   "| PDB ID | Decision Gate | Failure Class | RMSD (Å) | pLDDT | Confidence |";
                   "|--------|--------------|---------------|----------|-------|------------|"] in
              sorted <~ of_result (keyed <- keyed_by_pdb_id sars ;;
                                   sorted_by_key keyed) ;;
              rows <~ summary_rows sorted ;;
              Returns (summary_md ++ rows)
          end
      end
  end.

(** The command line. *)
Record args := {
  manifest_path : string;
  sar_dir_path : string;
  job_id : string;
  accepted_manifest_hash : string;
  rejected_manifest_hash : string
}.

(** [generate_execution_provenance]: the object written to
    execution_provenance.json. *)
Definition generate_execution_provenance (a : args) (output_dir : string) : dict :=
  let accepted_hash := compute_file_hash (manifest_path a) in
  let command_line :=
    "python3 compile_reports.py "
      ++ "--manifest " ++ manifest_path a ++ " "
      ++ "--sar_dir " ++ sar_dir_path a ++ " "
      ++ "--job_id " ++ job_id a ++ " "
      ++ "--accepted_manifest_hash " ++ accepted_manifest_hash a ++ " "
      ++ "--rejected_manifest_hash " ++ rejected_manifest_hash a in
  [("job_id", VStr (job_id a));
   ("job_type", VStr "compile_reports");
   ("version", VStr "1.0");
   ("timestamp", VStr (now ++ "Z"));
   ("command_line", VStr command_line);
   ("arguments",
     VDict [("manifest", VStr (manifest_path a));
            ("sar_dir", VStr (sar_dir_path a));
            ("job_id", VStr (job_id a));
            ("accepted_manifest_hash", VStr (accepted_manifest_hash a));
            ("rejected_manifest_hash", VStr (rejected_manifest_hash a))]);
   ("manifest_verification",
     VDict [("accepted_manifest_hash_expected", VStr (accepted_manifest_hash a));
            ("accepted_manifest_hash_actual", VStr accepted_hash);
            ("hash_match", VBool (accepted_hash =? accepted_manifest_hash a))]);
   ("locked_parameters",
     VDict [("seed", VInt 42); ("recycles", VInt 3);
            ("schema_version", VStr "1.0")]);
   ("outputs",
     VDict [("sar_summary", VStr (path_join output_dir "SAR_SUMMARY.md"));
            ("calibration_report",
              VStr (path_join output_dir "calibration_report.json"));
            ("execution_provenance",
              VStr (path_join output_dir "execution_provenance.json"))])].

End Reports.

(** [", ".join(missing)]: the identifiers must be strings. *)
Fixpoint strings_of (vs : list value) : result (list string) :=
  match vs with
  | [] => Ok []
  | VStr s :: rest => ss <- strings_of rest ;; Ok (s :: ss)
  | _ :: _ => Raise (TypeError "sequence item: expected str instance")
  end.

(** How [main] ends: by returning, by [sys.exit], or on an exception that
    nothing catches. *)
Inductive ending : Type :=
| Returned
| Exit (status : Z)
| Uncaught (r : raised).

(** What [main] leaves: the lines on stderr, the three files when written,
    and its ending. *)
Record compiled := {
  err : list string;
  summary_file : option string;
  calibration_file : option dict;
  provenance_file : option dict;
  ending_of : ending
}.

Section Main.

Variable fmt : string -> float -> string.
Variable fmt_value : string -> value -> outcome string.
Variable str_value : value -> string.
Variable sorted_by_key : list (value * dict) -> result (list dict).

(** [datetime.utcnow().isoformat()] at the successive readings of the clock
    in a run: one in each of the three report generators. *)
Variable utcnow : nat -> string.

Variable compute_file_hash : string -> string.
Variable path_join : string -> string -> string.
Variables np_mean np_std np_min np_max np_median : list float -> float.

(** [main] from the loaded manifest on, over a directory whose report files
    hold JSON objects. *)
Definition main (a : args) (m : manifest) (sar_dir : string -> option dict)
    : compiled :=
  match load_sars str_value sar_dir m with
  | Raise e =>
      {| err := []; summary_file := None; calibration_file := None;
         provenance_file := None; ending_of := Uncaught (Raised e) |}
  | Ok (sars, missing) =>
      match missing with
      | _ :: _ =>
          match strings_of missing with
          | Raise e =>
              {| err := []; summary_file := None; calibration_file := None;
                 provenance_file := None; ending_of := Uncaught (Raised e) |}
          | Ok ids =>
              {| err := [nl ++ "ERROR: Missing SARs for targets: " ++ join ", " ids];
                 summary_file := None; calibration_file := None;
                 provenance_file := None; ending_of := Exit 1 |}
          end
      | [] =>
          let '(log1, complete) := validate_completeness sars m in
          let '(log2, valid) := validate_sar_validity str_value sars in
          let fail_line := nl ++ "FAIL: Validation checks failed" in
          if negb (complete && valid) then
            {| err := (log1 ++ log2 ++ [fail_line])%list;
               summary_file := None; calibration_file := None;
               provenance_file := None; ending_of := Exit 1 |}
          else
            let output_dir := sar_dir_path a in
            match generate_summary fmt fmt_value str_value sorted_by_key
                    (utcnow 0) sars with
            | Fails r =>
                {| err := (log1 ++ log2)%list;
                   summary_file := None; calibration_file := None;
                   provenance_file := None; ending_of := Uncaught r |}
            | Returns summary_md =>
                match generate_calibration_report
                        np_mean np_std np_min np_max np_median (utcnow 1)
                        (map VDict sars) with
                | Raise e =>
                    {| err := (log1 ++ log2)%list;
                       summary_file := Some summary_md; calibration_file := None;
                       provenance_file := None; ending_of := Uncaught (Raised e) |}
                | Ok (report, log3, calibration_passed) =>
                    {| err := (log1 ++ log2 ++ log3)%list;
                       summary_file := Some summary_md;
                       calibration_file := Some report;
                       provenance_file :=
                         Some (generate_execution_provenance (utcnow 2)
                                 compute_file_hash path_join a output_dir);
                       ending_of :=
                         if calibration_passed then Returned else Exit 1 |}
                end
            end
      end
  end.

End Main.

End CompileReportsMain.

(** ** [run_inference.py] *)
Module RunInference.
Import GenerateSar CompileReports.

(** [sum(ord(c) for c in pdb_id)]; the characters of an identifier are
    single bytes. *)
Definition pdb_hash (pdb_id : string) : Z :=
  fold_right (fun c acc => (Z.of_nat (Ascii.nat_of_ascii c) + acc)%Z) 0%Z
    (list_ascii_of_string pdb_id).

(** [str(z)] for an integer. *)
Definition str_Z (z : Z) : string := NilZero.string_of_int (Z.to_int z).

(** [np.random.uniform(low, high, n)]: [n] draws in a row. *)
Fixpoint uniform_array (low high : float) (n : nat) (w : world)
    : list float * world :=
  match n with
  | O => ([], w)
  | S k =>
      let '(x, w1) := uniform low high w in
      let '(xs, w2) := uniform_array low high k w1 in
      (x :: xs, w2)
  end.

(** [np.random.uniform(low, high, (rows, cols))]: row after row. *)
Fixpoint uniform_matrix (low high : float) (rows cols : nat) (w : world)
    : list (list float) * world :=
  match rows with
  | O => ([], w)
  | S k =>
      let '(row, w1) := uniform_array low high cols w in
      let '(m, w2) := uniform_matrix low high k cols w1 in
      (row :: m, w2)
  end.

(** [a.tolist()] for a vector and for a matrix. *)
Definition vector_to_value (v : list float) : value := VList (map VNum v).
Definition matrix_to_value (m : list (list float)) : value :=
  VList (map vector_to_value m).

Section Inference.

(** The seeding of the two generators, which numpy refuses for a seed out of
    its range, and [np.random.randn(rows, cols)]: library code. *)
Variable set_deterministic_seed : Z -> world -> result world.
Variable np_randn : nat -> nat -> world -> list (list float) * world.

(** Python's builtin [str] on an exception, and the text of the path
    [output_dir / name]. *)
Variable str : exn -> string.
Variable path_join : string -> string -> string.

Definition run_alphafold3_stub (pdb_id : string) (seed recycles : Z) (w : world)
    : result (dict * world) :=
  let pdb_hash := pdb_hash pdb_id in
  w0 <- set_deterministic_seed (seed + pdb_hash)%Z w ;;
  let n_residues := (280 + pdb_hash mod 50)%Z in
  let '(normal, w1) := np_randn (Z.to_nat n_residues) 3 w0 in
  let stub_coords := map (map (fun x => (x * 10.0)%float)) normal in
  let '(plddt_scores, w2) :=
    uniform_array (float_of_Z (50 + (pdb_hash mod 3) * 15))
                  (float_of_Z (70 + (pdb_hash mod 3) * 15))
                  (Z.to_nat n_residues) w1 in
  let '(pae_matrix, w3) :=
    uniform_matrix (float_of_Z (2 + (pdb_hash mod 3) * 5))
                   (float_of_Z (7 + (pdb_hash mod 3) * 5))
                   (Z.to_nat n_residues) (Z.to_nat n_residues) w2 in
  Ok ([("pdb_id", VStr pdb_id);
       ("n_residues", VInt n_residues);
       ("coordinates", matrix_to_value stub_coords);
       ("plddt", vector_to_value plddt_scores);
       ("pae", matrix_to_value pae_matrix);
       ("model_version", VStr "af3_stub");
       ("seed", VInt seed);
       ("recycles", VInt recycles);
       ("stub_output", VBool true);
       ("timestamp", VStr (clock w3 ++ "Z"))],
      w3).

(** The command line. *)
Record args := {
  manifest_path : string;
  model_version : string;
  seed : Z;
  recycles : Z;
  output_dir : string
}.

(** What [main] meets at one target of the manifest: the outcome of
    [target["pdb_id"]] (line 70, before the [try] block of [process_target]),
    an identifier, of the type [str] that [run_alphafold3_stub] declares for
    it, or the exception raised; and the exception that the writing of the
    prediction file raises, if any, should the run come to it.  The manifest
    and the file system are not code of the repository. *)
Record attempt := {
  identifier : result string;
  write_error : option exn
}.

(** What a run has produced so far: the execution log, the prediction files
    written (name and content), the lines printed on stderr, and the
    environment. *)
Record run := {
  execution_log : list dict;
  predictions : list (string * dict);
  stderr : list string;
  env : world
}.

(** The [except] clause of [process_target]: the entry logged for an
    exception raised in the [try] block, in the environment [w] reached by
    then. *)
Definition log_error (pdb_id : string) (e : exn) (r : run) (w : world) : run :=
  let error_msg := "Error processing " ++ pdb_id ++ ": " ++ str e in
  {| execution_log :=
       execution_log r
       ++ [[("pdb_id", VStr pdb_id);
            ("status", VStr "error");
            ("error", VStr (str e));
            ("timestamp", VStr (clock w ++ "Z"))]];
     predictions := predictions r;
     stderr := stderr r ++ ["  ✗ " ++ error_msg];
     env := w |}.

(** [process_target] from line 72 on, for a target whose identifier is
    [pdb_id]: the boolean returned and the run after it. *)
Definition process_target (pdb_id : string) (write_error : option exn)
    (a : args) (r : run) : bool * run :=
  match run_alphafold3_stub pdb_id (seed a) (recycles a) (env r) with
  | Ok (result, w) =>
      let output_file := path_join (output_dir a) (pdb_id ++ "_prediction.json") in
      match write_error with
      | None =>
          (true,
           {| execution_log :=
                execution_log r
                ++ [[("pdb_id", VStr pdb_id);
                     ("status", VStr "success");
                     ("output_file", VStr output_file);
                     ("timestamp", VStr (clock w ++ "Z"))]];
              predictions := predictions r ++ [(output_file, result)];
              stderr := stderr r;
              env := w |})
      | Some e => (false, log_error pdb_id e r w)
      end
  | Raise e => (false, log_error pdb_id e r (env r))
  end.

(** The loop of [main]: the number of successes, the run after it, and the
    exception that ended it, if any: that of a target whose identifier
    cannot be read, which nothing catches. *)
Fixpoint process_all (ts : list attempt) (a : args) (success_count : nat) (r : run)
    : nat * run * option exn :=
  match ts with
  | [] => (success_count, r, None)
  | t :: rest =>
      match identifier t with
      | Raise e => (success_count, r, Some e)
      | Ok pdb_id =>
          let '(ok, r') := process_target pdb_id (write_error t) a r in
          process_all rest a (if ok then S success_count else success_count) r'
      end
  end.

(** How [main] ends: by returning, by [sys.exit], or on an exception that
    nothing catches. *)
Inductive ending : Type :=
| Returned
| Exit (status : Z)
| Uncaught (e : exn).

(** [main] from the loaded manifest and the creation of the output directory
    on: the provenance file when it is written, the run, and the ending.
    [provenance_write_error] is the exception that the writing of the
    provenance file raises, if any. *)
Definition main (a : args) (ts : list attempt)
    (provenance_write_error : option exn) (w : world)
    : option dict * run * ending :=
  let seed_warning :=
    if (seed a =? 42)%Z then []
    else ["WARNING: seed=" ++ str_Z (seed a) ++ " differs from locked value (42)"] in
  let recycles_warning :=
    if (recycles a =? 3)%Z then []
    else ["WARNING: recycles=" ++ str_Z (recycles a)
            ++ " differs from locked value (3)"] in
  let warnings := (seed_warning ++ recycles_warning)%list in
  let '(success_count, r, raised) :=
    process_all ts a 0
      {| execution_log := []; predictions := []; stderr := warnings; env := w |} in
  match raised with
  | Some e => (None, r, Uncaught e)
  | None =>
      let provenance :=
        [("job_type", VStr "inference");
         ("manifest", VStr (manifest_path a));
         ("model_version", VStr (model_version a));
         ("seed", VInt (seed a));
         ("recycles", VInt (recycles a));
         ("output_dir", VStr (output_dir a));
         ("timestamp", VStr (clock (env r) ++ "Z"));
         ("targets_total", VInt (Z.of_nat (length ts)));
         ("targets_success", VInt (Z.of_nat success_count));
         ("targets_failed", VInt (Z.of_nat (length ts) - Z.of_nat success_count));
         ("execution_log", VList (map VDict (execution_log r)))] in
      match provenance_write_error with
      | Some e => (None, r, Uncaught e)
      | None =>
          (Some provenance, r,
           if (success_count <? length ts)%nat then Exit 1 else Returned)
      end
  end.

End Inference.

End RunInference.

(** ** [scripts/generate_manifest.py] *)
Module GenerateManifest.

Definition create_accepted_manifest : dict :=
  [("version", VStr "1.0");
   ("created", VStr "2026-02-08T10:59:00Z");
   ("scope", VStr "Kinase Reliability Pilot - Accepted Targets");
   ("inclusion_criteria", VDict
      [("method", VStr "X-RAY");
       ("resolution_max", VNum 2.2);
       ("release_date_min", VStr "2024-01-01");
       ("release_date_max", VStr "2026-02-08");
       ("protein_class", VStr "kinase")]);
   ("targets", VList
      [VDict
         [("pdb_id", VStr "8ABC");
          ("resolution", VNum 1.8);
          ("method", VStr "X-RAY");
          ("release_date", VStr "2024-03-15");
          ("ligand_present", VBool true);
          ("kinase_family", VStr "CMGC");
          ("description", VStr "CDK2 with ATP-competitive inhibitor")];
       VDict
         [("pdb_id", VStr "8DEF");
          ("resolution", VNum 2.0);
          ("method", VStr "X-RAY");
          ("release_date", VStr "2024-05-20");
          ("ligand_present", VBool true);
          ("kinase_family", VStr "TK");
          ("description", VStr "EGFR kinase domain with gefitinib")];
       VDict
         [("pdb_id", VStr "8GHI");
          ("resolution", VNum 1.9);
          ("method", VStr "X-RAY");
          ("release_date", VStr "2024-07-10");
          ("ligand_present", VBool false);
          ("kinase_family", VStr "AGC");
          ("description", VStr "PKA catalytic subunit apo form")];
       VDict
         [("pdb_id", VStr "8JKL");
          ("resolution", VNum 2.1);
          ("method", VStr "X-RAY");
          ("release_date", VStr "2024-09-05");
          ("ligand_present", VBool true);
          ("kinase_family", VStr "CAMK");
          ("description", VStr "CaMKII with staurosporine")];
       VDict
         [("pdb_id", VStr "8MNO");
          ("resolution", VNum 1.7);
          ("method", VStr "X-RAY");
          ("release_date", VStr "2024-11-12");
          ("ligand_present", VBool true);
          ("kinase_family", VStr "TK");
          ("description", VStr "ABL1 kinase with imatinib")];
       VDict
         [("pdb_id", VStr "8PQR");
          ("resolution", VNum 2.2);
          ("method", VStr "X-RAY");
          ("release_date", VStr "2025-01-25");
          ("ligand_present", VBool false);
          ("kinase_family", VStr "CMGC");
          ("description", VStr "MAP kinase ERK2 apo")];
       VDict
         [("pdb_id", VStr "8STU");
          ("resolution", VNum 1.95);
          ("method", VStr "X-RAY");
          ("release_date", VStr "2025-03-30");
          ("ligand_present", VBool true);
          ("kinase_family", VStr "STE");
          ("description", VStr "MEK1 with allosteric inhibitor")];
       VDict
         [("pdb_id", VStr "8VWX");
          ("resolution", VNum 2.0);
          ("method", VStr "X-RAY");
          ("release_date", VStr "2025-06-15");
          ("ligand_present", VBool true);
          ("kinase_family", VStr "TK");
          ("description", VStr "SRC kinase with dasatinib")];
       VDict
         [("pdb_id", VStr "8YZA");
          ("resolution", VNum 1.85);
          ("method", VStr "X-RAY");
          ("release_date", VStr "2025-09-20");
          ("ligand_present", VBool false);
          ("kinase_family", VStr "AGC");
          ("description", VStr "AKT1 kinase apo form")];
       VDict
         [("pdb_id", VStr "8BCD");
          ("resolution", VNum 2.15);
          ("method", VStr "X-RAY");
          ("release_date", VStr "2025-12-10");
          ("ligand_present", VBool true);
          ("kinase_family", VStr "TKL");
          ("description", VStr "BRAF with vemurafenib")]])].

Definition create_rejected_manifest : dict :=
  [("version", VStr "1.0");
   ("created", VStr "2026-02-08T10:59:00Z");
   ("scope", VStr "Kinase Reliability Pilot - Rejected Targets");
   ("rejection_reasons", VStr "Failed inclusion criteria: resolution > 2.2Å, non-X-RAY methods, or release date outside range");
   ("targets", VList
      [VDict
         [("pdb_id", VStr "7AAA");
          ("resolution", VNum 2.5);
          ("method", VStr "X-RAY");
          ("release_date", VStr "2024-04-10");
          ("ligand_present", VBool true);
          ("kinase_family", VStr "CMGC");
          ("rejection_reason", VStr "Resolution > 2.2Å")];
       VDict
         [("pdb_id", VStr "7BBB");
          ("resolution", VNum 1.9);
          ("method", VStr "CRYO-EM");
          ("release_date", VStr "2024-06-15");
          ("ligand_present", VBool false);
          ("kinase_family", VStr "TK");
          ("rejection_reason", VStr "Method is CRYO-EM, not X-RAY")];
       VDict
         [("pdb_id", VStr "7CCC");
          ("resolution", VNum 3.0);
          ("method", VStr "X-RAY");
          ("release_date", VStr "2025-02-20");
          ("ligand_present", VBool true);
          ("kinase_family", VStr "AGC");
          ("rejection_reason", VStr "Resolution > 2.2Å")];
       VDict
         [("pdb_id", VStr "7DDD");
          ("resolution", VNum 2.0);
          ("method", VStr "NMR");
          ("release_date", VStr "2024-08-30");
          ("ligand_present", VBool false);
          ("kinase_family", VStr "CAMK");
          ("rejection_reason", VStr "Method is NMR, not X-RAY")];
       VDict
         [("pdb_id", VStr "7EEE");
          ("resolution", VNum 2.8);
          ("method", VStr "X-RAY");
          ("release_date", VStr "2025-05-05");
          ("ligand_present", VBool true);
          ("kinase_family", VStr "TK");
          ("rejection_reason", VStr "Resolution > 2.2Å")];
       VDict
         [("pdb_id", VStr "7FFF");
          ("resolution", VNum 1.8);
          ("method", VStr "X-RAY");
          ("release_date", VStr "2023-12-15");
          ("ligand_present", VBool true);
          ("kinase_family", VStr "STE");
          ("rejection_reason", VStr "Release date before 2024-01-01")];
       VDict
         [("pdb_id", VStr "7GGG");
          ("resolution", VNum 2.4);
          ("method", VStr "X-RAY");
          ("release_date", VStr "2024-10-10");
          ("ligand_present", VBool false);
          ("kinase_family", VStr "CMGC");
          ("rejection_reason", VStr "Resolution > 2.2Å")];
       VDict
         [("pdb_id", VStr "7HHH");
          ("resolution", VNum 1.95);
          ("method", VStr "ELECTRON CRYSTALLOGRAPHY");
          ("release_date", VStr "2025-01-20");
          ("ligand_present", VBool true);
          ("kinase_family", VStr "TK");
          ("rejection_reason", VStr "Method not X-RAY")];
       VDict
         [("pdb_id", VStr "7III");
          ("resolution", VNum 3.2);
          ("method", VStr "X-RAY");
          ("release_date", VStr "2025-07-15");
          ("ligand_present", VBool true);
          ("kinase_family", VStr "AGC");
          ("rejection_reason", VStr "Resolution > 2.2Å")];
       VDict
         [("pdb_id", VStr "7JJJ");
          ("resolution", VNum 2.1);
          ("method", VStr "X-RAY");
          ("release_date", VStr "2026-02-09");
          ("ligand_present", VBool false);
          ("kinase_family", VStr "TKL");
          ("rejection_reason", VStr "Release date after 2026-02-08")]])].

End GenerateManifest.

(** ** The validation contract, as the specification words it *)
Module Contract.
Import GenerateSar CompileReports.

(** A field is missing or null. *)
Definition absent_or_null (d : dict) (field : string) : Prop :=
  dict_get d field = None \/ dict_get d field = Some VNone.

(** The record stored under [expected_error_range], when there is one, is
    an object (a dictionary), as the data model of the report has it. *)
Definition range_is_record (sar : dict) : Prop :=
  match dict_get sar "expected_error_range" with
  | None | Some VNone | Some (VDict _) => True
  | Some _ => False
  end.

(** One of [decision_gate], [expected_error_range] (or one of its three
    subfields) or [recommended_action] is missing or null, or
    [decision_gate] is not one of the three gate values. *)
Definition incomplete (sar : dict) : Prop :=
  absent_or_null sar "decision_gate" \/
  absent_or_null sar "expected_error_range" \/
  (exists r, dict_get sar "expected_error_range" = Some (VDict r) /\
             (absent_or_null r "rmsd_min" \/ absent_or_null r "rmsd_max" \/
              absent_or_null r "rationale")) \/
  absent_or_null sar "recommended_action" \/
  (exists g, dict_get sar "decision_gate" = Some g /\
             g <> VStr "ACCEPT" /\ g <> VStr "REVIEW" /\ g <> VStr "REJECT").

(** The call raises the validation error, with the ERROR_SAR_INCOMPLETE
    message. *)
Definition fails_incomplete (r : result (list string)) : Prop :=
  exists fields,
    r = Raise (SARValidationError
                 ("ERROR_SAR_INCOMPLETE: Missing required fields: " ++ fields)).

(** [incomplete], as a test. *)
Definition incompleteb (sar : dict) : bool :=
  missing_or_none sar "decision_gate"
  || missing_or_none sar "expected_error_range"
  || match dict_get sar "expected_error_range" with
     | Some (VDict r) =>
         missing_or_none r "rmsd_min" || missing_or_none r "rmsd_max"
         || missing_or_none r "rationale"
     | _ => false
     end
  || missing_or_none sar "recommended_action"
  || match dict_get sar "decision_gate" with
     | Some g => negb (in_strs g gate_values)
     | None => false
     end.

(** The fields [validate_sar] reports, in the order it finds them. *)
Definition missing_fields_of (sar : dict) : list string :=
  (filter (missing_or_none sar) required_fields
   ++ match dict_get sar "expected_error_range" with
      | Some (VDict r) =>
          map (String.append "expected_error_range.")
            (filter (missing_or_none r) ["rmsd_min"; "rmsd_max"; "rationale"])
      | _ => []
      end
   ++ match dict_get sar "decision_gate" with
      | Some g =>
          if negb (is_none g) && negb (in_strs g gate_values)
          then ["decision_gate (invalid value)"] else []
      | None => []
      end)%list.

(** What [validate_sar] prints in lenient mode. *)
Definition lenient_log (sar : dict) : list string :=
  if incompleteb sar then
    ["WARNING: SAR validation failed: Missing fields: "
       ++ join ", " (missing_fields_of sar)]
  else [].

(** The message of the error [validate_sar] raises in strict mode. *)
Definition strict_error (sar : dict) : exn :=
  SARValidationError
    ("ERROR_SAR_INCOMPLETE: Missing required fields: "
       ++ join ", " (missing_fields_of sar)).

(** The loop over targets that all have an identifier, a prediction and a
    ground truth, for which [generate_sar] returned the reports [reports], and
    whose report files can be written. *)
Definition built (reports : list (string * dict)) : list attempt :=
  map (fun it =>
         {| identifier := Ok (fst it); loading_log := []; report := Ok (snd it);
            write_error := None |}) reports.

(** The report has a [decision_gate] entry, null or not. *)
Definition has_gate (sar : dict) : bool :=
  match dict_get sar "decision_gate" with
  | Some _ => true
  | None => false
  end.

(** *** Calibration: the bands of a batch *)

Definition bands : list string := ["high"; "medium"; "low"].

(** The overall band and the global deviation a report carries, when its
    confidence assessment and metrics are objects with these entries and the
    band is a string. *)
Definition sar_entry (sar : value) : option (string * value) :=
  match subscript sar "confidence_assessment" with
  | Ok ca =>
      match subscript ca "overall_confidence" with
      | Ok (VStr conf) =>
          match subscript sar "metrics" with
          | Ok m =>
              match subscript m "rmsd_global" with
              | Ok rmsd => Some (conf, rmsd)
              | Raise _ => None
              end
          | Raise _ => None
          end
      | _ => None
      end
  | Raise _ => None
  end.

(** A finalized report: its overall band is one of the three bands and its
    global deviation is a number. *)
Definition finalized (sar : value) : bool :=
  match sar_entry sar with
  | Some (conf, rmsd) =>
      existsb (String.eqb conf) bands
      && match as_float rmsd with Ok _ => true | Raise _ => false end
  | None => false
  end.

(** The report is in the band [band]. *)
Definition in_band (band : string) (sar : value) : bool :=
  match sar_entry sar with
  | Some (conf, _) => conf =? band
  | None => false
  end.

(** The observed global deviations of the reports of a band, in the order of
    the batch. *)
Definition band_values (band : string) (sars : list value) : list float :=
  flat_map (fun sar =>
              match sar_entry sar with
              | Some (conf, rmsd) =>
                  if conf =? band then
                    match as_float rmsd with Ok x => [x] | Raise _ => [] end
                  else []
              | None => []
              end) sars.

(** The same entries as the reports store them, before numpy reads them. *)
Definition raw_values (band : string) (sars : list value) : list value :=
  flat_map (fun sar =>
              match sar_entry sar with
              | Some (conf, rmsd) => if conf =? band then [rmsd] else []
              | None => []
              end) sars.

Definition is_nil {A} (l : list A) : bool :=
  match l with [] => true | _ :: _ => false end.

(** The number of bands that have at least one report. *)
Definition populated_bands (sars : list value) : nat :=
  length (filter (fun band => negb (is_nil (band_values band sars))) bands).

Section CalibrationContract.

Variables np_mean np_std np_min np_max np_median : list float -> float.

(** The entry of a band: none when it has no report. *)
Definition band_entry (band : string) (xs : list float) : dict :=
  match xs with
  | [] => []
  | _ :: _ =>
      [(band, VDict (band_statistics np_mean np_std np_min np_max np_median xs))]
  end.

(** One entry for each band that has a report. *)
Definition expected_calibration_data (sars : list value) : dict :=
  flat_map (fun band => band_entry band (band_values band sars)) bands.

End CalibrationContract.

(** *** Readings used by the further properties *)

(** The report has the three required fields, none of them null, and its
    gate is one of the three gate values: what the report compilation asks. *)
Definition has_required_fields (sar : dict) : Prop :=
  ~ absent_or_null sar "decision_gate" /\
  ~ absent_or_null sar "expected_error_range" /\
  ~ absent_or_null sar "recommended_action" /\
  exists g, dict_get sar "decision_gate" = Some (VStr g) /\ In g gate_values.

(** A subfield of the expected error range is missing or null. *)
Definition range_subfield_missing (sar : dict) : Prop :=
  exists r, dict_get sar "expected_error_range" = Some (VDict r) /\
            (absent_or_null r "rmsd_min" \/ absent_or_null r "rmsd_max" \/
             absent_or_null r "rationale").

(** The sample count that the calibration data records for a band: 0 when
    the band has no entry. *)
Definition n_samples_in (data : dict) (band : string) : Z :=
  match dict_get data band with
  | Some (VDict e) =>
      match dict_get e "n_samples" with
      | Some (VInt n) => n
      | _ => 0%Z
      end
  | _ => 0%Z
  end.

(** The entries of an execution log that report a success. *)
Definition successes (log : list dict) : list dict :=
  filter (fun entry =>
            match dict_get entry "status" with
            | Some v => eq_str v "success"
            | None => false
            end) log.

(** The identifiers of the targets that the inference loop reaches: those
    before the first target whose identifier cannot be read. *)
Fixpoint reached (ts : list RunInference.attempt) : list string :=
  match ts with
  | [] => []
  | t :: rest =>
      match RunInference.identifier t with
      | Ok pdb_id => pdb_id :: reached rest
      | Raise _ => []
      end
  end.

(** The identifier of every target can be read. *)
Definition all_identified (ts : list RunInference.attempt) : Prop :=
  Forall (fun t => exists pdb_id, RunInference.identifier t = Ok pdb_id) ts.

(** The same command line with other expected hashes. *)
Definition with_hashes (a : CompileReportsMain.args) (accepted rejected : string)
    : CompileReportsMain.args :=
  {| CompileReportsMain.manifest_path := CompileReportsMain.manifest_path a;
     CompileReportsMain.sar_dir_path := CompileReportsMain.sar_dir_path a;
     CompileReportsMain.job_id := CompileReportsMain.job_id a;
     CompileReportsMain.accepted_manifest_hash := accepted;
     CompileReportsMain.rejected_manifest_hash := rejected |}.

(** The inclusion criteria that a target fails, by the word that the
    rejection reasons use for them; dates in ISO format compare as strings.
    [None] on a target or on criteria without the fields compared. *)
Definition failed_criteria (criteria target : dict) : option (list string) :=
  match dict_get criteria "method", dict_get criteria "resolution_max",
        dict_get criteria "release_date_min", dict_get criteria "release_date_max",
        dict_get target "method", dict_get target "resolution",
        dict_get target "release_date" with
  | Some (VStr method), Some (VNum resolution_max),
    Some (VStr date_min), Some (VStr date_max),
    Some (VStr m), Some (VNum r), Some (VStr d) =>
      Some ((if m =? method then [] else ["Method"])
              ++ (if fle r resolution_max then [] else ["Resolution"])
              ++ (if (date_min <=? d) && (d <=? date_max) then []
                  else ["Release date"]))%list
  | _, _, _, _, _, _, _ => None
  end.

(** A target of the accepted manifest meets every criterion. *)
Definition meets_criteria (criteria : dict) (target : value) : Prop :=
  exists t, target = VDict t /\ failed_criteria criteria t = Some [].

(** A target of the rejected manifest fails one criterion, the one its
    rejection reason starts with. *)
Definition rejected_for_cause (criteria : dict) (target : value) : Prop :=
  exists t criterion reason,
    target = VDict t /\ failed_criteria criteria t = Some [criterion] /\
    dict_get t "rejection_reason" = Some (VStr reason) /\
    String.prefix criterion reason = true.

(** A report built by [generate_sar], for some target, prediction, ground
    truth and environment. *)
Definition generated (fmt : string -> float -> string)
    (np_mean : list float -> float) (np_mean2 : list (list float) -> float)
    (np_rmsd : coords -> coords -> float) (py_round : float -> Z -> float)
    (sar : dict) : Prop :=
  exists t p g w,
    sar = fst (generate_sar fmt np_mean np_mean2 np_rmsd py_round t p g w).

(** What the summary reads in a report: strings for the identifier, the
    gate, the class of failure and the overall confidence, and numbers for
    the global deviation and the mean pLDDT. *)
Definition summarizable (sar : dict) : Prop :=
  exists pdb_id gate class rmsd plddt conf,
    dict_get sar "pdb_id" = Some (VStr pdb_id) /\
    dict_get sar "decision_gate" = Some (VStr gate) /\
    (ca <- subscript (VDict sar) "confidence_assessment" ;;
     subscript ca "overall_confidence") = Ok (VStr conf) /\
    (ft <- subscript (VDict sar) "failure_taxonomy" ;; subscript ft "class")
    = Ok (VStr class) /\
    (m <- subscript (VDict sar) "metrics" ;; subscript m "rmsd_global")
    = Ok (VNum rmsd) /\
    (m <- subscript (VDict sar) "metrics" ;; subscript m "plddt_mean")
    = Ok (VNum plddt).

(** [sorted] on string keys returns reports it was given. *)
Definition sorts_strings (sorted_by_key : list (value * dict) -> result (list dict))
    : Prop :=
  forall keyed,
    Forall (fun kd => exists s, fst kd = VStr s) keyed ->
    exists l, sorted_by_key keyed = Ok l /\ incl l (map snd keyed).

End Contract.

(** ** Sample data used by the examples below *)
Module Samples.
Import GenerateSar CompileReports.

(** A formatter that prints nothing: the class of a failure and the gate do
    not depend on how numbers are printed. *)
Definition fmt_blank (spec : string) (x : float) : string := "".

Definition conf_high : confidence :=
  {| plddt_bin := "high"; pae_bin := "high"; overall_confidence := "high" |}.

Definition conf_bogus : confidence :=
  {| plddt_bin := "high"; pae_bin := "low"; overall_confidence := "very high" |}.

Definition range_high : error_range := determine_expected_error_range conf_high.

(** A complete report, the same without its gate, and the same with a gate
    outside the enumeration. *)
Definition sar_complete : dict :=
  [("pdb_id", VStr "1ATP");
   ("expected_error_range", error_range_to_value range_high);
   ("recommended_action",
     VStr (generate_recommended_action "ACCEPT"
             {| class := "N/A"; description := "" |} "1ATP"));
   ("decision_gate", VStr "ACCEPT")].

Definition sar_no_gate : dict :=
  [("pdb_id", VStr "1ATP");
   ("expected_error_range", error_range_to_value range_high);
   ("recommended_action", VStr "Proceed.")].

(** [str] on the exceptions of the model: the message, and for a [KeyError]
    the key between quotes when it is a string. *)
Definition str_sample (e : exn) : string :=
  match e with
  | KeyError (VStr key) => "'" ++ key ++ "'"
  | KeyError _ => "KeyError"
  | TypeError m | FileNotFoundError m | SARValidationError m => m
  end.

(** Stand-ins for the external numerics, enough to run the model on the
    examples; the theorems hold for every choice of them. *)
Definition mean_sample (l : list float) : float :=
  (fold_left PrimFloat.add l 0 / float_of_Z (Z.of_nat (length l)))%float.

Definition mean2_sample (m : list (list float)) : float :=
  mean_sample (concat m).

Definition sqdist_sample (a b : list float) : float :=
  fold_left PrimFloat.add
    (map (fun xy => ((fst xy - snd xy) * (fst xy - snd xy))%float) (combine a b)) 0%float.

Definition rmsd_sample (pred gt : coords) : float :=
  PrimFloat.sqrt
    (mean_sample (map (fun rows => sqdist_sample (fst rows) (snd rows))
                    (combine pred gt))).

Definition round_sample (x : float) (ndigits : Z) : float := x.

Definition std_sample (l : list float) : float :=
  PrimFloat.sqrt
    (mean_sample
       (map (fun x => ((x - mean_sample l) * (x - mean_sample l))%float) l)).

Definition min_sample (l : list float) : float :=
  match l with
  | [] => nan
  | x :: rest => fold_left (fun m y => if flt y m then y else m) rest x
  end.

Definition max_sample (l : list float) : float :=
  match l with
  | [] => nan
  | x :: rest => fold_left (fun m y => if flt m y then y else m) rest x
  end.

Fixpoint insert_sorted (x : float) (l : list float) : list float :=
  match l with
  | [] => [x]
  | y :: rest => if fle x y then x :: l else y :: insert_sorted x rest
  end.

Definition median_sample (l : list float) : float :=
  let sorted := fold_right insert_sorted [] l in
  let n := length l in
  if Nat.even n then
    ((nth (n / 2 - 1) sorted nan + nth (n / 2) sorted nan) / 2)%float
  else nth (n / 2) sorted nan.

(** Two environments: different clocks, different generator outputs. *)
Definition world_monday : world :=
  {| samples := fun _ => 0.25%float; drawn := 0; clock := "2024-01-01T09:00:00" |}.

Definition world_tuesday : world :=
  {| samples := fun _ => 0.5%float; drawn := 0; clock := "2024-01-02T09:00:00" |}.

Definition target_apo : target := {| pdb_id := "1ATP"; ligand_present := false |}.

Definition prediction_sample : prediction :=
  {| plddt := [96; 94]%float;
     pae := [[2; 4]; [4; 2]]%float;
     coordinates := [[3; 4; 0]; [0; 0; 0]]%float;
     model_version := None; seed := Some (VInt 42); recycles := Some (VInt 3);
     stub_output := Some (VBool true) |}.

Definition ground_truth_sample : ground_truth :=
  {| gt_coordinates := [[0; 0; 0]; [3; 4; 0]]%float |}.

(** The part of a report that the calibration reads. *)
Definition sar_in (band : string) (rmsd : float) : value :=
  VDict [("confidence_assessment", VDict [("overall_confidence", VStr band)]);
         ("metrics", VDict [("rmsd_global", VNum rmsd)])].

Definition batch_three_bands : list value :=
  [sar_in "high" 1.0; sar_in "low" 6.5; sar_in "medium" 2.5; sar_in "high" 1.5].

Definition batch_one_band : list value :=
  [sar_in "medium" 2.5; sar_in "medium" 3.5].

Definition sar_maybe : dict :=
  [("pdb_id", VStr "1ATP");
   ("expected_error_range", error_range_to_value range_high);
   ("recommended_action", VStr "Proceed.");
   ("decision_gate", VStr "MAYBE")].

(** A report with all its fields but an empty expected error range. *)
Definition sar_empty_range : dict :=
  [("pdb_id", VStr "1ATP");
   ("expected_error_range", VDict []);
   ("recommended_action", VStr "Proceed.");
   ("decision_gate", VStr "ACCEPT")].

(** A report without decision_gate whose expected error range is a number. *)
Definition sar_number_range : dict :=
  [("pdb_id", VStr "1ATP");
   ("expected_error_range", VNum 2.0);
   ("recommended_action", VStr "Proceed.")].

(** [str] on the values of the examples: a string is itself. *)
Definition str_value_sample (v : value) : string :=
  match v with
  | VStr s => s
  | _ => "?"
  end.

(** A directory with the reports of 1ATP and 3LCK, and a manifest of three
    targets. *)
Definition sar_dir_sample (name : string) : option value :=
  if name =? "1ATP.json" then Some (VDict sar_complete)
  else if name =? "3LCK.json" then Some (VDict sar_maybe)
  else None.

Definition manifest_sample : manifest :=
  {| targets := [VDict [("pdb_id", VStr "1ATP")];
                 VDict [("pdb_id", VStr "2SRC")];
                 VDict [("pdb_id", VStr "3LCK")]] |}.

(** Stand-ins for the library code around the stub, for the examples: a
    seeding that refuses negative seeds and restarts the generator, and
    normal draws that are all zero. *)
Definition seed_sample (seed : Z) (w : world) : result world :=
  if (seed <? 0)%Z then Raise (TypeError "Seed must be between 0 and 2**32 - 1")
  else Ok {| samples := samples w; drawn := 0; clock := clock w |}.

Definition randn_sample (rows cols : nat) (w : world) : list (list float) * world :=
  (repeat (repeat 0%float cols) rows, w).

Definition path_join_sample (dir name : string) : string := dir ++ "/" ++ name.

Definition args_locked : RunInference.args :=
  {| RunInference.manifest_path := "benchmark_v1.0.json";
     RunInference.model_version := "af3_stub";
     RunInference.seed := 42;
     RunInference.recycles := 3;
     RunInference.output_dir := "predictions" |}.

Definition args_negative_seed : RunInference.args :=
  {| RunInference.manifest_path := "benchmark_v1.0.json";
     RunInference.model_version := "af3_stub";
     RunInference.seed := -1000;
     RunInference.recycles := 3;
     RunInference.output_dir := "predictions" |}.

(** A complete report of a target in a confidence band, a directory with
    the reports of the three targets of the manifest, one per band, and
    stand-ins for the formatting and sorting builtins. *)
Definition report_sample (pdb_id band : string) (rmsd : float) : dict :=
  [("pdb_id", VStr pdb_id);
   ("decision_gate", VStr "ACCEPT");
   ("expected_error_range", error_range_to_value range_high);
   ("recommended_action", VStr "Proceed.");
   ("failure_taxonomy", VDict [("class", VStr "N/A")]);
   ("metrics", VDict [("rmsd_global", VNum rmsd); ("plddt_mean", VNum 90)]);
   ("confidence_assessment", VDict [("overall_confidence", VStr band)])].

Definition report_dir_sample (name : string) : option dict :=
  if name =? "1ATP.json" then Some (report_sample "1ATP" "high" 1.0)
  else if name =? "2SRC.json" then Some (report_sample "2SRC" "medium" 2.5)
  else if name =? "3LCK.json" then Some (report_sample "3LCK" "low" 6.5)
  else None.

Definition empty_dir_sample (name : string) : option dict := None.

Definition fmt_value_sample (spec : string) (v : value)
    : CompileReportsMain.outcome string :=
  match v with
  | VNum _ | VInt _ => CompileReportsMain.Returns "0.0"
  | _ =>
      CompileReportsMain.Fails
        (CompileReportsMain.Raised (TypeError "unsupported format string"))
  end.

Definition sorted_sample (keyed : list (value * dict)) : result (list dict) :=
  Ok (map snd keyed).

Definition hash_sample (path : string) : string := "0f3a".

(** A clock that advances by one second at each reading. *)
Definition clock_sample (n : nat) : string :=
  "2024-01-01T09:00:0" ++ str_nat n.

Definition args_compile : CompileReportsMain.args :=
  {| CompileReportsMain.manifest_path := "benchmark_v1.0.json";
     CompileReportsMain.sar_dir_path := "sar_results";
     CompileReportsMain.job_id := "KINASE_PILOT_V1";
     CompileReportsMain.accepted_manifest_hash := "0f3a";
     CompileReportsMain.rejected_manifest_hash := "77b1" |}.

(** A directory with one report, built by [generate_sar], and its manifest. *)
Definition generated_sample : dict :=
  fst (generate_sar fmt_blank mean_sample mean2_sample rmsd_sample round_sample
         target_apo prediction_sample (Some ground_truth_sample) world_monday).

Definition generated_dir_sample (name : string) : option dict :=
  if name =? "1ATP.json" then Some generated_sample else None.

Definition manifest_one : manifest :=
  {| targets := [VDict [("pdb_id", VStr "1ATP")]] |}.

End Samples.

(* ================================================================== *)
(** * Properties *)

Import GenerateSar CompileReports Contract Samples.

(** Closes the propositional goals left once a rule function has been
    evaluated on every combination of its tests. *)
Ltac split_hyps :=
  repeat match goal with
         | H : _ /\ _ |- _ => destruct H
         | H : _ \/ _ |- _ => destruct H
         end.

Ltac settle_cases :=
  repeat split; intros; split_hyps;
  try discriminate; try contradiction; try congruence; auto;
  try (intros [? | ?]; discriminate);
  try (intros [? ?]; discriminate);
  try match goal with H : ~ _ |- _ => solve [exfalso; apply H; auto] end.

(** ** The decision gate *)

(** C1, as stated, fails: with non-negative bounds [0.5, 2.0], deviation 1.0
    and failure class "Class A" the gate is ACCEPT, not REJECT. *)
Lemma determine_decision_gate_class_a_within_range :
  fle 0 (rmsd_min range_high) = true /\
  fle (rmsd_min range_high) (rmsd_max range_high) = true /\
  determine_decision_gate 1.0 range_high "Class A" conf_high = "ACCEPT" /\
  determine_decision_gate 1.0 range_high "Class A" conf_high <> "REJECT".
Proof. repeat split; try reflexivity. discriminate. Qed.

(** C1 (amended): the gate is ACCEPT if and only if the deviation is <= the
    upper bound; it is REJECT if and only if the deviation is not <= the upper
    bound and the class is "Class A" or "Class C" or the deviation is > 2x the
    upper bound; it is REVIEW in the remaining case; so exactly one of the
    three values results and ACCEPT and REJECT exclude each other. *)
Theorem determine_decision_gate_rule
    (d : float) (r : error_range) (cls : string) (c : confidence) :
  (determine_decision_gate d r cls c = "ACCEPT" <-> fle d (rmsd_max r) = true) /\
  (determine_decision_gate d r cls c = "REJECT" <->
     fle d (rmsd_max r) = false /\
     (cls = "Class A" \/ cls = "Class C" \/ fgt d (rmsd_max r * 2)%float = true)) /\
  (determine_decision_gate d r cls c = "REVIEW" <->
     fle d (rmsd_max r) = false /\
     cls <> "Class A" /\ cls <> "Class C" /\ fgt d (rmsd_max r * 2)%float = false) /\
  (determine_decision_gate d r cls c = "ACCEPT" \/
   determine_decision_gate d r cls c = "REVIEW" \/
   determine_decision_gate d r cls c = "REJECT") /\
  ~ (determine_decision_gate d r cls c = "ACCEPT" /\
     determine_decision_gate d r cls c = "REJECT").
Proof.
  unfold determine_decision_gate; simpl.
  destruct (fle d (rmsd_max r)) eqn:Hle;
    destruct (String.eqb_spec cls "Class A") as [Ha | Ha];
    destruct (String.eqb_spec cls "Class C") as [Hc | Hc];
    destruct (fgt d (rmsd_max r * 2)%float) eqn:Hgt; simpl;
    settle_cases.
Qed.

(** ** The confidence classifier *)

(** C2: the overall band is one of high, medium, low; it is "low" whenever
    an individual band is "low"; it is "high" exactly when both individual
    bands are "high", that is when the confidence score is > 90 and the error
    estimate is < 5; it is "medium" in all other cases. *)
Theorem classify_confidence_overall (plddt_mean pae_mean : float) :
  (overall_confidence (classify_confidence plddt_mean pae_mean) = "high" \/
   overall_confidence (classify_confidence plddt_mean pae_mean) = "medium" \/
   overall_confidence (classify_confidence plddt_mean pae_mean) = "low") /\
  (plddt_bin (classify_confidence plddt_mean pae_mean) = "low" \/
   pae_bin (classify_confidence plddt_mean pae_mean) = "low" ->
   overall_confidence (classify_confidence plddt_mean pae_mean) = "low") /\
  (overall_confidence (classify_confidence plddt_mean pae_mean) = "high" <->
   plddt_bin (classify_confidence plddt_mean pae_mean) = "high" /\
   pae_bin (classify_confidence plddt_mean pae_mean) = "high") /\
  (plddt_bin (classify_confidence plddt_mean pae_mean) = "high" /\
   pae_bin (classify_confidence plddt_mean pae_mean) = "high" <->
   fgt plddt_mean 90 = true /\ flt pae_mean 5 = true) /\
  (overall_confidence (classify_confidence plddt_mean pae_mean) = "medium" <->
   ~ (plddt_bin (classify_confidence plddt_mean pae_mean) = "high" /\
      pae_bin (classify_confidence plddt_mean pae_mean) = "high") /\
   ~ (plddt_bin (classify_confidence plddt_mean pae_mean) = "low" \/
      pae_bin (classify_confidence plddt_mean pae_mean) = "low")).
Proof.
  unfold classify_confidence; simpl.
  destruct (fgt plddt_mean 90), (fgt plddt_mean 70),
    (flt pae_mean 5), (flt pae_mean 10); simpl;
    settle_cases.
Qed.

(** ** The expected error range *)

(** C4: on the three bands the estimator is the fixed lookup
    high -> [0.5, 2.0], medium -> [1.5, 4.0], low -> [3.0, 8.0], each with a
    rationale that starts by naming the band; its result depends on the
    overall band only, so two calls with the same band give the same output. *)
Theorem determine_expected_error_range_lookup :
  (forall pb qb,
     determine_expected_error_range
       {| plddt_bin := pb; pae_bin := qb; overall_confidence := "high" |}
     = {| rmsd_min := 0.5; rmsd_max := 2.0;
          rationale := "High confidence (pLDDT>90, PAE<5) suggests low expected error" |}) /\
  (forall pb qb,
     determine_expected_error_range
       {| plddt_bin := pb; pae_bin := qb; overall_confidence := "medium" |}
     = {| rmsd_min := 1.5; rmsd_max := 4.0;
          rationale := "Medium confidence suggests moderate expected error range" |}) /\
  (forall pb qb,
     determine_expected_error_range
       {| plddt_bin := pb; pae_bin := qb; overall_confidence := "low" |}
     = {| rmsd_min := 3.0; rmsd_max := 8.0;
          rationale := "Low confidence (pLDDT<70 or PAE>10) suggests high expected error" |}) /\
  (forall pb qb,
     String.prefix "High confidence"
       (rationale (determine_expected_error_range
          {| plddt_bin := pb; pae_bin := qb; overall_confidence := "high" |})) = true /\
     String.prefix "Medium confidence"
       (rationale (determine_expected_error_range
          {| plddt_bin := pb; pae_bin := qb; overall_confidence := "medium" |})) = true /\
     String.prefix "Low confidence"
       (rationale (determine_expected_error_range
          {| plddt_bin := pb; pae_bin := qb; overall_confidence := "low" |})) = true) /\
  (forall c1 c2,
     overall_confidence c1 = overall_confidence c2 ->
     determine_expected_error_range c1 = determine_expected_error_range c2).
Proof.
  repeat split; try reflexivity.
  intros c1 c2 H. unfold determine_expected_error_range. now rewrite H.
Qed.

(** C10: every overall band other than "high" and "medium", valid or not,
    is mapped to the low-confidence range [3.0, 8.0] with the low-confidence
    rationale; the function returns on every input. *)
Theorem determine_expected_error_range_fallback (c : confidence) :
  overall_confidence c <> "high" ->
  overall_confidence c <> "medium" ->
  determine_expected_error_range c
  = {| rmsd_min := 3.0; rmsd_max := 8.0;
       rationale := "Low confidence (pLDDT<70 or PAE>10) suggests high expected error" |}.
Proof.
  intros Hh Hm. unfold determine_expected_error_range.
  destruct (String.eqb_spec (overall_confidence c) "high") as [E | _]; [contradiction |].
  destruct (String.eqb_spec (overall_confidence c) "medium") as [E | _]; [contradiction |].
  reflexivity.
Qed.

(** The band "very high" is not a band, and gets the low-confidence range. *)
Lemma determine_expected_error_range_fallback_witness :
  determine_expected_error_range conf_bogus
  = {| rmsd_min := 3.0; rmsd_max := 8.0;
       rationale := "Low confidence (pLDDT<70 or PAE>10) suggests high expected error" |}.
Proof.
  apply (determine_expected_error_range_fallback conf_bogus); simpl; discriminate.
Defined.

(** ** The failure classifier *)

(** On binary64 numbers [==] implies [<=]. *)
Lemma float_eqb_leb (a b : float) :
  PrimFloat.eqb a b = true -> PrimFloat.leb a b = true.
Proof.
  rewrite FloatAxioms.eqb_spec, FloatAxioms.leb_spec. unfold SFeqb, SFleb.
  destruct (SFcompare (Prim2SF a) (Prim2SF b)) as [[ | | ] | ]; congruence.
Qed.

(** C3: when the observed global deviation is <= the upper bound of the
    expected range, in particular when it equals it, the failure class is
    "N/A" whatever the other inputs are. *)
Theorem classify_failure_within_range
    (fmt : string -> float -> string) (rmsd_global : float)
    (rmsd_ligand : ligand_rmsd) (plddt_mean pae_mean : float)
    (expected_range : error_range) (ligand_present : bool) :
  fle rmsd_global (rmsd_max expected_range) = true \/
  PrimFloat.eqb rmsd_global (rmsd_max expected_range) = true ->
  class (classify_failure fmt rmsd_global rmsd_ligand plddt_mean pae_mean
           expected_range ligand_present) = "N/A".
Proof.
  intros H.
  assert (Hle : fle rmsd_global (rmsd_max expected_range) = true).
  { destruct H as [H | H]; [exact H | now apply float_eqb_leb]. }
  unfold classify_failure. now rewrite Hle.
Qed.

(** The boundary: deviation 2.0 against the upper bound 2.0, with inputs that
    would otherwise point to Class A or Class B. *)
Lemma classify_failure_within_range_witness :
  class (classify_failure fmt_blank 2.0 (LigNum 9.0) 95 3 range_high true) = "N/A".
Proof.
  apply (classify_failure_within_range fmt_blank 2.0 (LigNum 9.0) 95 3 range_high true).
  right. reflexivity.
Defined.

(** ** End-to-end scenario *)

(** C9: for confidence-score mean 95, error-estimate mean 3 and observed
    deviation 5.0, the overall band is high, the expected range is
    [0.5, 2.0], 5.0 exceeds 1.5 x 2.0, the failure class is "Class A" and the
    gate is "REJECT", whatever the ligand inputs are; and every run of
    [generate_sar] that has these metrics stores this band, range, class and
    gate in its report. *)
Theorem scenario_overconfident_reject
    (fmt : string -> float -> string) (rmsd_ligand : ligand_rmsd)
    (ligand_present : bool) :
  overall_confidence (classify_confidence 95 3) = "high" /\
  rmsd_min (determine_expected_error_range (classify_confidence 95 3)) = 0.5%float /\
  rmsd_max (determine_expected_error_range (classify_confidence 95 3)) = 2.0%float /\
  fgt 5.0 (2.0 * 1.5)%float = true /\
  class (classify_failure fmt 5.0 rmsd_ligand 95 3
           (determine_expected_error_range (classify_confidence 95 3))
           ligand_present) = "Class A" /\
  determine_decision_gate 5.0
    (determine_expected_error_range (classify_confidence 95 3))
    (class (classify_failure fmt 5.0 rmsd_ligand 95 3
              (determine_expected_error_range (classify_confidence 95 3))
              ligand_present))
    (classify_confidence 95 3) = "REJECT" /\
  (forall np_mean np_mean2 np_rmsd py_round t p g w,
     metric_set np_mean np_mean2 np_rmsd t p g w
     = (pdb_id t, 95%float, 3%float, 5.0%float, rmsd_ligand, ligand_present) ->
     dict_get (fst (generate_sar fmt np_mean np_mean2 np_rmsd py_round t p g w))
       "confidence_assessment"
     = Some (VDict [("plddt_bin", VStr "high"); ("pae_bin", VStr "high");
                    ("overall_confidence", VStr "high")]) /\
     dict_get (fst (generate_sar fmt np_mean np_mean2 np_rmsd py_round t p g w))
       "expected_error_range"
     = Some (VDict [("rmsd_min", VNum 0.5); ("rmsd_max", VNum 2.0);
                    ("rationale",
                      VStr "High confidence (pLDDT>90, PAE<5) suggests low expected error")]) /\
     (exists d,
        dict_get (fst (generate_sar fmt np_mean np_mean2 np_rmsd py_round t p g w))
          "failure_taxonomy"
        = Some (VDict [("class", VStr "Class A"); ("description", VStr d)])) /\
     dict_get (fst (generate_sar fmt np_mean np_mean2 np_rmsd py_round t p g w))
       "decision_gate"
     = Some (VStr "REJECT")).
Proof.
  do 6 (split; [reflexivity | ]).
  intros np_mean np_mean2 np_rmsd py_round t p g w.
  unfold metric_set, generate_sar.
  destruct (compute_metrics np_mean np_mean2 np_rmsd t p g w)
    as [[[[[pl pa] rg] rl] cm] w'].
  intros H. injection H as -> -> -> -> ->.
  repeat split; try reflexivity.
  eexists. reflexivity.
Qed.

(** A run whose prediction has mean scores 95 and 3 and lies at distance 5.0
    from the ground truth. *)
Lemma scenario_overconfident_reject_witness :
  dict_get
    (fst (generate_sar fmt_blank mean_sample mean2_sample rmsd_sample round_sample
            target_apo prediction_sample (Some ground_truth_sample) world_monday))
    "decision_gate"
  = Some (VStr "REJECT").
Proof.
  destruct (scenario_overconfident_reject fmt_blank (LigStr "N/A") false)
    as (_ & _ & _ & _ & _ & _ & H).
  apply (H mean_sample mean2_sample rmsd_sample round_sample
           target_apo prediction_sample (Some ground_truth_sample) world_monday).
  reflexivity.
Defined.

(** ** Validation *)

(** The tests of [validate_sar] against the wording of the contract. *)
Lemma missing_or_none_spec (d : dict) (k : string) :
  missing_or_none d k = true <-> absent_or_null d k.
Proof.
  unfold missing_or_none, absent_or_null.
  destruct (dict_get d k) as [v | ]; [ | intuition].
  destruct v; simpl; split; intros H; try discriminate; auto;
    destruct H as [H | H]; discriminate.
Qed.

Lemma in_strs_gate_values (g : value) :
  in_strs g gate_values = false <->
  g <> VStr "ACCEPT" /\ g <> VStr "REVIEW" /\ g <> VStr "REJECT".
Proof.
  unfold in_strs, gate_values; simpl.
  destruct g as [ | b | z | f | s | l | d]; simpl;
    try (split; [intros _; repeat split; discriminate | intros _; reflexivity]).
  destruct (String.eqb_spec s "ACCEPT") as [E1 | Ha];
  destruct (String.eqb_spec s "REVIEW") as [E2 | Hv];
  destruct (String.eqb_spec s "REJECT") as [E3 | Hj]; simpl;
    try discriminate; subst.
  all: split; intros H; try discriminate; try reflexivity.
  all: try (destruct H as (H1 & H2 & H3); congruence).
  repeat split; congruence.
Qed.

Lemma incompleteb_spec (sar : dict) : incompleteb sar = true <-> incomplete sar.
Proof.
  unfold incompleteb, incomplete.
  rewrite !orb_true_iff, !missing_or_none_spec.
  assert (Hr : match dict_get sar "expected_error_range" with
               | Some (VDict r) =>
                   missing_or_none r "rmsd_min" || missing_or_none r "rmsd_max"
                   || missing_or_none r "rationale"
               | _ => false
               end = true <->
               exists r, dict_get sar "expected_error_range" = Some (VDict r) /\
                 (absent_or_null r "rmsd_min" \/ absent_or_null r "rmsd_max" \/
                  absent_or_null r "rationale")).
  { destruct (dict_get sar "expected_error_range") as [[ | b | z | f | s | l | r] | ];
      try (split; [discriminate | intros (r' & E & _); discriminate]).
    rewrite !orb_true_iff, !missing_or_none_spec. split.
    - intros H. exists r. split; [reflexivity | tauto].
    - intros (r' & E & H). injection E as <-. tauto. }
  assert (Hg : match dict_get sar "decision_gate" with
               | Some g => negb (in_strs g gate_values)
               | None => false
               end = true <->
               exists g, dict_get sar "decision_gate" = Some g /\
                 g <> VStr "ACCEPT" /\ g <> VStr "REVIEW" /\ g <> VStr "REJECT").
  { destruct (dict_get sar "decision_gate") as [g | ];
      [ | split; [discriminate | intros (g' & E & _); discriminate]].
    rewrite negb_true_iff, in_strs_gate_values. split.
    - intros H. exists g. split; [reflexivity | exact H].
    - intros (g' & E & H). injection E as <-. exact H. }
  rewrite Hr, Hg. tauto.
Qed.


Lemma validate_sar_incompleteb (sar : dict) (strict_mode : bool) :
  range_is_record sar ->
  validate_sar sar strict_mode =
    if incompleteb sar then
      if strict_mode then
        Raise (SARValidationError
                 ("ERROR_SAR_INCOMPLETE: Missing required fields: "
                    ++ join ", " (missing_fields_of sar)))
      else
        Ok ["WARNING: SAR validation failed: Missing fields: "
              ++ join ", " (missing_fields_of sar)]
    else Ok [].
Proof.
  unfold range_is_record, validate_sar, incompleteb, missing_fields_of, required_fields.
  intros Hwt. cbn [filter].
  destruct (dict_get sar "expected_error_range") as [[ | b | z | f | s | l | r] | ] eqn:Er;
    try contradiction;
    cbn [is_none check_subfields subfield_missing bind filter map];
    try (destruct (missing_or_none r "rmsd_min"), (missing_or_none r "rmsd_max"),
           (missing_or_none r "rationale"));
    unfold missing_or_none; rewrite ?Er;
    destruct (dict_get sar "recommended_action") as [a | ];
    try destruct (is_none a);
    destruct (dict_get sar "decision_gate") as [g | ];
    try (destruct (is_none g), (in_strs g gate_values));
    reflexivity.
Qed.




(** ** Reports built by [generate_sar] are valid *)
Lemma determine_decision_gate_in_gate_values
    (d : float) (r : error_range) (cls : string) (c : confidence) :
  in_strs (VStr (determine_decision_gate d r cls c)) gate_values = true.
Proof.
  unfold determine_decision_gate.
  destruct (fle d (rmsd_max r)); [reflexivity | ].
  destruct (existsb (String.eqb cls) ["Class A"; "Class C"]
            || fgt d (rmsd_max r * 2)%float); reflexivity.
Qed.

(** Every report that [generate_sar] builds passes validation, in both
    modes: a validation failure can only concern a report from elsewhere. *)
Lemma generate_sar_validates
    (fmt : string -> float -> string)
    (np_mean : list float -> float) (np_mean2 : list (list float) -> float)
    (np_rmsd : coords -> coords -> float) (py_round : float -> Z -> float)
    (t : target) (p : prediction) (g : option ground_truth) (w : world)
    (strict_mode : bool) :
  validate_sar (fst (generate_sar fmt np_mean np_mean2 np_rmsd py_round t p g w))
    strict_mode = Ok [].
Proof.
  unfold generate_sar.
  destruct (compute_metrics np_mean np_mean2 np_rmsd t p g w)
    as [[[[[pl pa] rg] rl] cm] w'].
  cbn [fst]. unfold validate_sar, required_fields, missing_or_none.
  cbn [filter dict_get String.eqb Ascii.eqb Bool.eqb is_none error_range_to_value
       check_subfields subfield_missing missing_or_none bind negb andb app].
  rewrite determine_decision_gate_in_gate_values. reflexivity.
Qed.

(** ** The batch loop *)

Section BatchFacts.

Variable str : exn -> string.

(** A report that passes validation is written and counted, in both modes. *)
Lemma process_target_valid (strict_mode : bool) (b : batch) (pdb_id : string)
    (sar : dict) :
  range_is_record sar -> incompleteb sar = false ->
  process_target str strict_mode b pdb_id
    {| identifier := Ok pdb_id; loading_log := []; report := Ok sar;
       write_error := None |} =
    {| success_count := S (success_count b);
       validation_errors := validation_errors b;
       written := written b ++ [(pdb_id, sar)];
       stderr := stderr b;
       exit_code := exit_code b;
       uncaught := uncaught b |}.
Proof.
  intros Hwt Hc. unfold process_target. cbn [report loading_log write_error].
  rewrite (validate_sar_incompleteb sar strict_mode Hwt), Hc.
  assert (Hg : exists g, dict_get sar "decision_gate" = Some g).
  { unfold incompleteb, missing_or_none in Hc.
    destruct (dict_get sar "decision_gate") as [g | ]; [now exists g | ].
    discriminate Hc. }
  destruct Hg as [g Hg]. cbn [subscript]. rewrite Hg.
  cbn [app]. now rewrite app_nil_r.
Qed.

(** In lenient mode a report that fails the rule is warned about and written;
    it is counted when it has a decision_gate entry, and otherwise the
    progress line raises a KeyError, which is recorded. *)
Lemma process_target_lenient_invalid (b : batch) (pdb_id : string) (sar : dict) :
  range_is_record sar -> incompleteb sar = true ->
  process_target str false b pdb_id
    {| identifier := Ok pdb_id; loading_log := []; report := Ok sar;
       write_error := None |} =
    {| success_count := success_count b + (if has_gate sar then 1 else 0);
       validation_errors :=
         validation_errors b
         ++ (if has_gate sar then []
             else [(pdb_id, str (KeyError (VStr "decision_gate")))]);
       written := written b ++ [(pdb_id, sar)];
       stderr :=
         stderr b
         ++ ["WARNING: SAR validation failed: Missing fields: "
               ++ join ", " (missing_fields_of sar)]
         ++ (if has_gate sar then []
             else ["✗ ERROR: " ++ str (KeyError (VStr "decision_gate"))]);
       exit_code := exit_code b;
       uncaught := uncaught b |}.
Proof.
  intros Hwt Hc. unfold process_target, has_gate.
  cbn [report loading_log write_error].
  rewrite (validate_sar_incompleteb sar false Hwt), Hc. cbn [subscript].
  destruct (dict_get sar "decision_gate") as [g | ].
  - cbn [app]. rewrite !app_nil_r. f_equal. lia.
  - unfold record_error. cbn [app]. rewrite Nat.add_0_r. reflexivity.
Qed.

Lemma process_target_strict_invalid (b : batch) (pdb_id : string) (sar : dict) :
  range_is_record sar -> incompleteb sar = true ->
  process_target str true b pdb_id
    {| identifier := Ok pdb_id; loading_log := []; report := Ok sar;
       write_error := None |} =
    {| success_count := success_count b;
       validation_errors := validation_errors b ++ [(pdb_id, str (strict_error sar))];
       written := written b;
       stderr := stderr b ++ ["✗ VALIDATION ERROR"; "  " ++ str (strict_error sar)];
       exit_code := Some 1%Z;
       uncaught := uncaught b |}.
Proof.
  intros Hwt Hc. unfold process_target. cbn [report loading_log write_error].
  rewrite (validate_sar_incompleteb sar true Hwt), Hc. reflexivity.
Qed.

(** In both modes the reports that pass validation are written and counted,
    and the loop goes on. *)
Lemma process_targets_valid (strict_mode : bool) (reports : list (string * dict))
    (rest : list attempt) :
  Forall (fun it => range_is_record (snd it) /\ ~ incomplete (snd it)) reports ->
  forall b, exit_code b = None ->
  process_targets str strict_mode b (built reports ++ rest) =
    process_targets str strict_mode
      {| success_count := success_count b + length reports;
         validation_errors := validation_errors b;
         written := written b ++ reports;
         stderr := stderr b;
         exit_code := None;
         uncaught := uncaught b |} rest.
Proof.
  induction 1 as [ | [pdb_id sar] reports [Hwt Hc] _ IH]; intros b Hb.
  - destruct b as [n ve wr er ex un]. simpl in *. subst ex.
    now rewrite Nat.add_0_r, !app_nil_r.
  - cbn [built map fst snd process_targets app identifier]. simpl in Hwt, Hc.
    assert (Hb' : incompleteb sar = false).
    { destruct (incompleteb sar) eqn:E; [ | reflexivity].
      exfalso. apply Hc. now apply incompleteb_spec. }
    rewrite (process_target_valid strict_mode b pdb_id sar Hwt Hb').
    cbn [exit_code]. rewrite Hb. fold (built reports). rewrite IH by reflexivity.
    cbn [success_count validation_errors written stderr length uncaught].
    rewrite <- app_assoc. do 2 f_equal. lia.
Qed.

End BatchFacts.




(** ** Building one report *)

(** C8, as stated, fails: two runs of [generate_sar] on the same target,
    prediction and ground truth, hence on the same metric set, give reports
    that differ in their timestamp and contact-map overlap; and without
    ground truth the global deviation itself is drawn from the generator. *)
Lemma generate_sar_depends_on_environment :
  metric_set mean_sample mean2_sample rmsd_sample
    target_apo prediction_sample (Some ground_truth_sample) world_monday
  = metric_set mean_sample mean2_sample rmsd_sample
      target_apo prediction_sample (Some ground_truth_sample) world_tuesday /\
  fst (generate_sar fmt_blank mean_sample mean2_sample rmsd_sample round_sample
         target_apo prediction_sample (Some ground_truth_sample) world_monday)
  <> fst (generate_sar fmt_blank mean_sample mean2_sample rmsd_sample round_sample
            target_apo prediction_sample (Some ground_truth_sample) world_tuesday) /\
  dict_get
    (fst (generate_sar fmt_blank mean_sample mean2_sample rmsd_sample round_sample
            target_apo prediction_sample (Some ground_truth_sample) world_monday))
    "timestamp" = Some (VStr "2024-01-01T09:00:00Z") /\
  dict_get
    (fst (generate_sar fmt_blank mean_sample mean2_sample rmsd_sample round_sample
            target_apo prediction_sample (Some ground_truth_sample) world_tuesday))
    "timestamp" = Some (VStr "2024-01-02T09:00:00Z") /\
  fst (compute_rmsd_stub rmsd_sample (coordinates prediction_sample) None world_monday)
  = 2.25%float /\
  fst (compute_rmsd_stub rmsd_sample (coordinates prediction_sample) None world_tuesday)
  = 3%float.
Proof.
  repeat split; try reflexivity.
  intros H.
  apply (f_equal (fun d => dict_get d "timestamp")) in H.
  vm_compute in H. discriminate H.
Qed.

(** C8 (amended): the classification part of a report is a pure function of
    the metric set: two runs that have the same identifier, mean scores,
    global deviation, ligand-pocket deviation and ligand flag produce the same
    confidence assessment, expected error range, failure taxonomy, decision
    gate and recommended action.  The report also carries a timestamp read
    from the clock and a contact-map overlap drawn from the random generator;
    when the ground truth is given and the target has no ligand nothing else
    is drawn, and two runs on the same inputs agree on every entry but these
    two. *)
Theorem generate_sar_core_deterministic
    (fmt : string -> float -> string)
    (np_mean : list float -> float) (np_mean2 : list (list float) -> float)
    (np_rmsd : coords -> coords -> float) (py_round : float -> Z -> float) :
  (forall t1 p1 g1 w1 t2 p2 g2 w2,
     metric_set np_mean np_mean2 np_rmsd t1 p1 g1 w1
     = metric_set np_mean np_mean2 np_rmsd t2 p2 g2 w2 ->
     core_fields (fst (generate_sar fmt np_mean np_mean2 np_rmsd py_round t1 p1 g1 w1))
     = core_fields (fst (generate_sar fmt np_mean np_mean2 np_rmsd py_round t2 p2 g2 w2))) /\
  (forall t p g w1 w2,
     ligand_present t = false ->
     without_volatile
       (fst (generate_sar fmt np_mean np_mean2 np_rmsd py_round t p (Some g) w1))
     = without_volatile
         (fst (generate_sar fmt np_mean np_mean2 np_rmsd py_round t p (Some g) w2))).
Proof.
  split.
  - intros t1 p1 g1 w1 t2 p2 g2 w2. unfold metric_set, generate_sar.
    destruct (compute_metrics np_mean np_mean2 np_rmsd t1 p1 g1 w1)
      as [[[[[pl1 pa1] rg1] rl1] cm1] w1'].
    destruct (compute_metrics np_mean np_mean2 np_rmsd t2 p2 g2 w2)
      as [[[[[pl2 pa2] rg2] rl2] cm2] w2'].
    intros H. injection H as Hid Hpl Hpa Hrg Hrl Hlp.
    subst. rewrite Hid, Hlp. reflexivity.
  - intros t p g w1 w2 Hlig.
    unfold generate_sar, compute_metrics, compute_rmsd_stub, uniform.
    rewrite Hlig. cbn [option_map].
    destruct (negb (shape_eqb (shape (coordinates p)) (shape (gt_coordinates g))));
      reflexivity.
Qed.

(** The same target, prediction and ground truth on two different days. *)
Lemma generate_sar_core_deterministic_witness :
  core_fields
    (fst (generate_sar fmt_blank mean_sample mean2_sample rmsd_sample round_sample
            target_apo prediction_sample (Some ground_truth_sample) world_monday))
  = core_fields
      (fst (generate_sar fmt_blank mean_sample mean2_sample rmsd_sample round_sample
              target_apo prediction_sample (Some ground_truth_sample) world_tuesday)) /\
  without_volatile
    (fst (generate_sar fmt_blank mean_sample mean2_sample rmsd_sample round_sample
            target_apo prediction_sample (Some ground_truth_sample) world_monday))
  = without_volatile
      (fst (generate_sar fmt_blank mean_sample mean2_sample rmsd_sample round_sample
              target_apo prediction_sample (Some ground_truth_sample) world_tuesday)).
Proof.
  destruct (generate_sar_core_deterministic fmt_blank mean_sample mean2_sample
              rmsd_sample round_sample) as [Hcore Hrest].
  split.
  - apply Hcore. reflexivity.
  - apply Hrest. reflexivity.
Defined.

(** ** The calibration report *)

Lemma finalized_entry (sar : value) :
  finalized sar = true ->
  exists conf rmsd x,
    sar_entry sar = Some (conf, rmsd) /\ In conf bands /\ as_float rmsd = Ok x.
Proof.
  unfold finalized. destruct (sar_entry sar) as [[conf rmsd] | ]; [ | discriminate].
  rewrite andb_true_iff. intros [Hb Hx].
  destruct (as_float rmsd) as [x | ] eqn:Ex; [ | discriminate].
  exists conf, rmsd, x. repeat split; trivial.
  apply existsb_exists in Hb. destruct Hb as (b & Hin & Heq).
  apply String.eqb_eq in Heq. now subst.
Qed.

Lemma group_step (sar : value) (conf : string) (rmsd : value)
    (rest : list value) (b : bins) :
  sar_entry sar = Some (conf, rmsd) ->
  group (sar :: rest) b =
    (b' <- bins_subscript_append b (VStr conf) rmsd ;; group rest b').
Proof.
  unfold sar_entry. cbn [group].
  destruct (subscript sar "confidence_assessment") as [ca | ]; [ | discriminate].
  cbn [bind].
  destruct (subscript ca "overall_confidence") as [[ | ? | ? | ? | s | ? | ?] | ];
    try discriminate.
  cbn [bind].
  destruct (subscript sar "metrics") as [m | ]; [ | discriminate].
  cbn [bind].
  destruct (subscript m "rmsd_global") as [r | ]; [ | discriminate].
  cbn [bind]. intros H. injection H as -> ->. reflexivity.
Qed.

Lemma raw_values_cons (band : string) (sar : value) (conf : string)
    (rmsd : value) (rest : list value) :
  sar_entry sar = Some (conf, rmsd) ->
  raw_values band (sar :: rest) =
    ((if conf =? band then [rmsd] else []) ++ raw_values band rest)%list.
Proof. intros H. unfold raw_values. cbn [flat_map]. now rewrite H. Qed.

Lemma band_values_cons (band : string) (sar : value) (conf : string)
    (rmsd : value) (x : float) (rest : list value) :
  sar_entry sar = Some (conf, rmsd) -> as_float rmsd = Ok x ->
  band_values band (sar :: rest) =
    ((if conf =? band then [x] else []) ++ band_values band rest)%list.
Proof. intros H Hx. unfold band_values. cbn [flat_map]. now rewrite H, Hx. Qed.

(** The grouping loop appends to each band the entries of its reports. *)
Lemma group_finalized (sars : list value) :
  forallb finalized sars = true ->
  forall h m l,
    group sars [("high", h); ("medium", m); ("low", l)] =
      Ok [("high", (h ++ raw_values "high" sars)%list);
          ("medium", (m ++ raw_values "medium" sars)%list);
          ("low", (l ++ raw_values "low" sars)%list)].
Proof.
  induction sars as [ | sar rest IH]; intros Hf h m l.
  - cbn. now rewrite !app_nil_r.
  - cbn [forallb] in Hf. apply andb_true_iff in Hf. destruct Hf as [Hs Hrest].
    destruct (finalized_entry sar Hs) as (conf & rmsd & x & He & Hin & Hx).
    rewrite (group_step sar conf rmsd rest _ He).
    rewrite !(raw_values_cons _ sar conf rmsd rest He).
    destruct Hin as [<- | [<- | [<- | []]]];
      cbn [bins_subscript_append bins_append String.eqb Ascii.eqb Bool.eqb
           option_map bind andb];
      rewrite (IH Hrest); cbn [app]; now rewrite <- ?app_assoc.
Qed.

(** numpy reads in the entries of a band the deviations of its reports. *)
Lemma as_floats_raw_values (band : string) (sars : list value) :
  forallb finalized sars = true ->
  as_floats (raw_values band sars) = Ok (band_values band sars).
Proof.
  induction sars as [ | sar rest IH]; intros Hf; [reflexivity | ].
  cbn [forallb] in Hf. apply andb_true_iff in Hf. destruct Hf as [Hs Hrest].
  destruct (finalized_entry sar Hs) as (conf & rmsd & x & He & _ & Hx).
  rewrite (raw_values_cons _ sar conf rmsd rest He),
    (band_values_cons _ sar conf rmsd x rest He Hx).
  destruct (conf =? band); cbn [app as_floats]; rewrite ?Hx; cbn [bind];
    rewrite (IH Hrest); reflexivity.
Qed.

Lemma as_floats_is_nil (vs : list value) (xs : list float) :
  as_floats vs = Ok xs -> is_nil xs = is_nil vs.
Proof.
  destruct vs as [ | v vs]; cbn [as_floats].
  - now intros [= <-].
  - destruct (as_float v) as [x | ]; [ | discriminate]. cbn [bind].
    destruct (as_floats vs) as [xs' | ]; [ | discriminate]. cbn [bind].
    now intros [= <-].
Qed.

Section CalibrationFacts.

Variables np_mean np_std np_min np_max np_median : list float -> float.
Variable now : string.

Lemma compute_statistics_cons (band : string) (vs : list value)
    (xs : list float) (rest : bins) (data : dict) (n : nat) :
  as_floats vs = Ok xs ->
  compute_statistics np_mean np_std np_min np_max np_median rest = Ok (data, n) ->
  compute_statistics np_mean np_std np_min np_max np_median ((band, vs) :: rest) =
    Ok ((band_entry np_mean np_std np_min np_max np_median band xs ++ data)%list,
        (if is_nil xs then 0 else 1) + n).
Proof.
  intros Hxs Hrest. pose proof (as_floats_is_nil vs xs Hxs) as Hnil.
  cbn [compute_statistics]. rewrite Hxs, Hrest.
  destruct vs as [ | v vs]; destruct xs as [ | x xs]; try discriminate Hnil;
    reflexivity.
Qed.

Lemma populated_bands_length (sars : list value) :
  length (expected_calibration_data np_mean np_std np_min np_max np_median sars)
  = populated_bands sars.
Proof.
  unfold expected_calibration_data, populated_bands, bands, band_entry.
  cbn [flat_map filter].
  destruct (band_values "high" sars), (band_values "medium" sars),
    (band_values "low" sars); reflexivity.
Qed.

Lemma generate_calibration_report_finalized (sars : list value) :
  forallb finalized sars = true ->
  exists report,
    generate_calibration_report np_mean np_std np_min np_max np_median now sars
    = Ok (report,
          if (populated_bands sars <? 3)%nat then
            ["WARNING: Calibration has only " ++ str_nat (populated_bands sars)
               ++ " confidence bins (< 3)"]
          else [],
          (3 <=? populated_bands sars)%nat) /\
    dict_get report "calibration_data"
    = Some (VDict (expected_calibration_data
                     np_mean np_std np_min np_max np_median sars)) /\
    dict_get report "confidence_bins"
    = Some (VInt (Z.of_nat (populated_bands sars))) /\
    dict_get report "total_targets" = Some (VInt (Z.of_nat (length sars))).
Proof.
  intros Hf. unfold generate_calibration_report, empty_bins.
  rewrite (group_finalized sars Hf). cbn [bind app].
  rewrite (compute_statistics_cons "high" _ _ _ _ _
             (as_floats_raw_values "high" sars Hf)
             (compute_statistics_cons "medium" _ _ _ _ _
                (as_floats_raw_values "medium" sars Hf)
                (compute_statistics_cons "low" _ _ [] [] 0
                   (as_floats_raw_values "low" sars Hf) eq_refl))).
  cbn [bind fst snd].
  assert (Hn : (if is_nil (band_values "high" sars) then 0 else 1)
               + ((if is_nil (band_values "medium" sars) then 0 else 1)
                  + ((if is_nil (band_values "low" sars) then 0 else 1) + 0))
               = populated_bands sars).
  { unfold populated_bands, bands. cbn [filter].
    destruct (band_values "high" sars), (band_values "medium" sars),
      (band_values "low" sars); reflexivity. }
  rewrite Hn. eexists. split; [reflexivity | ].
  repeat split.
Qed.

Lemma expected_calibration_data_lookup (sars : list value) (band : string) :
  (In band bands -> band_values band sars <> [] ->
   dict_get (expected_calibration_data np_mean np_std np_min np_max np_median sars) band
   = Some (VDict (band_statistics np_mean np_std np_min np_max np_median
                    (band_values band sars)))) /\
  (band_values band sars = [] ->
   dict_get (expected_calibration_data np_mean np_std np_min np_max np_median sars) band
   = None).
Proof.
  unfold expected_calibration_data, bands, band_entry. cbn [flat_map app].
  split.
  - intros [<- | [<- | [<- | []]]] Hne;
      destruct (band_values "high" sars) eqn:Eh,
        (band_values "medium" sars) eqn:Em,
        (band_values "low" sars) eqn:El;
      try contradiction; reflexivity.
  - intros Hnil.
    destruct (band_values "high" sars) eqn:Eh,
      (band_values "medium" sars) eqn:Em,
      (band_values "low" sars) eqn:El;
      cbn [app dict_get];
      repeat match goal with
             | |- context [if ?k =? band then _ else _] =>
                 destruct (String.eqb_spec k band) as [<- | ?]; [congruence | ]
             end;
      reflexivity.
Qed.

End CalibrationFacts.

Lemma in_band_entry (band : string) (sar : value) :
  in_band band sar = true -> exists rmsd, sar_entry sar = Some (band, rmsd).
Proof.
  unfold in_band. destruct (sar_entry sar) as [[conf rmsd] | ]; [ | discriminate].
  intros H. apply String.eqb_eq in H. subst. now exists rmsd.
Qed.

Lemma band_values_other (band other : string) (sars : list value) :
  forallb (in_band band) sars = true -> other <> band ->
  band_values other sars = [].
Proof.
  intros Hall Hne. induction sars as [ | sar rest IH]; [reflexivity | ].
  cbn [forallb] in Hall. apply andb_true_iff in Hall. destruct Hall as [Hs Hrest].
  destruct (in_band_entry band sar Hs) as (rmsd & He).
  unfold band_values. cbn [flat_map]. rewrite He.
  destruct (String.eqb_spec band other) as [E | _]; [congruence | ].
  cbn [app]. now apply IH.
Qed.

Lemma band_values_same (band : string) (sars : list value) :
  sars <> [] ->
  forallb finalized sars = true ->
  forallb (in_band band) sars = true ->
  In band bands /\ band_values band sars <> [].
Proof.
  destruct sars as [ | sar rest]; [congruence | ]. intros _ Hf Hall.
  cbn [forallb] in Hf, Hall.
  apply andb_true_iff in Hf. destruct Hf as [Hs _].
  apply andb_true_iff in Hall. destruct Hall as [Hb _].
  destruct (finalized_entry sar Hs) as (conf & rmsd & x & He & Hin & Hx).
  destruct (in_band_entry band sar Hb) as (rmsd' & He').
  rewrite He in He'. injection He' as -> <-.
  split; [exact Hin | ].
  rewrite (band_values_cons band sar band rmsd x rest He Hx).
  rewrite String.eqb_refl. discriminate.
Qed.

(** With every report in one band, exactly one band is populated. *)
Lemma populated_bands_one_band (band : string) (sars : list value) :
  sars <> [] ->
  forallb finalized sars = true ->
  forallb (in_band band) sars = true ->
  populated_bands sars = 1.
Proof.
  intros Hne Hf Hall.
  destruct (band_values_same band sars Hne Hf Hall) as [Hin Hsame].
  unfold populated_bands, bands. cbn [filter].
  destruct Hin as [<- | [<- | [<- | []]]];
    repeat match goal with
           | |- context [band_values ?b sars] =>
               lazymatch goal with
               | H : forallb (in_band b) sars = true |- _ => fail
               | _ => rewrite (band_values_other _ b sars Hall) by discriminate
               end
           end;
    (destruct (band_values _ sars); [congruence | reflexivity]).
Qed.

(** C7: for a batch of finalized reports the calibration report has one
    entry for each band that has a report and none for the others; the entry
    of a band holds the number of its reports and the mean, (population)
    standard deviation, minimum, maximum and median, as numpy computes them,
    of their observed global deviations; the entries depend on the reports
    alone, not on the pass signal, which is true if and only if at least 3
    bands have a report.  With reports in all three bands the signal is true
    and there are exactly 3 entries; with all the reports of a non-empty batch
    in one band the signal is false and there is exactly 1 entry. *)
Theorem calibration_report_bands
    (np_mean np_std np_min np_max np_median : list float -> float)
    (now : string) (sars : list value) :
  forallb finalized sars = true ->
  exists report log,
    generate_calibration_report np_mean np_std np_min np_max np_median now sars
    = Ok (report, log, (3 <=? populated_bands sars)%nat) /\
    dict_get report "calibration_data"
    = Some (VDict (expected_calibration_data
                     np_mean np_std np_min np_max np_median sars)) /\
    dict_get report "confidence_bins"
    = Some (VInt (Z.of_nat (populated_bands sars))) /\
    length (expected_calibration_data np_mean np_std np_min np_max np_median sars)
    = populated_bands sars /\
    (forall band,
       In band bands -> band_values band sars <> [] ->
       dict_get (expected_calibration_data
                   np_mean np_std np_min np_max np_median sars) band
       = Some (VDict
                 [("n_samples", VInt (Z.of_nat (length (band_values band sars))));
                  ("rmsd_mean", VNum (np_mean (band_values band sars)));
                  ("rmsd_std", VNum (np_std (band_values band sars)));
                  ("rmsd_min", VNum (np_min (band_values band sars)));
                  ("rmsd_max", VNum (np_max (band_values band sars)));
                  ("rmsd_median", VNum (np_median (band_values band sars)))])) /\
    (forall band,
       band_values band sars = [] ->
       dict_get (expected_calibration_data
                   np_mean np_std np_min np_max np_median sars) band
       = None) /\
    ((3 <=? populated_bands sars)%nat = true <-> 3 <= populated_bands sars) /\
    (band_values "high" sars <> [] -> band_values "medium" sars <> [] ->
     band_values "low" sars <> [] ->
     (3 <=? populated_bands sars)%nat = true /\
     length (expected_calibration_data np_mean np_std np_min np_max np_median sars)
     = 3) /\
    (forall band,
       sars <> [] -> forallb (in_band band) sars = true ->
       (3 <=? populated_bands sars)%nat = false /\
       length (expected_calibration_data np_mean np_std np_min np_max np_median sars)
       = 1).
Proof.
  intros Hf.
  destruct (generate_calibration_report_finalized
              np_mean np_std np_min np_max np_median now sars Hf)
    as (report & Hrun & Hdata & Hbins & _).
  pose proof (populated_bands_length np_mean np_std np_min np_max np_median sars)
    as Hlen.
  exists report. eexists. split; [exact Hrun | ].
  split; [exact Hdata | ]. split; [exact Hbins | ]. split; [exact Hlen | ].
  split; [ | split; [ | split; [ | split]]].
  - intros band Hin Hne.
    now apply (expected_calibration_data_lookup
                 np_mean np_std np_min np_max np_median sars band).
  - intros band Hnil.
    now apply (expected_calibration_data_lookup
                 np_mean np_std np_min np_max np_median sars band).
  - apply Nat.leb_le.
  - intros Hh Hm Hl. rewrite Hlen.
    unfold populated_bands, bands. cbn [filter].
    destruct (band_values "high" sars); [congruence | ].
    destruct (band_values "medium" sars); [congruence | ].
    destruct (band_values "low" sars); [congruence | ].
    split; reflexivity.
  - intros band Hne Hall. rewrite Hlen.
    rewrite (populated_bands_one_band band sars Hne Hf Hall).
    split; reflexivity.
Qed.

(** Two reports, both in the medium band: one entry, no pass. *)
Lemma calibration_report_bands_witness :
  exists report log,
    generate_calibration_report
      mean_sample std_sample min_sample max_sample median_sample
      "2024-01-01T09:00:00" batch_one_band
    = Ok (report, log, false) /\
    dict_get report "confidence_bins" = Some (VInt 1).
Proof.
  destruct (calibration_report_bands
              mean_sample std_sample min_sample max_sample median_sample
              "2024-01-01T09:00:00" batch_one_band eq_refl)
    as (report & log & Hrun & _ & Hbins & _).
  exists report, log. split; [exact Hrun | exact Hbins].
Defined.

(** * Further properties of the code *)

(** ** The failure classifier: first match wins *)

Ltac first_match_close :=
  repeat split; intros;
  repeat match goal with
         | H : _ /\ _ |- _ => destruct H
         | H : exists _, _ |- _ => destruct H
         | H : LigNum _ = LigNum _ |- _ => injection H as <-
         | |- ~ _ => intro
         end;
  try discriminate; try congruence; eauto;
  try (exfalso; match goal with H : ~ _ |- _ => apply H; split; eauto end).

(** X1: [classify_failure] returns exactly one of the five classes, chosen by
    the first test that succeeds. *)
Theorem classify_failure_first_match
    (fmt : string -> float -> string) (d : float) (lig : ligand_rmsd)
    (p q : float) (r : error_range) (lp : bool) :
  (class (classify_failure fmt d lig p q r lp) = "N/A" <->
     fle d (rmsd_max r) = true) /\
  (class (classify_failure fmt d lig p q r lp) = "Class A" <->
     fle d (rmsd_max r) = false /\
     fgt p 90 && flt q 5 && fgt d (rmsd_max r * 1.5)%float = true) /\
  (class (classify_failure fmt d lig p q r lp) = "Class B" <->
     fle d (rmsd_max r) = false /\
     fgt p 90 && flt q 5 && fgt d (rmsd_max r * 1.5)%float = false /\
     lp = true /\ exists l, lig = LigNum l /\ fgt l (d * 1.5)%float = true) /\
  (class (classify_failure fmt d lig p q r lp) = "Class C" <->
     fle d (rmsd_max r) = false /\
     fgt p 90 && flt q 5 && fgt d (rmsd_max r * 1.5)%float = false /\
     ~ (lp = true /\ exists l, lig = LigNum l /\ fgt l (d * 1.5)%float = true) /\
     fgt d 10 = true) /\
  (class (classify_failure fmt d lig p q r lp) = "Unknown" <->
     fle d (rmsd_max r) = false /\
     fgt p 90 && flt q 5 && fgt d (rmsd_max r * 1.5)%float = false /\
     ~ (lp = true /\ exists l, lig = LigNum l /\ fgt l (d * 1.5)%float = true) /\
     fgt d 10 = false) /\
  (class (classify_failure fmt d lig p q r lp) = "N/A" \/
   class (classify_failure fmt d lig p q r lp) = "Class A" \/
   class (classify_failure fmt d lig p q r lp) = "Class B" \/
   class (classify_failure fmt d lig p q r lp) = "Class C" \/
   class (classify_failure fmt d lig p q r lp) = "Unknown").
Proof.
  unfold classify_failure.
  destruct (fle d (rmsd_max r)) eqn:Hle; cbn [class]; [first_match_close | ].
  destruct (fgt p 90 && flt q 5 && fgt d (rmsd_max r * 1.5)%float) eqn:Ha;
    cbn [class]; [first_match_close | ].
  destruct lp; [destruct lig as [l | s] | ];
    try destruct (fgt l (d * 1.5)%float) eqn:Hb;
    try destruct (fgt d 10) eqn:Hc; cbn [class]; first_match_close.
Qed.

(** ** Classifier and gate composed *)

Ltac classifier_cases :=
  unfold classify_failure;
  repeat (match goal with
          | |- context [if ?b then _ else _] => destruct b eqn:?
          | |- context [match ?x with LigNum _ => _ | LigStr _ => _ end] =>
              destruct x
          end; cbn [class]).

Ltac pipeline_cases d r :=
  classifier_cases;
  unfold determine_decision_gate, generate_recommended_action;
  repeat match goal with
         | H : ?b = _ |- context [if ?b then _ else _] => rewrite H
         end;
  cbn [class existsb String.eqb Ascii.eqb Bool.eqb orb];
  destruct (fgt d (rmsd_max r * 2)%float) eqn:?;
  cbn [class existsb String.eqb Ascii.eqb Bool.eqb orb].

(** X2: when the gate is computed from the class that [classify_failure]
    assigns, as [generate_sar] does, the gate is ACCEPT exactly for class
    N/A, Class A and Class C are always rejected, and REVIEW is given exactly
    to Class B and Unknown failures whose deviation is not > 2x the upper
    bound. *)
Theorem gate_follows_class
    (fmt : string -> float -> string) (d : float) (lig : ligand_rmsd)
    (p q : float) (r : error_range) (lp : bool) (c : confidence) :
  let cls := class (classify_failure fmt d lig p q r lp) in
  let gate := determine_decision_gate d r cls c in
  (gate = "ACCEPT" <-> cls = "N/A") /\
  (cls = "Class A" \/ cls = "Class C" -> gate = "REJECT") /\
  (gate = "REVIEW" <->
     (cls = "Class B" \/ cls = "Unknown") /\
     fgt d (rmsd_max r * 2)%float = false) /\
  (gate = "REJECT" <->
     cls = "Class A" \/ cls = "Class C" \/
     ((cls = "Class B" \/ cls = "Unknown") /\
      fgt d (rmsd_max r * 2)%float = true)).
Proof.
  cbv zeta. pipeline_cases d r;
    repeat split; intros; split_hyps; try discriminate; auto 6.
Qed.

(** X3: in the same composition the recommended action is one of six fixed
    texts around the identifier, chosen by the class and by the 2x threshold;
    the REVIEW text that quotes the failure description is never produced. *)
Theorem recommended_action_by_class
    (fmt : string -> float -> string) (d : float) (lig : ligand_rmsd)
    (p q : float) (r : error_range) (lp : bool) (c : confidence)
    (pdb_id : string) :
  let ft := classify_failure fmt d lig p q r lp in
  let gate := determine_decision_gate d r (class ft) c in
  let action := generate_recommended_action gate ft pdb_id in
  (class ft = "N/A" ->
   action = "Structure " ++ pdb_id
            ++ " passes quality criteria. Proceed with downstream analysis.") /\
  (class ft = "Class A" ->
   action = "Reject " ++ pdb_id
            ++ ": Overconfidence artifact detected. Model confidence metrics unreliable for this target. Consider alternative modeling approaches.") /\
  (class ft = "Class C" ->
   action = "Reject " ++ pdb_id
            ++ ": Potential symmetry/assembly failure. Verify oligomeric state and symmetry operators before use.") /\
  (class ft = "Class B" -> fgt d (rmsd_max r * 2)%float = false ->
   action = "Manual review recommended for " ++ pdb_id
            ++ ": Ligand binding pose shows elevated error. Verify active site geometry and ligand interactions.") /\
  (class ft = "Unknown" -> fgt d (rmsd_max r * 2)%float = false ->
   action = "Manual review required for " ++ pdb_id
            ++ ": Elevated error detected but failure mode unclear. Expert structural analysis needed.") /\
  (class ft = "Class B" \/ class ft = "Unknown" ->
   fgt d (rmsd_max r * 2)%float = true ->
   action = "Reject " ++ pdb_id
            ++ ": Error exceeds acceptable thresholds. Do not use for downstream analysis without significant refinement.").
Proof.
  cbv zeta. pipeline_cases d r;
    repeat split; intros; split_hyps; try discriminate; reflexivity.
Qed.

(** ** Validation: lenient mode and exceptions *)

Lemma check_subfields_raises (v : value) (subfields : list string) (e : exn) :
  check_subfields v subfields = Raise e ->
  (exists m, e = TypeError m) /\ forall d, v <> VDict d.
Proof.
  induction subfields as [ | s rest IH]; cbn [check_subfields]; [discriminate | ].
  destruct v as [ | b | z | f | t | l | d]; cbn [subfield_missing bind];
    try (intros H; injection H as <-; split; [eauto | discriminate]).
  - destruct (String.index 0 s t); cbn [bind].
    + intros H; injection H as <-; split; [eauto | discriminate].
    + destruct (check_subfields (VStr t) rest) eqn:E; cbn [bind]; [discriminate | ].
      intros H; injection H as <-. now apply IH.
  - destruct (existsb (fun x => eq_str x s) l); cbn [bind].
    + intros H; injection H as <-; split; [eauto | discriminate].
    + destruct (check_subfields (VList l) rest) eqn:E; cbn [bind]; [discriminate | ].
      intros H; injection H as <-. now apply IH.
  - destruct (check_subfields (VDict d) rest) eqn:E; cbn [bind]; [discriminate | ].
    intros H; injection H as <-. destruct (IH eq_refl) as [_ Hd].
    now contradiction (Hd d).
Qed.

(** X4: the only exceptions [validate_sar] raises are the validation error,
    and that in strict mode only, and a TypeError, and that only when
    expected_error_range is neither missing, null nor an object. *)
Theorem validate_sar_exceptions (sar : dict) (strict_mode : bool) (e : exn) :
  validate_sar sar strict_mode = Raise e ->
  (strict_mode = true /\ exists m, e = SARValidationError m) \/
  ((exists m, e = TypeError m) /\ ~ range_is_record sar).
Proof.
  unfold validate_sar, range_is_record.
  destruct (dict_get sar "expected_error_range") as [v | ] eqn:Er; cbn [bind].
  - destruct (is_none v) eqn:Hn; cbn [bind].
    + destruct (_ ++ _)%list; [discriminate | ].
      destruct strict_mode; [ | discriminate].
      intros H; injection H as <-. left. eauto.
    + destruct (check_subfields v ["rmsd_min"; "rmsd_max"; "rationale"]) as [ms | e']
        eqn:Ec; cbn [bind].
      * destruct (_ ++ _)%list; [discriminate | ].
        destruct strict_mode; [ | discriminate].
        intros H; injection H as <-. left. eauto.
      * intros H; injection H as <-.
        destruct (check_subfields_raises _ _ _ Ec) as [Hm Hd].
        right. split; [exact Hm | ].
        destruct v; try discriminate Hn; auto. now contradiction (Hd d).
  - destruct (_ ++ _)%list; [discriminate | ].
    destruct strict_mode; [ | discriminate].
    intros H; injection H as <-. left. eauto.
Qed.

(** A report whose expected_error_range is the number 2.0. *)
Lemma validate_sar_exceptions_witness :
  (exists m, TypeError "argument of type 'float' is not iterable" = TypeError m) /\
  ~ range_is_record [("expected_error_range", VNum 2.0)].
Proof.
  destruct (validate_sar_exceptions [("expected_error_range", VNum 2.0)] false
              (TypeError "argument of type 'float' is not iterable") eq_refl)
    as [[H _] | H]; [discriminate H | exact H].
Defined.

(** X5: in lenient mode, on a report whose expected_error_range is missing,
    null or an object, [validate_sar] always returns: silently when the report
    is complete, and after one warning that lists the missing fields when it
    is not. *)
Theorem validate_sar_lenient (sar : dict) :
  range_is_record sar ->
  (validate_sar sar false = Ok [] <-> ~ incomplete sar) /\
  (incomplete sar ->
   validate_sar sar false
   = Ok ["WARNING: SAR validation failed: Missing fields: "
           ++ join ", " (missing_fields_of sar)]).
Proof.
  intros Hwt. rewrite (validate_sar_incompleteb sar false Hwt), <- incompleteb_spec.
  destruct (incompleteb sar); split; intros; try split; intros;
    try discriminate; try reflexivity; try congruence.
Qed.

Lemma validate_sar_lenient_witness :
  validate_sar sar_no_gate false
  = Ok ["WARNING: SAR validation failed: Missing fields: "
          ++ join ", " (missing_fields_of sar_no_gate)].
Proof.
  apply (validate_sar_lenient sar_no_gate I). left. left. reflexivity.
Defined.

(** X6: when expected_error_range is a number or a boolean, [validate_sar]
    raises a TypeError in both modes, whatever else the report holds: lenient
    mode does not turn this into a warning. *)
Theorem validate_sar_range_not_iterable (sar : dict) (v : value) (strict_mode : bool) :
  dict_get sar "expected_error_range" = Some v ->
  (exists x, v = VNum x) \/ (exists z, v = VInt z) \/ (exists b, v = VBool b) ->
  exists m, validate_sar sar strict_mode = Raise (TypeError m).
Proof.
  intros Hr Hv. unfold validate_sar. rewrite Hr.
  destruct Hv as [[x ->] | [[z ->] | [b ->]]]; cbn; eauto.
Qed.

Lemma validate_sar_range_not_iterable_witness :
  exists m,
    validate_sar [("expected_error_range", VInt 2); ("decision_gate", VStr "ACCEPT")]
      false = Raise (TypeError m).
Proof.
  apply (validate_sar_range_not_iterable _ (VInt 2) false); [reflexivity | ].
  right. left. now exists 2%Z.
Defined.

(** ** The batch loop: tallies *)

Section TallyFacts.

Variable str : exn -> string.

(** One iteration either writes and counts the report, or records one error,
    with or without the file written. *)
Lemma process_target_effect (strict_mode : bool) (b : batch) (pdb_id : string)
    (a : attempt) :
  (exists sar log,
     process_target str strict_mode b pdb_id a =
       {| success_count := S (success_count b);
          validation_errors := validation_errors b;
          written := written b ++ [(pdb_id, sar)];
          stderr := stderr b ++ log;
          exit_code := exit_code b;
          uncaught := uncaught b |}) \/
  (exists msg log files,
     process_target str strict_mode b pdb_id a =
       {| success_count := success_count b;
          validation_errors := validation_errors b ++ [(pdb_id, msg)];
          written := files;
          stderr := stderr b ++ log;
          exit_code := if strict_mode then Some 1%Z else exit_code b;
          uncaught := uncaught b |} /\
     (files = written b \/
      exists sar, files = (written b ++ [(pdb_id, sar)])%list)).
Proof.
  unfold process_target, record_error.
  destruct (report a) as [sar | e].
  - destruct (validate_sar sar strict_mode) as [log | e].
    + destruct (write_error a) as [e | ].
      * right. do 3 eexists. split; [reflexivity | now left].
      * destruct (subscript (VDict sar) "decision_gate") as [g | e].
        -- left. eauto.
        -- right. do 3 eexists. split; [reflexivity | right; eauto].
    + right. do 3 eexists. split; [reflexivity | now left].
  - right. do 3 eexists. split; [reflexivity | now left].
Qed.

Lemma process_targets_tally (strict_mode : bool) (items : list attempt) :
  forall b,
    exit_code b = None ->
    uncaught b = None ->
    success_count b <= length (written b) ->
    length (written b) <= success_count b + length (validation_errors b) ->
    (strict_mode = true -> validation_errors b = []) ->
    success_count (process_targets str strict_mode b items)
    <= length (written (process_targets str strict_mode b items)) /\
    length (written (process_targets str strict_mode b items))
    <= success_count (process_targets str strict_mode b items)
       + length (validation_errors (process_targets str strict_mode b items)) /\
    success_count (process_targets str strict_mode b items)
    + length (validation_errors (process_targets str strict_mode b items))
    <= success_count b + length (validation_errors b) + length items /\
    (uncaught (process_targets str strict_mode b items) <> None ->
     exit_code (process_targets str strict_mode b items) = None /\
     success_count (process_targets str strict_mode b items)
     + length (validation_errors (process_targets str strict_mode b items))
     < success_count b + length (validation_errors b) + length items) /\
    (strict_mode = false ->
     exit_code (process_targets str strict_mode b items) = None /\
     (uncaught (process_targets str strict_mode b items) = None <->
      Forall (fun a => exists pdb_id, identifier a = Ok pdb_id) items) /\
     (uncaught (process_targets str strict_mode b items) = None ->
      success_count (process_targets str strict_mode b items)
      + length (validation_errors (process_targets str strict_mode b items))
      = success_count b + length (validation_errors b) + length items)) /\
    (strict_mode = true ->
     (exit_code (process_targets str strict_mode b items) = None /\
      validation_errors (process_targets str strict_mode b items) = [] /\
      (uncaught (process_targets str strict_mode b items) = None ->
       success_count (process_targets str strict_mode b items)
       = success_count b + length items)) \/
     (exit_code (process_targets str strict_mode b items) = Some 1%Z /\
      uncaught (process_targets str strict_mode b items) = None /\
      length (validation_errors (process_targets str strict_mode b items)) = 1)).
Proof.
  induction items as [ | a rest IH]; intros b Hex Hun Hw1 Hw2 Hve.
  - cbn [process_targets length].
    split; [lia | split; [lia | split; [lia | split; [ | split]]]].
    + intros H. now contradiction H.
    + intros _. split; [exact Hex | split].
      * split; [intros _; constructor | intros _; exact Hun].
      * intros _. lia.
    + intros Hs. left. split; [exact Hex | split; [auto | intros _; lia]].
  - cbn [process_targets length].
    destruct (identifier a) as [pdb_id | e] eqn:Ei.
    2:{ cbn [success_count validation_errors written exit_code uncaught].
        split; [lia | split; [lia | split; [lia | split; [ | split]]]].
        - intros _. split; [exact Hex | lia].
        - intros _. split; [exact Hex | split].
          + split; [discriminate | ].
            intros F. inversion F as [ | ? ? (i & Hi) _]; subst. congruence.
          + discriminate.
        - intros Hs. left. split; [exact Hex | split; [auto | discriminate]]. }
    destruct (process_target_effect strict_mode b pdb_id a)
      as [(sar & log & E) | (msg & log & files & E & Hf)]; rewrite E;
      cbn [exit_code].
    + rewrite Hex.
      match goal with
      | |- context [process_targets str strict_mode ?b1 rest] =>
          specialize (IH b1)
      end.
      cbn [exit_code written success_count validation_errors uncaught] in IH.
      rewrite length_app in IH. cbn [length] in IH.
      destruct (IH eq_refl Hun ltac:(lia) ltac:(lia) Hve)
        as (I1 & I2 & I3 & I4 & I5 & I6).
      split; [lia | split; [lia | split; [lia | split; [ | split]]]].
      * intros H. destruct (I4 H). split; [assumption | lia].
      * intros Hs. destruct (I5 Hs) as (A & B & C).
        split; [exact A | split].
        -- rewrite B. split.
           ++ intros F. constructor; [eauto | exact F].
           ++ intros F. now inversion F.
        -- intros H. specialize (C H). lia.
      * intros Hs. destruct (I6 Hs) as [(A & B & C) | (A & B & C)]; [left | right].
        -- split; [exact A | split; [exact B | ]]. intros H. specialize (C H). lia.
        -- repeat split; assumption.
    + assert (Hlen : length files <= S (length (written b)) /\
                     length (written b) <= length files).
      { destruct Hf as [-> | [sar ->]]; [lia | ].
        rewrite length_app. cbn [length]. lia. }
      destruct strict_mode.
      * cbn [written success_count validation_errors exit_code uncaught].
        rewrite (Hve eq_refl). cbn [app length]. rewrite (Hve eq_refl) in Hw2.
        cbn [length] in Hw2.
        split; [lia | split; [lia | split; [lia | split; [ | split]]]].
        -- intros H. congruence.
        -- discriminate.
        -- intros _. right. repeat split; auto.
      * rewrite Hex.
        match goal with
        | |- context [process_targets str false ?b1 rest] => specialize (IH b1)
        end.
        cbn [exit_code written success_count validation_errors uncaught] in IH.
        rewrite length_app in IH. cbn [length] in IH.
        destruct (IH eq_refl Hun ltac:(lia) ltac:(lia) ltac:(discriminate))
          as (I1 & I2 & I3 & I4 & I5 & I6).
        split; [lia | split; [lia | split; [lia | split; [ | split]]]].
        -- intros H. destruct (I4 H). split; [assumption | lia].
        -- intros Hs. destruct (I5 Hs) as (A & B & C).
           split; [exact A | split].
           ++ rewrite B. split.
              ** intros F. constructor; [eauto | exact F].
              ** intros F. now inversion F.
           ++ intros H. specialize (C H). lia.
        -- discriminate.
Qed.

End TallyFacts.


(** ** The batch loop over reports built by [generate_sar] *)

Section GeneratedBatch.

Variable fmt : string -> float -> string.
Variable np_mean : list float -> float.
Variable np_mean2 : list (list float) -> float.
Variable np_rmsd : coords -> coords -> float.
Variable py_round : float -> Z -> float.
Variable str : exn -> string.
Variable strict_mode : bool.

Lemma generate_sar_has_gate (t : target) (p : prediction)
    (g : option ground_truth) (w : world) :
  has_gate (fst (generate_sar fmt np_mean np_mean2 np_rmsd py_round t p g w))
  = true.
Proof.
  unfold generate_sar.
  destruct (compute_metrics np_mean np_mean2 np_rmsd t p g w)
    as [[[[[pl pa] rg] rl] cm] w'].
  reflexivity.
Qed.

Lemma process_targets_generated (reports : list (string * dict)) :
  Forall (fun it => generated fmt np_mean np_mean2 np_rmsd py_round (snd it))
    reports ->
  forall b,
    exit_code b = None ->
    process_targets str strict_mode b (built reports)
    = {| success_count := success_count b + length reports;
         validation_errors := validation_errors b;
         written := written b ++ reports;
         stderr := stderr b;
         exit_code := None;
         uncaught := uncaught b |}.
Proof.
  induction 1 as [ | [pdb_id sar] reports Hg _ IH]; intros b Hb.
  - destruct b as [n ve wr er ex un]. cbn in *. subst ex.
    now rewrite Nat.add_0_r, app_nil_r.
  - cbn [snd] in Hg. destruct Hg as (t & p & g & w & ->).
    cbn [built map fst snd process_targets identifier].
    unfold process_target. cbn [report loading_log write_error].
    rewrite (generate_sar_validates fmt np_mean np_mean2 np_rmsd py_round
               t p g w strict_mode).
    pose proof (generate_sar_has_gate t p g w) as Hgate. unfold has_gate in Hgate.
    cbn [subscript].
    destruct (dict_get _ "decision_gate"); [ | discriminate Hgate].
    cbn [exit_code]. rewrite Hb. fold (built reports).
    rewrite IH by reflexivity.
    cbn [success_count validation_errors written stderr uncaught app length].
    rewrite app_nil_r, <- app_assoc. cbn [app]. f_equal. lia.
Qed.

End GeneratedBatch.


(** ** What [generate_sar] takes from the generator *)

(** X10: [generate_sar] changes neither the clock nor the samples the
    generator is going to deliver, and draws one sample for the contact-map
    overlap, one more when the target has a ligand and one more when there is
    no ground truth. *)
Theorem generate_sar_draws
    (fmt : string -> float -> string)
    (np_mean : list float -> float) (np_mean2 : list (list float) -> float)
    (np_rmsd : coords -> coords -> float) (py_round : float -> Z -> float)
    (t : target) (p : prediction) (g : option ground_truth) (w : world) :
  samples (snd (generate_sar fmt np_mean np_mean2 np_rmsd py_round t p g w))
  = samples w /\
  clock (snd (generate_sar fmt np_mean np_mean2 np_rmsd py_round t p g w))
  = clock w /\
  drawn (snd (generate_sar fmt np_mean np_mean2 np_rmsd py_round t p g w))
  = drawn w
    + (match g with None => 1 | Some _ => 0 end)
    + (if ligand_present t then 1 else 0)
    + 1.
Proof.
  unfold generate_sar, compute_metrics, compute_rmsd_stub, uniform.
  destruct g as [gt | ]; cbn [option_map].
  - destruct (negb (shape_eqb (shape (coordinates p)) (shape (gt_coordinates gt))));
      destruct (ligand_present t); cbn; repeat split; lia.
  - destruct (ligand_present t); cbn; repeat split; lia.
Qed.

(** ** The calibration report: counts and malformed reports *)

Lemma band_values_partition (sars : list value) :
  forallb finalized sars = true ->
  length (band_values "high" sars) + length (band_values "medium" sars)
  + length (band_values "low" sars) = length sars.
Proof.
  induction sars as [ | sar rest IH]; intros Hf; [reflexivity | ].
  cbn [forallb] in Hf. apply andb_true_iff in Hf. destruct Hf as [Hs Hrest].
  destruct (finalized_entry sar Hs) as (conf & rmsd & x & He & Hin & Hx).
  rewrite !(band_values_cons _ sar conf rmsd x rest He Hx).
  specialize (IH Hrest).
  destruct Hin as [<- | [<- | [<- | []]]]; cbn [String.eqb Ascii.eqb Bool.eqb andb];
    rewrite ?length_app; cbn [length app]; lia.
Qed.

Lemma n_samples_in_expected
    (np_mean np_std np_min np_max np_median : list float -> float)
    (sars : list value) (band : string) :
  In band bands ->
  n_samples_in (expected_calibration_data np_mean np_std np_min np_max np_median sars)
    band = Z.of_nat (length (band_values band sars)).
Proof.
  intros Hin. unfold n_samples_in.
  destruct (expected_calibration_data_lookup
              np_mean np_std np_min np_max np_median sars band) as [Hsome Hnone].
  destruct (band_values band sars) as [ | x xs] eqn:E.
  - now rewrite (Hnone eq_refl).
  - rewrite (Hsome Hin ltac:(discriminate)). reflexivity.
Qed.

(** X11: in the calibration report of a batch of finalized reports every
    report is counted in exactly one band: the sample counts of the three
    bands add up to total_targets, the number of reports. *)
Theorem calibration_counts_add_up
    (np_mean np_std np_min np_max np_median : list float -> float)
    (now : string) (sars : list value) :
  forallb finalized sars = true ->
  exists report log passed data,
    generate_calibration_report np_mean np_std np_min np_max np_median now sars
    = Ok (report, log, passed) /\
    dict_get report "calibration_data" = Some (VDict data) /\
    dict_get report "total_targets" = Some (VInt (Z.of_nat (length sars))) /\
    (n_samples_in data "high" + n_samples_in data "medium"
     + n_samples_in data "low")%Z = Z.of_nat (length sars).
Proof.
  intros Hf.
  destruct (generate_calibration_report_finalized
              np_mean np_std np_min np_max np_median now sars Hf)
    as (report & Hrun & Hdata & _ & Htotal).
  do 3 eexists.
  exists (expected_calibration_data np_mean np_std np_min np_max np_median sars).
  split; [exact Hrun | split; [exact Hdata | split; [exact Htotal | ]]].
  rewrite !n_samples_in_expected by (cbn; auto).
  rewrite <- (band_values_partition sars Hf). lia.
Qed.

Lemma calibration_counts_add_up_witness :
  exists report log passed data,
    generate_calibration_report
      mean_sample std_sample min_sample max_sample median_sample
      "2024-01-01T09:00:00" batch_three_bands
    = Ok (report, log, passed) /\
    dict_get report "calibration_data" = Some (VDict data) /\
    dict_get report "total_targets" = Some (VInt 4) /\
    (n_samples_in data "high" + n_samples_in data "medium"
     + n_samples_in data "low")%Z = 4%Z.
Proof.
  exact (calibration_counts_add_up
           mean_sample std_sample min_sample max_sample median_sample
           "2024-01-01T09:00:00" batch_three_bands eq_refl).
Defined.

Lemma group_app_finalized (pre rest : list value) :
  forallb finalized pre = true ->
  forall h m l,
    group (pre ++ rest) [("high", h); ("medium", m); ("low", l)] =
      group rest [("high", (h ++ raw_values "high" pre)%list);
                  ("medium", (m ++ raw_values "medium" pre)%list);
                  ("low", (l ++ raw_values "low" pre)%list)].
Proof.
  induction pre as [ | sar pre IH]; intros Hf h m l.
  - cbn. now rewrite !app_nil_r.
  - cbn [forallb] in Hf. apply andb_true_iff in Hf. destruct Hf as [Hs Hrest].
    destruct (finalized_entry sar Hs) as (conf & rmsd & x & He & Hin & Hx).
    rewrite <- app_comm_cons.
    rewrite (group_step sar conf rmsd _ _ He).
    rewrite !(raw_values_cons _ sar conf rmsd pre He).
    destruct Hin as [<- | [<- | [<- | []]]];
      cbn [bins_subscript_append bins_append String.eqb Ascii.eqb Bool.eqb
           option_map bind andb];
      rewrite (IH Hrest); cbn [app]; now rewrite <- ?app_assoc.
Qed.

(** X12: a report whose overall band is a string other than "high",
    "medium" and "low" makes the calibration raise KeyError on that band, and
    so does not produce a report, however well-formed the reports before and
    after it are. *)
Theorem calibration_unknown_band
    (np_mean np_std np_min np_max np_median : list float -> float)
    (now : string) (pre post : list value) (sar : value)
    (band : string) (rmsd : value) :
  forallb finalized pre = true ->
  sar_entry sar = Some (band, rmsd) ->
  ~ In band bands ->
  generate_calibration_report np_mean np_std np_min np_max np_median now
    (pre ++ sar :: post)
  = Raise (KeyError (VStr band)).
Proof.
  intros Hf He Hnot. unfold generate_calibration_report, empty_bins.
  rewrite (group_app_finalized pre (sar :: post) Hf).
  rewrite (group_step sar band rmsd post _ He).
  cbn [bins_subscript_append bins_append].
  destruct (String.eqb_spec "high" band) as [E | _];
    [exfalso; apply Hnot; cbn; auto | ].
  destruct (String.eqb_spec "medium" band) as [E | _];
    [exfalso; apply Hnot; cbn; auto | ].
  destruct (String.eqb_spec "low" band) as [E | _];
    [exfalso; apply Hnot; cbn; auto | ].
  reflexivity.
Qed.

Lemma calibration_unknown_band_witness :
  generate_calibration_report
    mean_sample std_sample min_sample max_sample median_sample
    "2024-01-01T09:00:00" (batch_one_band ++ sar_in "very high" 1.0 :: batch_three_bands)
  = Raise (KeyError (VStr "very high")).
Proof.
  apply (calibration_unknown_band
           mean_sample std_sample min_sample max_sample median_sample
           "2024-01-01T09:00:00" batch_one_band batch_three_bands
           (sar_in "very high" 1.0) "very high" (VNum 1.0)).
  - reflexivity.
  - reflexivity.
  - cbn. intros [H | [H | [H | []]]]; discriminate H.
Defined.

(** ** The checks of the report compilation *)

Lemma in_strs_gate_values_true (g : value) :
  in_strs g ["ACCEPT"; "REVIEW"; "REJECT"] = true <->
  exists s, g = VStr s /\ In s gate_values.
Proof.
  unfold in_strs, gate_values. rewrite existsb_exists. split.
  - intros (s & Hin & Heq). destruct g as [ | ? | ? | ? | t | ? | ?];
      try discriminate. apply String.eqb_eq in Heq. subst. eauto.
  - intros (s & -> & Hin). exists s. split; [exact Hin | apply String.eqb_refl].
Qed.

Lemma sar_validity_errors_nil (str_value : value -> string) (sar : dict) :
  sar_validity_errors str_value sar = [] <-> has_required_fields sar.
Proof.
  unfold sar_validity_errors, has_required_fields.
  rewrite <- !missing_or_none_spec.
  assert (Hm : missing_or_none sar "decision_gate"
               = match dict_get sar "decision_gate" with
                 | Some v => is_none v
                 | None => true
                 end) by reflexivity.
  destruct (dict_get sar "decision_gate") as [g | ] eqn:Eg.
  2:{ split; [discriminate | ]. intros (H & _). now contradiction H. }
  destruct (is_none g) eqn:Hn.
  { split; [discriminate | ]. intros (H & _). now contradiction H. }
  destruct (in_strs g ["ACCEPT"; "REVIEW"; "REJECT"]) eqn:Hg; cbn [negb].
  2:{ split; [discriminate | ]. intros (_ & _ & _ & s & E & Hin).
      injection E as ->.
      assert (in_strs (VStr s) ["ACCEPT"; "REVIEW"; "REJECT"] = true)
        by (apply in_strs_gate_values_true; eauto).
      congruence. }
  apply in_strs_gate_values_true in Hg. destruct Hg as (s & -> & Hin).
  rewrite Hm.
  destruct (missing_or_none sar "expected_error_range"),
    (missing_or_none sar "recommended_action"); cbn [app];
    split; try discriminate; intros H;
    try (destruct H as (_ & H1 & H2 & _); exfalso; auto; fail).
  - repeat split; try discriminate. eauto.
  - reflexivity.
Qed.

Lemma validate_sar_validity_true (str_value : value -> string) (sars : list dict) :
  snd (validate_sar_validity str_value sars) = true <->
  Forall has_required_fields sars.
Proof.
  assert (H : flat_map (sar_validity_errors str_value) sars = [] <->
              Forall has_required_fields sars).
  { induction sars as [ | sar rest IH]; cbn [flat_map].
    - split; auto.
    - split.
      + intros E. apply app_eq_nil in E. destruct E as [E1 E2].
        constructor;
          [exact (proj1 (sar_validity_errors_nil str_value sar) E1)
          | exact (proj1 IH E2)].
      + intros F. inversion F as [ | ? ? F1 F2]; subst.
        rewrite (proj2 (sar_validity_errors_nil str_value sar) F1).
        now rewrite (proj2 IH F2). }
  unfold validate_sar_validity.
  destruct (flat_map (sar_validity_errors str_value) sars) eqn:E; cbn [snd].
  - split; auto. intros _. now apply H.
  - split; [discriminate | ]. intros F. apply H in F. discriminate.
Qed.

(** X13: [validate_sar_validity] returns True exactly when every report
    has decision_gate, expected_error_range and recommended_action, none of
    them null, and a gate among ACCEPT, REVIEW, REJECT; it then prints nothing
    on stderr.  In particular it accepts the empty batch. *)
Theorem validate_sar_validity_spec (str_value : value -> string) (sars : list dict) :
  (snd (validate_sar_validity str_value sars) = true <->
   Forall has_required_fields sars) /\
  (snd (validate_sar_validity str_value sars) = true ->
   fst (validate_sar_validity str_value sars) = []) /\
  snd (validate_sar_validity str_value []) = true.
Proof.
  split; [apply validate_sar_validity_true | split; [ | reflexivity]].
  unfold validate_sar_validity.
  destruct (flat_map (sar_validity_errors str_value) sars); cbn [fst snd];
    [reflexivity | discriminate].
Qed.

Lemma validate_sar_ok_fields (sar : dict) :
  validate_sar sar true = Ok [] -> has_required_fields sar /\ ~ range_subfield_missing sar.
Proof.
  intros Hv.
  assert (Hwt : range_is_record sar).
  { destruct (dict_get sar "expected_error_range") as [v | ] eqn:Er;
      unfold range_is_record; rewrite Er; [ | exact I].
    destruct v; try exact I;
      exfalso; revert Hv; unfold validate_sar; rewrite Er; cbn [is_none bind].
    - cbn. discriminate.
    - cbn. discriminate.
    - cbn. discriminate.
    - cbn [check_subfields subfield_missing bind].
      destruct (String.index 0 "rmsd_min" s); cbn [bind]; [discriminate | ].
      destruct (String.index 0 "rmsd_max" s); cbn [bind]; [discriminate | ].
      destruct (String.index 0 "rationale" s); cbn [bind]; [discriminate | ].
      unfold required_fields, missing_or_none. cbn [filter]. rewrite Er.
      cbn [is_none]. 
      destruct (match dict_get sar "recommended_action" with
                | Some v => is_none v | None => true end);
        destruct (match dict_get sar "decision_gate" with
                  | Some v => is_none v | None => true end);
        cbn [app]; discriminate.
    - cbn [check_subfields subfield_missing bind].
      destruct (existsb (fun x => eq_str x "rmsd_min") l); cbn [bind]; [discriminate | ].
      destruct (existsb (fun x => eq_str x "rmsd_max") l); cbn [bind]; [discriminate | ].
      destruct (existsb (fun x => eq_str x "rationale") l); cbn [bind]; [discriminate | ].
      unfold required_fields, missing_or_none. cbn [filter]. rewrite Er.
      cbn [is_none].
      destruct (match dict_get sar "recommended_action" with
                | Some v => is_none v | None => true end);
        destruct (match dict_get sar "decision_gate" with
                  | Some v => is_none v | None => true end);
        cbn [app]; discriminate. }
  assert (Hn : ~ incomplete sar).
  { intros Hi. apply incompleteb_spec in Hi.
    rewrite (validate_sar_incompleteb sar true Hwt), Hi in Hv. discriminate. }
  unfold incomplete in Hn. unfold has_required_fields, range_subfield_missing.
  repeat split; try tauto.
  destruct (dict_get sar "decision_gate") as [g | ] eqn:Eg.
  - destruct (in_strs g ["ACCEPT"; "REVIEW"; "REJECT"]) eqn:Hg.
    + apply in_strs_gate_values_true in Hg. destruct Hg as (s & -> & Hin). eauto.
    + exfalso. apply Hn. do 4 right. exists g. split; [reflexivity | ].
      now apply in_strs_gate_values.
  - exfalso. apply Hn. left. left. exact Eg.
Qed.

(** X14: the check of the report compilation is the strict check of
    [validate_sar] without the subfields: a batch of reports that all pass
    [validate_sar] in strict mode passes [validate_sar_validity]; and a report
    with an object for its expected error range that passes
    [validate_sar_validity] fails the strict [validate_sar] exactly when a
    subfield of the range is missing or null. *)
Theorem validity_weaker_than_validate_sar (str_value : value -> string) :
  (forall sars,
     Forall (fun sar => validate_sar sar true = Ok []) sars ->
     snd (validate_sar_validity str_value sars) = true) /\
  (forall sar,
     range_is_record sar ->
     snd (validate_sar_validity str_value [sar]) = true ->
     (fails_incomplete (validate_sar sar true) <-> range_subfield_missing sar)) /\
  snd (validate_sar_validity str_value [sar_empty_range]) = true /\
  fails_incomplete (validate_sar sar_empty_range true).
Proof.
  split; [ | split; [ | split]].
  - intros sars Hall.
    apply (proj2 (validate_sar_validity_true str_value sars)).
    eapply Forall_impl; [ | exact Hall].
    intros sar Hv. now apply validate_sar_ok_fields.
  - intros sar Hwt Hv.
    apply (proj1 (validate_sar_validity_true str_value [sar])) in Hv.
    inversion Hv as [ | ? ? Hf _]; subst.
    destruct Hf as (Hg & Hr & Ha & s & Es & Hin).
    rewrite (validate_sar_incompleteb sar true Hwt).
    destruct (incompleteb sar) eqn:Hi.
    + apply incompleteb_spec in Hi.
      split; [intros _ | intros _; eexists; reflexivity].
      destruct Hi as [Hi | [Hi | [Hi | [Hi | Hi]]]]; try contradiction.
      * exact Hi.
      * destruct Hi as (g & Eg & H1 & H2 & H3). rewrite Es in Eg.
        injection Eg as <-. unfold gate_values in Hin.
        destruct Hin as [<- | [<- | [<- | []]]]; congruence.
    + split; [intros (f & E); discriminate | ].
      intros Hm. exfalso.
      assert (incomplete sar) by (right; right; left; exact Hm).
      apply incompleteb_spec in H. congruence.
  - reflexivity.
  - eexists. reflexivity.
Qed.

Lemma load_sars_from_partition {A : Type} (str_value : value -> string)
    (sar_dir : string -> option A) (ts : list value) :
  forall sars missing,
    load_sars_from str_value sar_dir ts = Ok (sars, missing) ->
    length sars + length missing = length ts /\
    Forall (fun sar =>
              exists target pdb_id,
                In target ts /\ subscript target "pdb_id" = Ok pdb_id /\
                sar_dir (str_value pdb_id ++ ".json") = Some sar) sars /\
    Forall (fun pdb_id =>
              exists target,
                In target ts /\ subscript target "pdb_id" = Ok pdb_id /\
                sar_dir (str_value pdb_id ++ ".json") = None) missing.
Proof.
  induction ts as [ | target rest IH]; intros sars missing; cbn [load_sars_from].
  - intros H. injection H as <- <-. repeat split; constructor.
  - destruct (subscript target "pdb_id") as [pdb_id | e] eqn:Ep; cbn [bind];
      [ | discriminate].
    destruct (sar_dir (str_value pdb_id ++ ".json")) as [sar | ] eqn:Ef;
      destruct (load_sars_from str_value sar_dir rest) as [[ss ms] | e] eqn:Er;
      cbn [bind fst snd]; try discriminate;
      intros H; injection H as <- <-;
      destruct (IH ss ms eq_refl) as (Hlen & Hs & Hm);
      (split; [cbn [length]; lia | split]).
    + constructor.
      * exists target, pdb_id. cbn [In]. auto.
      * eapply Forall_impl; [ | exact Hs].
        intros s (t & i & Hin & H1 & H2). exists t, i. cbn [In]. auto.
    + eapply Forall_impl; [ | exact Hm].
      intros i (t & Hin & H1 & H2). exists t. cbn [In]. auto.
    + eapply Forall_impl; [ | exact Hs].
      intros s (t & i & Hin & H1 & H2). exists t, i. cbn [In]. auto.
    + constructor.
      * exists target. cbn [In]. auto.
      * eapply Forall_impl; [ | exact Hm].
        intros i (t & Hin & H1 & H2). exists t. cbn [In]. auto.
Qed.

(** X15: when [load_sars] returns, every target of the manifest is either
    loaded or listed as missing: each report returned is the file of a target,
    each identifier listed as missing is that of a target without file, and
    the two lists together have as many entries as the manifest has targets.
    Hence [validate_completeness] on the reports loaded returns True, and
    prints nothing, exactly when no target is missing. *)
Theorem load_sars_complete {A : Type} (str_value : value -> string)
    (sar_dir : string -> option A) (m : manifest)
    (sars : list A) (missing : list value) :
  load_sars str_value sar_dir m = Ok (sars, missing) ->
  length sars + length missing = length (targets m) /\
  Forall (fun sar =>
            exists target pdb_id,
              In target (targets m) /\ subscript target "pdb_id" = Ok pdb_id /\
              sar_dir (str_value pdb_id ++ ".json") = Some sar) sars /\
  Forall (fun pdb_id =>
            exists target,
              In target (targets m) /\ subscript target "pdb_id" = Ok pdb_id /\
              sar_dir (str_value pdb_id ++ ".json") = None) missing /\
  (snd (validate_completeness sars m) = true <-> missing = []) /\
  (missing = [] -> fst (validate_completeness sars m) = []).
Proof.
  intros H. unfold load_sars in H.
  destruct (load_sars_from_partition str_value sar_dir (targets m) sars missing H)
    as (Hlen & Hs & Hm).
  split; [exact Hlen | split; [exact Hs | split; [exact Hm | ]]].
  unfold validate_completeness.
  destruct (Nat.ltb_spec (length sars) (length (targets m))) as [Hlt | Hge];
    cbn [fst snd]; split.
  - split; [discriminate | ]. intros ->. cbn [length] in Hlen. lia.
  - intros ->. cbn [length] in Hlen. lia.
  - split; [intros _ | reflexivity].
    destruct missing; [reflexivity | cbn [length] in Hlen; lia].
  - reflexivity.
Qed.

(** Three targets, the second without a report. *)
Lemma load_sars_complete_witness :
  load_sars str_value_sample sar_dir_sample manifest_sample
  = Ok ([VDict sar_complete; VDict sar_maybe], [VStr "2SRC"]) /\
  snd (validate_completeness [VDict sar_complete; VDict sar_maybe] manifest_sample)
  = false.
Proof.
  split; [reflexivity | ].
  destruct (load_sars_complete str_value_sample sar_dir_sample manifest_sample
              [VDict sar_complete; VDict sar_maybe] [VStr "2SRC"] eq_refl)
    as (_ & _ & _ & [Hc _] & _).
  destruct (snd (validate_completeness [VDict sar_complete; VDict sar_maybe]
                   manifest_sample)); [ | reflexivity].
  discriminate (Hc eq_refl).
Defined.

(** ** The inference stub and its batch loop *)

Module RunInferenceFacts.
Import RunInference.

Lemma uniform_array_length (low high : float) (n : nat) :
  forall w, length (fst (uniform_array low high n w)) = n.
Proof.
  induction n as [ | n IH]; intros w; [reflexivity | ].
  cbn [uniform_array]. destruct (uniform low high w) as [x w1].
  specialize (IH w1). destruct (uniform_array low high n w1) as [xs w2].
  cbn [fst length] in *. now rewrite IH.
Qed.

Lemma uniform_matrix_shape (low high : float) (rows cols : nat) :
  forall w,
    length (fst (uniform_matrix low high rows cols w)) = rows /\
    Forall (fun row => length row = cols)
      (fst (uniform_matrix low high rows cols w)).
Proof.
  induction rows as [ | rows IH]; intros w; [split; [reflexivity | constructor] | ].
  cbn [uniform_matrix].
  pose proof (uniform_array_length low high cols w) as Hrow.
  destruct (uniform_array low high cols w) as [row w1].
  specialize (IH w1). destruct (uniform_matrix low high rows cols w1) as [m w2].
  cbn [fst length] in *. destruct IH as [Hl Hf].
  split; [now rewrite Hl | now constructor].
Qed.

(** X16: the stub fails only when the seeding of the generator fails, with
    the same exception.  When it returns, the prediction has between 280 and
    329 residues, one confidence score per residue and a square matrix of
    error estimates of that size, and it is marked as stub output of model
    af3_stub with the seed and recycles it was given. *)
Theorem run_alphafold3_stub_shape
    (set_deterministic_seed : Z -> world -> result world)
    (np_randn : nat -> nat -> world -> list (list float) * world)
    (pdb_id : string) (seed recycles : Z) (w : world) :
  (forall e,
     run_alphafold3_stub set_deterministic_seed np_randn pdb_id seed recycles w
     = Raise e <->
     set_deterministic_seed (seed + pdb_hash pdb_id)%Z w = Raise e) /\
  (forall result w',
     run_alphafold3_stub set_deterministic_seed np_randn pdb_id seed recycles w
     = Ok (result, w') ->
     exists n plddt pae,
       dict_get result "n_residues" = Some (VInt n) /\
       (280 <= n <= 329)%Z /\
       dict_get result "plddt" = Some (vector_to_value plddt) /\
       length plddt = Z.to_nat n /\
       dict_get result "pae" = Some (matrix_to_value pae) /\
       length pae = Z.to_nat n /\
       Forall (fun row => length row = Z.to_nat n) pae /\
       dict_get result "pdb_id" = Some (VStr pdb_id) /\
       dict_get result "model_version" = Some (VStr "af3_stub") /\
       dict_get result "stub_output" = Some (VBool true) /\
       dict_get result "seed" = Some (VInt seed) /\
       dict_get result "recycles" = Some (VInt recycles)).
Proof.
  unfold run_alphafold3_stub.
  destruct (set_deterministic_seed (seed + pdb_hash pdb_id)%Z w) as [w0 | e0];
    cbn [bind].
  2:{ split; [intros e; split; intros H; injection H as ->; reflexivity
             | intros ? ? H; discriminate H]. }
  set (n := (280 + pdb_hash pdb_id mod 50)%Z).
  destruct (np_randn (Z.to_nat n) 3 w0) as [normal w1].
  pose proof (uniform_array_length
                (float_of_Z (50 + pdb_hash pdb_id mod 3 * 15))
                (float_of_Z (70 + pdb_hash pdb_id mod 3 * 15)) (Z.to_nat n) w1) as Hp.
  destruct (uniform_array _ _ (Z.to_nat n) w1) as [plddt w2].
  pose proof (uniform_matrix_shape
                (float_of_Z (2 + pdb_hash pdb_id mod 3 * 5))
                (float_of_Z (7 + pdb_hash pdb_id mod 3 * 5))
                (Z.to_nat n) (Z.to_nat n) w2) as [Hm1 Hm2].
  destruct (uniform_matrix _ _ (Z.to_nat n) (Z.to_nat n) w2) as [pae w3].
  cbn [fst] in *.
  split; [intros e; split; discriminate | ].
  intros result w' H. injection H as <- <-.
  exists n, plddt, pae.
  assert (Hn : (280 <= n <= 329)%Z)
    by (unfold n; pose proof (Z.mod_pos_bound (pdb_hash pdb_id) 50); lia).
  repeat split; try reflexivity; try lia; assumption.
Qed.

(** The target 8ABC under the locked seed. *)
Lemma run_alphafold3_stub_shape_witness :
  exists n,
    (280 <= n <= 329)%Z /\
    dict_get
      (match run_alphafold3_stub seed_sample randn_sample "8ABC" 42 3 world_monday with
       | Ok (result, _) => result
       | Raise _ => []
       end) "n_residues" = Some (VInt n).
Proof.
  destruct (run_alphafold3_stub seed_sample randn_sample "8ABC" 42 3 world_monday)
    as [[result w'] | e] eqn:E.
  - destruct (proj2 (run_alphafold3_stub_shape seed_sample randn_sample
                       "8ABC" 42 3 world_monday) result w' E)
      as (n & plddt & pae & Hres & Hbounds & _).
    exists n. split; assumption.
  - apply (proj1 (run_alphafold3_stub_shape seed_sample randn_sample
                    "8ABC" 42 3 world_monday)) in E.
    vm_compute in E. discriminate E.
Defined.

Lemma successes_app (l1 l2 : list dict) :
  successes (l1 ++ l2) = (successes l1 ++ successes l2)%list.
Proof. apply filter_app. Qed.

Section InferenceLoop.

Variable set_deterministic_seed : Z -> world -> result world.
Variable np_randn : nat -> nat -> world -> list (list float) * world.
Variable str : exn -> string.
Variable path_join : string -> string -> string.
Variable a : args.

(** One call appends one entry for its target to the log; it reports a
    success, and one more prediction is written, exactly when it returns
    True. *)
Lemma process_target_log (pdb_id : string) (wr : option exn) (r : run) :
  exists entry,
    execution_log (snd (process_target set_deterministic_seed np_randn str
                          path_join pdb_id wr a r))
    = (execution_log r ++ [entry])%list /\
    dict_get entry "pdb_id" = Some (VStr pdb_id) /\
    successes [entry]
    = (if fst (process_target set_deterministic_seed np_randn str path_join
                 pdb_id wr a r)
       then [entry] else []) /\
    length (predictions (snd (process_target set_deterministic_seed np_randn str
                                path_join pdb_id wr a r)))
    = length (predictions r)
      + (if fst (process_target set_deterministic_seed np_randn str path_join
                   pdb_id wr a r)
         then 1 else 0).
Proof.
  unfold process_target, log_error.
  destruct (run_alphafold3_stub set_deterministic_seed np_randn pdb_id
              (seed a) (recycles a) (env r)) as [[result w] | e];
    [destruct wr as [e | ] | ];
    cbn [fst snd execution_log predictions]; eexists;
    (split; [reflexivity | split; [reflexivity | split; [reflexivity | ]]]);
    rewrite ?length_app; cbn [length]; lia.
Qed.

Lemma process_all_log (ts : list attempt) :
  forall n r,
    map (fun entry => dict_get entry "pdb_id")
      (execution_log (snd (fst (process_all set_deterministic_seed np_randn str
                                  path_join ts a n r))))
    = (map (fun entry => dict_get entry "pdb_id") (execution_log r)
       ++ map (fun pdb_id => Some (VStr pdb_id)) (reached ts))%list /\
    fst (fst (process_all set_deterministic_seed np_randn str path_join ts a n r))
    + length (successes (execution_log r))
    = n + length (successes
                    (execution_log
                       (snd (fst (process_all set_deterministic_seed np_randn str
                                    path_join ts a n r))))) /\
    fst (fst (process_all set_deterministic_seed np_randn str path_join ts a n r))
    + length (predictions r)
    = n + length (predictions
                    (snd (fst (process_all set_deterministic_seed np_randn str
                                 path_join ts a n r)))) /\
    n <= fst (fst (process_all set_deterministic_seed np_randn str path_join
                     ts a n r))
      <= n + length (reached ts) /\
    (snd (process_all set_deterministic_seed np_randn str path_join ts a n r)
     = None <-> all_identified ts) /\
    (all_identified ts -> length (reached ts) = length ts).
Proof.
  induction ts as [ | t rest IH]; intros n r; cbn [process_all reached].
  - cbn [fst snd map length]. rewrite app_nil_r.
    repeat split; try lia; constructor.
  - destruct (identifier t) as [pdb_id | e] eqn:Ei.
    2:{ cbn [fst snd map length]. rewrite app_nil_r.
        split; [reflexivity | split; [lia | split; [lia | split; [lia | split]]]].
        - split; [discriminate | ].
          intros F. inversion F as [ | ? ? (i & Hi) _]; subst. congruence.
        - intros F. inversion F as [ | ? ? (i & Hi) _]; subst. congruence. }
    destruct (process_target_log pdb_id (write_error t) r)
      as (entry & Hlog & Hid & Hs & Hp).
    destruct (process_target set_deterministic_seed np_randn str path_join
                pdb_id (write_error t) a r) as [ok r'].
    cbn [fst snd] in *.
    destruct (IH (if ok then S n else n) r') as (I1 & I2 & I3 & I4 & I5 & I6).
    rewrite Hlog in I1, I2. rewrite map_app in I1. cbn [map] in I1.
    rewrite Hid in I1. rewrite <- app_assoc in I1. cbn [app] in I1.
    rewrite successes_app, length_app, Hs in I2.
    split; [exact I1 | ].
    assert (Hall : all_identified (t :: rest) <-> all_identified rest).
    { unfold all_identified. split; intros F.
      - now inversion F.
      - constructor; [eauto | exact F]. }
    split; [destruct ok; cbn [length] in *; lia | ].
    split; [destruct ok; cbn [length] in *; lia | ].
    split; [destruct ok; cbn [length] in *; lia | ].
    split; [now rewrite I5, Hall | ].
    intros F. cbn [length]. f_equal. apply I6, Hall, F.
Qed.

End InferenceLoop.


End RunInferenceFacts.

(** ** The compilation of the reports *)

Module CompileReportsFacts.
Import CompileReportsMain.

Section MainFacts.
Variable fmt : string -> float -> string.
Variable fmt_value : string -> value -> outcome string.
Variable str_value : value -> string.
Variable sorted_by_key : list (value * dict) -> result (list dict).
Variable utcnow : nat -> string.
Variable compute_file_hash : string -> string.
Variable path_join : string -> string -> string.
Variables np_mean np_std np_min np_max np_median : list float -> float.

Abbreviation run :=
  (main fmt fmt_value str_value sorted_by_key utcnow compute_file_hash path_join
     np_mean np_std np_min np_max np_median).

Lemma calibration_log_passed (now : string) (sars : list value) report log :
  generate_calibration_report np_mean np_std np_min np_max np_median now sars
  = Ok (report, log, true) -> log = [].
Proof.
  unfold generate_calibration_report. intros H.
  destruct (group sars empty_bins) as [b | e]; cbn [bind] in H; [ | discriminate].
  destruct (compute_statistics np_mean np_std np_min np_max np_median b)
    as [r | e]; cbn [bind] in H; [ | discriminate].
  injection H as _ Hlog Hp. subst log.
  destruct (snd r) as [ | [ | [ | n]]]; try discriminate Hp; reflexivity.
Qed.

Lemma validate_completeness_loaded {A : Type} (sars : list A) (m : manifest)
    log complete :
  length sars = length (targets m) ->
  validate_completeness sars m = (log, complete) ->
  log = [] /\ complete = true.
Proof.
  unfold validate_completeness. intros Hlen H. rewrite Hlen, Nat.ltb_irrefl in H.
  injection H as <- <-. split; reflexivity.
Qed.

Lemma validate_sar_validity_log (sars : list dict) log :
  validate_sar_validity str_value sars = (log, true) ->
  log = [] /\ flat_map (sar_validity_errors str_value) sars = [].
Proof.
  unfold validate_sar_validity. intros H.
  destruct (flat_map (sar_validity_errors str_value) sars) as [ | e rest].
  - injection H as <-. split; reflexivity.
  - discriminate H.
Qed.

Lemma load_sars_none_missing (sar_dir : string -> option dict) (m : manifest)
    (sars : list dict) :
  load_sars str_value sar_dir m = Ok (sars, []) ->
  length sars = length (targets m).
Proof.
  intros H. unfold load_sars in H.
  destruct (load_sars_from_partition str_value sar_dir (targets m) sars [] H)
    as (Hlen & _). cbn [length] in Hlen. lia.
Qed.


(** X19: [main] returns normally only on a complete run: every target of the
    manifest has a report, every report passes the validity check, the
    summary is generated, the calibration has at least three populated bands,
    the three files are written and nothing is printed on stderr. *)
Theorem compile_main_returned (a : args) (m : manifest)
    (sar_dir : string -> option dict) :
  ending_of (run a m sar_dir) = Returned ->
  exists sars summary_md report,
    load_sars str_value sar_dir m = Ok (sars, []) /\
    length sars = length (targets m) /\
    flat_map (sar_validity_errors str_value) sars = [] /\
    generate_summary fmt fmt_value str_value sorted_by_key (utcnow 0) sars
    = Returns summary_md /\
    generate_calibration_report np_mean np_std np_min np_max np_median (utcnow 1)
      (map VDict sars) = Ok (report, [], true) /\
    run a m sar_dir
    = {| err := []; summary_file := Some summary_md;
         calibration_file := Some report;
         provenance_file :=
           Some (generate_execution_provenance (utcnow 2) compute_file_hash path_join
                   a (sar_dir_path a));
         ending_of := Returned |}.
Proof.
  unfold main. intros H.
  destruct (load_sars str_value sar_dir m) as [[sars missing] | e] eqn:El;
    [ | discriminate H].
  destruct missing as [ | x rest].
  2:{ destruct (strings_of (x :: rest)); discriminate H. }
  pose proof (load_sars_none_missing sar_dir m sars El) as Hlen.
  destruct (validate_completeness sars m) as [log1 complete] eqn:Ec.
  destruct (validate_completeness_loaded sars m log1 complete Hlen Ec) as [-> ->].
  destruct (validate_sar_validity str_value sars) as [log2 valid] eqn:Ev.
  destruct valid; cbn [andb negb] in H; [ | discriminate H].
  destruct (validate_sar_validity_log sars log2 Ev) as [-> Hv].
  destruct (generate_summary fmt fmt_value str_value sorted_by_key (utcnow 0) sars)
    as [summary_md | r] eqn:Es; [ | discriminate H].
  destruct (generate_calibration_report np_mean np_std np_min np_max np_median
              (utcnow 1) (map VDict sars)) as [[[report log3] passed] | e] eqn:Eg;
    [ | discriminate H].
  cbn [ending_of] in H. destruct passed; [ | discriminate H].
  pose proof (calibration_log_passed (utcnow 1) (map VDict sars) report log3 Eg)
    as ->.
  exists sars, summary_md, report.
  repeat (split; [assumption || reflexivity | ]). reflexivity.
Qed.

(** X20: [main] exits with status 1 and no other.  It does so either before
    any report is written, because a target has no report file or a report
    fails the validity check, or after all three reports are written, because
    the calibration has fewer than three populated bands. *)
Theorem compile_main_exit (a : args) (m : manifest)
    (sar_dir : string -> option dict) (status : Z) :
  ending_of (run a m sar_dir) = Exit status ->
  status = 1%Z /\
  exists sars missing,
    load_sars str_value sar_dir m = Ok (sars, missing) /\
    ((summary_file (run a m sar_dir) = None /\
      calibration_file (run a m sar_dir) = None /\
      provenance_file (run a m sar_dir) = None /\
      (missing <> [] \/
       missing = [] /\ snd (validate_sar_validity str_value sars) = false))
     \/
     (missing = [] /\
      exists summary_md report log,
        generate_calibration_report np_mean np_std np_min np_max np_median (utcnow 1)
          (map VDict sars) = Ok (report, log, false) /\
        summary_file (run a m sar_dir) = Some summary_md /\
        calibration_file (run a m sar_dir) = Some report /\
        provenance_file (run a m sar_dir)
        = Some (generate_execution_provenance (utcnow 2) compute_file_hash path_join
                  a (sar_dir_path a)))).
Proof.
  unfold main. intros H.
  destruct (load_sars str_value sar_dir m) as [[sars missing] | e] eqn:El;
    [ | discriminate H].
  destruct missing as [ | x rest].
  2:{ destruct (strings_of (x :: rest)); [ | discriminate H].
      cbn [ending_of] in H. injection H as <-.
      split; [reflexivity | ]. exists sars, (x :: rest).
      split; [reflexivity | ]. left. cbn.
      repeat (split; [reflexivity | ]). left. discriminate. }
  pose proof (load_sars_none_missing sar_dir m sars El) as Hlen.
  destruct (validate_completeness sars m) as [log1 complete] eqn:Ec.
  destruct (validate_completeness_loaded sars m log1 complete Hlen Ec) as [-> ->].
  destruct (validate_sar_validity str_value sars) as [log2 valid] eqn:Ev.
  destruct valid; cbn [andb negb] in H |- *.
  2:{ cbn [ending_of] in H. injection H as <-.
      split; [reflexivity | ]. exists sars, [].
      split; [reflexivity | ]. left. cbn.
      repeat (split; [reflexivity | ]). right. rewrite Ev. split; reflexivity. }
  destruct (generate_summary fmt fmt_value str_value sorted_by_key (utcnow 0) sars)
    as [summary_md | r] eqn:Es; [ | discriminate H].
  destruct (generate_calibration_report np_mean np_std np_min np_max np_median
              (utcnow 1) (map VDict sars)) as [[[report log3] passed] | e] eqn:Eg;
    [ | discriminate H].
  cbn [ending_of] in H. destruct passed; [discriminate H | ].
  injection H as <-. split; [reflexivity | ]. exists sars, [].
  split; [reflexivity | ]. right. split; [reflexivity | ].
  exists summary_md, report, log3. split; [exact Eg | ]. cbn.
  repeat split; reflexivity.
Qed.

(** X21: the expected hashes on the command line are recorded and never
    enforced: with other hashes, and the same readings of the clock, [main]
    ends the same way, prints the same lines and writes the same summary and
    calibration report; only the provenance differs, whose hash_match entry
    tells whether the hash of the manifest file is the expected one. *)
Theorem compile_main_ignores_hashes (a : args) (m : manifest)
    (sar_dir : string -> option dict) (accepted rejected : string) :
  ending_of (run (with_hashes a accepted rejected) m sar_dir)
  = ending_of (run a m sar_dir) /\
  err (run (with_hashes a accepted rejected) m sar_dir) = err (run a m sar_dir) /\
  summary_file (run (with_hashes a accepted rejected) m sar_dir)
  = summary_file (run a m sar_dir) /\
  calibration_file (run (with_hashes a accepted rejected) m sar_dir)
  = calibration_file (run a m sar_dir) /\
  forall provenance,
    provenance_file (run (with_hashes a accepted rejected) m sar_dir)
    = Some provenance ->
    (verification <- subscript (VDict provenance) "manifest_verification" ;;
     subscript verification "hash_match")
    = Ok (VBool (compute_file_hash (manifest_path a) =? accepted)).
Proof.
  unfold main.
  destruct (load_sars str_value sar_dir m) as [[sars missing] | e];
    [ | repeat split; discriminate].
  destruct missing as [ | x rest].
  2:{ destruct (strings_of (x :: rest)); repeat split; discriminate. }
  destruct (validate_completeness sars m) as [log1 complete].
  destruct (validate_sar_validity str_value sars) as [log2 valid].
  destruct (negb (complete && valid)); [repeat split; discriminate | ].
  destruct (generate_summary fmt fmt_value str_value sorted_by_key (utcnow 0) sars)
    as [summary_md | r]; [ | repeat split; discriminate].
  destruct (generate_calibration_report np_mean np_std np_min np_max np_median
              (utcnow 1) (map VDict sars)) as [[[report log3] passed] | e];
    [ | repeat split; discriminate].
  cbn [ending_of err summary_file calibration_file provenance_file].
  repeat (split; [reflexivity | ]).
  intros provenance E. injection E as <-. reflexivity.
Qed.

Lemma counter_keys_str (get : dict -> result value) (sar : dict)
    (rest : list dict) (s : string) (keys : list value) :
  get sar = Ok (VStr s) ->
  counter_keys get rest = Ok keys ->
  counter_keys get (sar :: rest) = Ok (VStr s :: keys).
Proof.
  intros H1 H2. cbn [counter_keys]. rewrite H1. cbn [bind]. rewrite H2.
  reflexivity.
Qed.

(** X22: on reports that pass the validity check, the counting of the
    decision gates in [generate_summary] does not fail, and the counts of
    ACCEPT, REVIEW and REJECT printed in the summary add up to the number of
    reports. *)
Theorem summary_gate_counts_add_up (sars : list dict) :
  snd (validate_sar_validity str_value sars) = true ->
  exists keys,
    counter_keys (fun sar => subscript (VDict sar) "decision_gate") sars = Ok keys /\
    counter_get keys "ACCEPT" + counter_get keys "REVIEW"
    + counter_get keys "REJECT" = length sars.
Proof.
  intros H. apply validate_sar_validity_true in H.
  induction H as [ | sar rest Hsar _ (keys & Ek & Hsum)].
  - exists []. split; reflexivity.
  - destruct Hsar as (_ & _ & _ & g & Eg & Hin).
    exists (VStr g :: keys). split.
    { apply counter_keys_str; [cbn [subscript]; now rewrite Eg | exact Ek]. }
    unfold counter_get in *. cbn [filter eq_str length].
    unfold gate_values in Hin.
    destruct Hin as [<- | [<- | [<- | []]]]; cbn; lia.
Qed.

End MainFacts.

Lemma compile_main_returned_witness :
  ending_of (main fmt_blank fmt_value_sample str_value_sample sorted_sample
               clock_sample hash_sample path_join_sample
               mean_sample std_sample min_sample max_sample median_sample
               args_compile manifest_sample report_dir_sample) = Returned /\
  exists sars summary_md report,
    load_sars str_value_sample report_dir_sample manifest_sample = Ok (sars, []) /\
    length sars = 3 /\
    summary_file
      (main fmt_blank fmt_value_sample str_value_sample sorted_sample
         clock_sample hash_sample path_join_sample
         mean_sample std_sample min_sample max_sample median_sample
         args_compile manifest_sample report_dir_sample) = Some summary_md /\
    calibration_file
      (main fmt_blank fmt_value_sample str_value_sample sorted_sample
         clock_sample hash_sample path_join_sample
         mean_sample std_sample min_sample max_sample median_sample
         args_compile manifest_sample report_dir_sample) = Some report.
Proof.
  assert (H : ending_of
                (main fmt_blank fmt_value_sample str_value_sample sorted_sample
                   clock_sample hash_sample path_join_sample
                   mean_sample std_sample min_sample max_sample median_sample
                   args_compile manifest_sample report_dir_sample) = Returned)
    by (vm_compute; reflexivity).
  split; [exact H | ].
  destruct (compile_main_returned fmt_blank fmt_value_sample str_value_sample
              sorted_sample clock_sample hash_sample path_join_sample
              mean_sample std_sample min_sample max_sample median_sample
              args_compile manifest_sample report_dir_sample H)
    as (sars & summary_md & report & Hl & Hn & _ & _ & _ & Hr).
  exists sars, summary_md, report.
  split; [exact Hl | ]. split; [exact Hn | ].
  rewrite Hr. split; reflexivity.
Defined.

Lemma compile_main_exit_witness :
  ending_of (main fmt_blank fmt_value_sample str_value_sample sorted_sample
               clock_sample hash_sample path_join_sample
               mean_sample std_sample min_sample max_sample median_sample
               args_compile manifest_sample empty_dir_sample) = Exit 1 /\
  exists sars missing,
    load_sars str_value_sample empty_dir_sample manifest_sample
    = Ok (sars, missing) /\
    length missing = 3.
Proof.
  assert (H : ending_of
                (main fmt_blank fmt_value_sample str_value_sample sorted_sample
                   clock_sample hash_sample path_join_sample
                   mean_sample std_sample min_sample max_sample median_sample
                   args_compile manifest_sample empty_dir_sample) = Exit 1)
    by (vm_compute; reflexivity).
  split; [exact H | ].
  destruct (compile_main_exit fmt_blank fmt_value_sample str_value_sample
              sorted_sample clock_sample hash_sample path_join_sample
              mean_sample std_sample min_sample max_sample median_sample
              args_compile manifest_sample empty_dir_sample 1%Z H)
    as (_ & sars & missing & Hl & _).
  exists sars, missing. split; [exact Hl | ].
  vm_compute in Hl. injection Hl as _ <-. reflexivity.
Defined.

Lemma summary_gate_counts_add_up_witness :
  snd (validate_sar_validity str_value_sample
         [report_sample "1ATP" "high" 1.0; report_sample "2SRC" "medium" 2.5])
  = true /\
  exists keys,
    counter_keys (fun sar => subscript (VDict sar) "decision_gate")
      [report_sample "1ATP" "high" 1.0; report_sample "2SRC" "medium" 2.5]
    = Ok keys /\
    counter_get keys "ACCEPT" + counter_get keys "REVIEW"
    + counter_get keys "REJECT" = 2.
Proof.
  split; [reflexivity | ].
  apply (summary_gate_counts_add_up str_value_sample
           [report_sample "1ATP" "high" 1.0; report_sample "2SRC" "medium" 2.5]).
  reflexivity.
Defined.

End CompileReportsFacts.

(** ** The manifests *)

Module GenerateManifestFacts.
Import GenerateManifest.

(** X23: the two manifests agree with the inclusion criteria that the
    accepted one states: each has ten targets; every accepted target is an
    X-ray structure within the resolution and release-date bounds; every
    rejected target fails exactly one criterion, the one named by its
    rejection reason; and the twenty identifiers are pairwise distinct. *)
Theorem manifests_follow_criteria :
  exists criteria accepted rejected,
    dict_get create_accepted_manifest "inclusion_criteria" = Some (VDict criteria) /\
    dict_get create_accepted_manifest "targets" = Some (VList accepted) /\
    dict_get create_rejected_manifest "targets" = Some (VList rejected) /\
    length accepted = 10 /\ length rejected = 10 /\
    Forall (meets_criteria criteria) accepted /\
    Forall (rejected_for_cause criteria) rejected /\
    NoDup (map (fun target => subscript target "pdb_id") (accepted ++ rejected)).
Proof.
  do 3 eexists.
  split; [reflexivity | ]. split; [reflexivity | ]. split; [reflexivity | ].
  split; [reflexivity | ]. split; [reflexivity | ].
  split; [ | split].
  - repeat constructor; (eexists; split; [reflexivity | vm_compute; reflexivity]).
  - repeat constructor;
      (do 3 eexists; split; [reflexivity | ];
       split; [vm_compute; reflexivity | ]; split; [reflexivity | reflexivity]).
  - cbn [map app subscript dict_get String.eqb Ascii.eqb Bool.eqb].
    repeat constructor; cbn [In]; intuition discriminate.
Qed.

End GenerateManifestFacts.

(** ** From the generation of the reports to their compilation *)

Module PipelineFacts.
Import CompileReportsMain.

Lemma classify_confidence_in_bands (plddt_mean pae_mean : float) :
  In (overall_confidence (classify_confidence plddt_mean pae_mean)) bands.
Proof.
  unfold classify_confidence, bands. cbn [overall_confidence].
  destruct (fgt plddt_mean 90); destruct (fgt plddt_mean 70);
    destruct (flt pae_mean 5); destruct (flt pae_mean 10); cbn; auto.
Qed.

Section Pipeline.
Variable fmt : string -> float -> string.
Variable np_mean : list float -> float.
Variable np_mean2 : list (list float) -> float.
Variable np_rmsd : coords -> coords -> float.
Variable py_round : float -> Z -> float.
Variable fmt_value : string -> value -> outcome string.
Variable str_value : value -> string.
Variable sorted_by_key : list (value * dict) -> result (list dict).
Variable utcnow : nat -> string.
Variable compute_file_hash : string -> string.
Variable path_join : string -> string -> string.
Variables np_std np_min np_max np_median : list float -> float.

Lemma generated_fields (sar : dict) :
  generated fmt np_mean np_mean2 np_rmsd py_round sar ->
  has_required_fields sar /\ summarizable sar /\ finalized (VDict sar) = true.
Proof.
  intros (t & p & g & w & ->).
  split.
  { exact (proj1 (validate_sar_ok_fields _
                    (generate_sar_validates fmt np_mean np_mean2 np_rmsd py_round
                       t p g w true))). }
  unfold generate_sar.
  destruct (compute_metrics np_mean np_mean2 np_rmsd t p g w)
    as [[[[[pl pa] rg] rl] cm] w'].
  cbn [fst]. split.
  - do 6 eexists. repeat split; reflexivity.
  - unfold finalized, sar_entry.
    cbn [subscript dict_get String.eqb Ascii.eqb Bool.eqb confidence_to_value
         as_float andb].
    rewrite andb_true_r. apply existsb_exists.
    exists (overall_confidence (classify_confidence pl pa)).
    split; [apply classify_confidence_in_bands | apply String.eqb_refl].
Qed.

Lemma counter_keys_strings (get : dict -> result value) (sars : list dict) :
  Forall (fun sar => exists s, get sar = Ok (VStr s)) sars ->
  exists keys, counter_keys get sars = Ok keys.
Proof.
  induction 1 as [ | sar rest (s & Hs) _ (keys & Hk)].
  - exists []. reflexivity.
  - exists (VStr s :: keys).
    exact (CompileReportsFacts.counter_keys_str get sar rest s keys Hs Hk).
Qed.

Lemma keyed_by_pdb_id_strings (sars : list dict) :
  Forall summarizable sars ->
  exists keyed,
    keyed_by_pdb_id sars = Ok keyed /\ map snd keyed = sars /\
    Forall (fun kd => exists s, fst kd = VStr s) keyed.
Proof.
  induction 1 as [ | sar rest Hs _ (keyed & Hk & Hm & Hf)].
  - exists []. repeat split. constructor.
  - destruct Hs as (id & ? & ? & ? & ? & ? & Hid & _).
    exists ((VStr id, sar) :: keyed). cbn [keyed_by_pdb_id subscript].
    rewrite Hid. cbn [bind]. rewrite Hk. cbn [bind map snd]. rewrite Hm.
    repeat split. constructor; [now exists id | exact Hf].
Qed.

(** [format] returns on a float with the two specifications that the summary
    uses. *)
Hypothesis fmt_value_number :
  forall x,
    (exists text, fmt_value ".2f" (VNum x) = Returns text) /\
    (exists text, fmt_value ".1f" (VNum x) = Returns text).

Lemma summary_row_returns (sar : dict) :
  summarizable sar ->
  exists row, summary_row fmt_value str_value sar = Returns row.
Proof.
  intros (id & gate & cls & rmsd & plddt & conf & Hid & Hg & Hca & Hft & Hr & Hp).
  unfold summary_row. cbn [subscript] in *. rewrite Hid, Hg.
  cbn [of_result bind_outcome].
  destruct (dict_get sar "failure_taxonomy") as [ft | ];
    cbn [bind] in Hft; [ | discriminate Hft].
  cbn [of_result bind_outcome]. rewrite Hft. cbn [of_result bind_outcome].
  destruct (dict_get sar "metrics") as [ms | ];
    cbn [bind] in Hr, Hp; [ | discriminate Hr].
  cbn [of_result bind_outcome]. rewrite Hr. cbn [of_result bind_outcome].
  rewrite Hp. cbn [of_result bind_outcome].
  destruct (dict_get sar "confidence_assessment") as [ca | ];
    cbn [bind] in Hca; [ | discriminate Hca].
  cbn [of_result bind_outcome]. rewrite Hca. cbn [of_result bind_outcome].
  destruct (proj1 (fmt_value_number rmsd)) as [t1 ->].
  destruct (proj2 (fmt_value_number plddt)) as [t2 ->].
  cbn [bind_outcome]. eexists. reflexivity.
Qed.

Lemma summary_rows_return (sars : list dict) :
  Forall summarizable sars ->
  exists rows, summary_rows fmt_value str_value sars = Returns rows.
Proof.
  induction 1 as [ | sar rest Hs _ (rows & Hrows)].
  - exists "". reflexivity.
  - destruct (summary_row_returns sar Hs) as [row Hrow].
    exists (row ++ rows). cbn [summary_rows]. rewrite Hrow. cbn [bind_outcome].
    rewrite Hrows. reflexivity.
Qed.

Hypothesis sorted_strings : sorts_strings sorted_by_key.

Lemma generate_summary_returns (sars : list dict) :
  sars <> [] ->
  Forall summarizable sars ->
  exists summary_md,
    generate_summary fmt fmt_value str_value sorted_by_key (utcnow 0) sars
    = Returns summary_md.
Proof.
  intros Hne Hs. unfold generate_summary.
  destruct (counter_keys_strings
              (fun sar => subscript (VDict sar) "decision_gate") sars)
    as [gates ->].
  { eapply Forall_impl; [ | exact Hs].
    intros sar (? & gate & ? & ? & ? & ? & _ & Hg & _).
    exists gate. cbn [subscript]. now rewrite Hg. }
  destruct (counter_keys_strings
              (fun sar => ft <- subscript (VDict sar) "failure_taxonomy" ;;
                          subscript ft "class") sars)
    as [classes ->].
  { eapply Forall_impl; [ | exact Hs].
    intros sar (? & ? & cls & ? & ? & ? & _ & _ & _ & Hft & _).
    exists cls. exact Hft. }
  destruct sars as [ | sar rest]; [now contradiction Hne | ].
  destruct (keyed_by_pdb_id_strings (sar :: rest) Hs) as (keyed & -> & Hm & Hk).
  cbn [bind]. destruct (sorted_strings keyed Hk) as (l & -> & Hincl).
  cbn [of_result bind_outcome].
  destruct (summary_rows_return l) as [rows ->].
  { rewrite Hm in Hincl. apply Forall_forall. intros d Hd.
    exact (proj1 (Forall_forall _ _) Hs d (Hincl d Hd)). }
  cbn [bind_outcome]. eexists. reflexivity.
Qed.


End Pipeline.


End PipelineFacts.
